(** * zoq-agent: phase-sequenced orchestration and status streaming

    A shallow embedding of the orchestration core of the repository:
    the status manager ([status-manager.ts]), the three stage agents
    ([discovery-agent.ts], [enrichment-agent.ts], [email-writing-agent.ts]),
    the master orchestrator ([master-orchestrator-agent.ts]) and the
    streaming API route ([pages/api/agent/run.ts]).

    JavaScript values are embedded as the inductive [JsVal]; exceptions are
    explicit ([Res]); stateful code runs in a small state-and-exception
    monad over the world the code talks to (status manager, model, tool
    gateway, clock). *)

From Stdlib Require Import ZArith QArith String Ascii List Lia Bool.
From stdpp Require Import base option list strings pretty gmap.

Set Warnings "-register-all".
Close Scope Q_scope.
Open Scope string_scope.
Open Scope list_scope.

(** ** JavaScript values and strings *)

Module Js.

(** Values as [JSON.parse] and object literals produce them. Numbers are
    doubles in the source; the code modelled here only tests them against
    zero and passes them on, so they are kept as rationals. Objects keep
    their keys in insertion order. *)
Inductive JsVal : Type :=
| JUndef
| JNull
| JBool (b : bool)
| JNum (q : Q)
| JStr (s : string)
| JArr (items : list JsVal)
| JObj (fields : list (string * JsVal)).

(** A thrown error object: its [name] ([Error], [TypeError], ...) and its
    [message]. *)
Record Exn : Type := { exn_name : string; exn_message : string }.

Definition Error (m : string) : Exn := {| exn_name := "Error"; exn_message := m |}.
Definition TypeError (m : string) : Exn := {| exn_name := "TypeError"; exn_message := m |}.
Definition SyntaxError (m : string) : Exn := {| exn_name := "SyntaxError"; exn_message := m |}.

(** [String(e)] for an error object, as in a template literal. *)
Definition exnToString (e : Exn) : string :=
  if String.eqb (exn_message e) "" then exn_name e
  else exn_name e +:+ ": " +:+ exn_message e.

(** Outcome of a call: a value, a thrown error, or [OutOfFuel] when a loop
    of the model was cut off by its fuel (shown not to happen for fuel above
    the retry bounds). *)
Inductive Res (A : Type) : Type :=
| Ok (a : A)
| Throw (e : Exn)
| OutOfFuel.
Arguments Ok {A} a.
Arguments Throw {A} e.
Arguments OutOfFuel {A}.

(** [Boolean(v)]. *)
Definition truthy (v : JsVal) : bool :=
  match v with
  | JUndef | JNull => false
  | JBool b => b
  | JNum q => negb (Qeq_bool q 0)
  | JStr s => negb (String.eqb s "")
  | JArr _ | JObj _ => true
  end.

(** [a || b]. *)
Definition jsOr (a b : JsVal) : JsVal := if truthy a then a else b.

Fixpoint assoc (k : string) (fields : list (string * JsVal)) : option JsVal :=
  match fields with
  | [] => None
  | (k', v) :: rest => if String.eqb k k' then Some v else assoc k rest
  end.

(** [v.k]: a [TypeError] on [null] and [undefined]. None of the property
    names read by the modelled code is a built-in property of strings,
    numbers, booleans or arrays, so those yield [undefined]. *)
Definition getProp (v : JsVal) (k : string) : Res JsVal :=
  match v with
  | JUndef =>
      Throw (TypeError ("Cannot read properties of undefined (reading '" +:+ k +:+ "')"))
  | JNull =>
      Throw (TypeError ("Cannot read properties of null (reading '" +:+ k +:+ "')"))
  | JObj fields => Ok (default JUndef (assoc k fields))
  | _ => Ok JUndef
  end.

(** [v?.k]. *)
Definition getPropOpt (v : JsVal) (k : string) : JsVal :=
  match v with
  | JObj fields => default JUndef (assoc k fields)
  | _ => JUndef
  end.

Fixpoint chars (s : string) : list JsVal :=
  match s with
  | EmptyString => []
  | String c rest => JStr (String c EmptyString) :: chars rest
  end.

(** [v[i]] for a truthy [v]. *)
Definition getIndex (v : JsVal) (i : nat) : JsVal :=
  match v with
  | JArr items => default JUndef (items !! i)
  | JStr s => default JUndef (chars s !! i)
  | JObj fields => default JUndef (assoc (pretty i) fields)
  | _ => JUndef
  end.

(** The elements the spread [...v] contributes to an array literal:
    arrays and strings are iterable, anything else is a [TypeError]. *)
Definition spreadArray (v : JsVal) : Res (list JsVal) :=
  match v with
  | JArr items => Ok items
  | JStr s => Ok (chars s)
  | _ => Throw (TypeError "object is not iterable")
  end.

Fixpoint objSet (k : string) (v : JsVal) (fields : list (string * JsVal))
  : list (string * JsVal) :=
  match fields with
  | [] => [(k, v)]
  | (k', v') :: rest =>
      if String.eqb k k' then (k, v) :: rest else (k', v') :: objSet k v rest
  end.

(** The own enumerable properties the spread [{...v}] copies. *)
Definition spreadObject (v : JsVal) : list (string * JsVal) :=
  match v with
  | JObj fields => fields
  | JArr items => imap (fun i x => (pretty i, x)) items
  | JStr s => imap (fun i x => (pretty i, x)) (chars s)
  | _ => []
  end.

(** [{ ...v, k1: v1, ..., kn: vn }]. *)
Definition objExtend (v : JsVal) (extra : list (string * JsVal)) : JsVal :=
  JObj (fold_left (fun acc kv => objSet kv.1 kv.2 acc) extra (spreadObject v)).

Section ToString.
Variable showNum : Q -> string.

(** [String(v)], as in a template literal; inside [Array.prototype.join]
    the elements [null] and [undefined] print as the empty string. *)
Fixpoint jsToString (v : JsVal) : string :=
  match v with
  | JUndef => "undefined"
  | JNull => "null"
  | JBool true => "true"
  | JBool false => "false"
  | JNum q => showNum q
  | JStr s => s
  | JArr items =>
      let element x :=
        match x with JUndef | JNull => "" | _ => jsToString x end in
      (fix join (l : list JsVal) : string :=
         match l with
         | [] => ""
         | [x] => element x
         | x :: rest => element x +:+ "," +:+ join rest
         end) items
  | JObj _ => "[object Object]"
  end.
(** [items.join(sep)]. *)
Definition jsJoin (sep : string) (items : list JsVal) : string :=
  String.concat sep
    ((fun x => match x with JUndef | JNull => "" | _ => jsToString x end) <$> items).
End ToString.

(** Strings are sequences of 8-bit characters here; [toLowerCase] acts on
    the letters A-Z. *)
Definition lowerChar (c : ascii) : ascii :=
  let n := nat_of_ascii c in
  if (65 <=? n)%nat && (n <=? 90)%nat then ascii_of_nat (n + 32) else c.

Fixpoint toLowerCase (s : string) : string :=
  match s with
  | EmptyString => EmptyString
  | String c rest => String (lowerChar c) (toLowerCase rest)
  end.

Fixpoint startsWith (s p : string) : bool :=
  match p, s with
  | EmptyString, _ => true
  | String _ _, EmptyString => false
  | String a p', String b s' => Ascii.eqb a b && startsWith s' p'
  end.

(** [s.includes(sub)]. *)
Fixpoint includes (s sub : string) : bool :=
  startsWith s sub ||
  match s with
  | EmptyString => false
  | String _ rest => includes rest sub
  end.

Definition isDigit (c : ascii) : bool :=
  let n := nat_of_ascii c in (48 <=? n)%nat && (n <=? 57)%nat.

Fixpoint existsChar (p : ascii -> bool) (s : string) : bool :=
  match s with
  | EmptyString => false
  | String c rest => p c || existsChar p rest
  end.

Fixpoint skip (n : nat) (s : string) : string :=
  match n, s with
  | O, _ => s
  | S n', String _ rest => skip n' rest
  | S _, EmptyString => EmptyString
  end.

(** [s.replace(pat, rep)] for a non-empty string pattern: the first
    occurrence only. *)
Fixpoint replaceFirst (s pat rep : string) : string :=
  if startsWith s pat then rep +:+ skip (String.length pat) s
  else match s with
       | EmptyString => EmptyString
       | String c rest => String c (replaceFirst rest pat rep)
       end.

(** [v.length] for a [v] that is neither [null] nor [undefined]. *)
Definition lengthOf (v : JsVal) : JsVal :=
  match v with
  | JArr items => JNum (inject_Z (Z.of_nat (length items)))
  | JStr s => JNum (inject_Z (Z.of_nat (String.length s)))
  | JObj fields => default JUndef (assoc "length" fields)
  | _ => JUndef
  end.

(** [v?.[i]]. *)
Definition getIndexOpt (v : JsVal) (i : nat) : JsVal :=
  match v with
  | JUndef | JNull => JUndef
  | _ => getIndex v i
  end.

End Js.
Import Js.

(** ** Platform functions

    Library behaviour the code relies on and that is left abstract:
    floating-point formatting and arithmetic, [JSON.parse] and
    [JSON.stringify], and the regular-expression scavenging of model output
    used for logging. *)

Record Platform : Type := {
  (** [(ms / 1000).toFixed(1)] *)
  toFixed1 : Z -> string;
  (** [String(n)] for a number *)
  showNum : Q -> string;
  (** [v > 0] for a value [v] that is not a number *)
  coercedGt0 : JsVal -> bool;
  (** the mean of [email.confidence || 7] over the extracted emails *)
  averageConfidence : list JsVal -> JsVal;
  (** the mean of [p.confidence || 0] over a non-empty prospect list *)
  prospectAverage : list JsVal -> JsVal;
  (** [JSON.parse] on text; [None] is a [SyntaxError] *)
  JSON_parse : string -> option JsVal;
  (** [JSON.stringify] *)
  JSON_stringify : JsVal -> string;
  (** the distinct quoted phrases and list items that the planning step
      collects from the lines of the model's analysis text *)
  extractQueries : string -> list string;
  (** [parseInt] of the digits matched by
      [/(\d+)\s*(?:people|founders|contacts|profiles)/i], if it matches *)
  matchTargetCount : string -> option Z;
  (** [extractPeopleCardsForLogging] of the discovery agent *)
  extractPeopleCards : string -> list JsVal;
  (** [extractPeopleForLogging] of the enrichment agent *)
  extractPeople : string -> list JsVal;
  (** [extractEnrichedProfilesForLogging] of the enrichment agent *)
  extractEnrichedProfiles : string -> list JsVal;
  (** [extractEnrichedProfilesForLogging] of the email agent *)
  extractProfilesForEmail : string -> list JsVal;
  (** [extractEmailsForLogging] of the email agent *)
  extractEmails : string -> list JsVal;
}.

(** ** status-manager.ts *)

Module StatusManager.

Inductive UpdateType : Type := info | success | error | progress | data.

Inductive PhaseStatus : Type := pending | in_progress | completed | failed.

Global Instance PhaseStatus_eq_dec : EqDecision PhaseStatus.
Proof. solve_decision. Defined.

Record StatusUpdate : Type := {
  su_id : string;
  su_type : UpdateType;
  su_phase : string;
  su_message : string;
  su_timestamp : string;
  su_data : JsVal;
  su_progress : option Z;
}.

Record ProcessingPhase : Type := {
  pp_phase : string;
  pp_status : PhaseStatus;
  pp_startTime : option Z;
  pp_endTime : option Z;
  pp_duration : option string;
  pp_updates : list StatusUpdate;
}.

(** The object state. [listening] is the part of the inherited
    [EventEmitter] state that matters to the emitter: the event names
    that have a listener. *)
Record t : Type := {
  updates : list StatusUpdate;
  phases : gmap string ProcessingPhase;
  currentPhase : option string;
  sessionId : string;
  listening : gset string;
}.

(** What one operation reads from the environment: [Date.now()],
    [new Date().toISOString()] and the random suffix of the id. *)
Record Stamp : Type := {
  now : Z;
  iso : string;
  rnd : string;
}.

Definition phaseNames : list string :=
  ["planning"; "discovery"; "enrichment"; "email_writing"].

Definition pendingPhase (phase : string) : ProcessingPhase :=
  {| pp_phase := phase; pp_status := pending; pp_startTime := None;
     pp_endTime := None; pp_duration := None; pp_updates := [] |}.

Definition initializePhases (ph : gmap string ProcessingPhase)
  : gmap string ProcessingPhase :=
  fold_left (fun m phase => <[phase := pendingPhase phase]> m) phaseNames ph.

Definition create (sid : string) : t :=
  {| updates := []; phases := initializePhases ∅; currentPhase := None;
     sessionId := sid; listening := ∅ |}.

(** [on(event, listener)] as far as the emitter is concerned. *)
Definition on (event : string) (st : t) : t :=
  {| updates := updates st; phases := phases st;
     currentPhase := currentPhase st; sessionId := sessionId st;
     listening := {[event]} ∪ listening st |}.

Definition setPhases (ph : gmap string ProcessingPhase) (st : t) : t :=
  {| updates := updates st; phases := ph; currentPhase := currentPhase st;
     sessionId := sessionId st; listening := listening st |}.

Definition typeName (ty : UpdateType) : string :=
  match ty with
  | info => "info" | success => "success" | error => "error"
  | progress => "progress" | data => "data"
  end.

(** [emit(name, ...)]: an ['error'] event without a listener is thrown by
    the emitter; every other event without listener is dropped. *)
Definition emit (event : string) (st : t) : Res unit :=
  if decide (event = "error") then
    if decide (event ∈ listening st) then Ok tt else Throw (Error "Unhandled error.")
  else Ok tt.

Definition addUpdate (s : Stamp) (ty : UpdateType) (phase message : string)
    (progress : option Z) (payload : JsVal) (st : t) : Res unit * t :=
  let fullUpdate :=
    {| su_id := sessionId st +:+ "_" +:+ pretty (now s) +:+ "_" +:+ rnd s;
       su_type := ty; su_phase := phase; su_message := message;
       su_timestamp := iso s; su_data := payload; su_progress := progress |} in
  let ph :=
    match phases st !! phase with
    | Some pd =>
        <[phase := {| pp_phase := pp_phase pd; pp_status := pp_status pd;
                      pp_startTime := pp_startTime pd; pp_endTime := pp_endTime pd;
                      pp_duration := pp_duration pd;
                      pp_updates := pp_updates pd ++ [fullUpdate] |}]> (phases st)
    | None => phases st
    end in
  let st' :=
    {| updates := updates st ++ [fullUpdate]; phases := ph;
       currentPhase := currentPhase st; sessionId := sessionId st;
       listening := listening st |} in
  (* emit('update'), emit('status'), emit(type), emit('phase:' + phase) *)
  (emit (typeName ty) st', st').

Definition startPhase (s : Stamp) (phase message : string) (st : t) : Res unit * t :=
  let ph :=
    match phases st !! phase with
    | Some pd =>
        <[phase := {| pp_phase := pp_phase pd; pp_status := in_progress;
                      pp_startTime := Some (now s); pp_endTime := pp_endTime pd;
                      pp_duration := pp_duration pd;
                      pp_updates := pp_updates pd |}]> (phases st)
    | None => phases st
    end in
  let st1 :=
    {| updates := updates st; phases := ph; currentPhase := Some phase;
       sessionId := sessionId st; listening := listening st |} in
  addUpdate s info phase message None
    (JObj [("phase", JStr phase); ("action", JStr "start")]) st1.

Section Formatting.
Variable P : Platform.

(** The [endTime] and [duration] assignments shared by [completePhase]
    and [failPhase]: [duration] is only set for a truthy [startTime]. *)
Definition finish (s : Stamp) (status : PhaseStatus) (pd : ProcessingPhase)
  : ProcessingPhase :=
  {| pp_phase := pp_phase pd; pp_status := status;
     pp_startTime := pp_startTime pd; pp_endTime := Some (now s);
     pp_duration :=
       match pp_startTime pd with
       | Some t0 =>
           if (t0 =? 0)%Z then pp_duration pd
           else Some (toFixed1 P (now s - t0) +:+ "s")
       | None => pp_duration pd
       end;
     pp_updates := pp_updates pd |}.

Definition durationField (pd : option ProcessingPhase) : JsVal :=
  match pd with
  | Some d => match pp_duration d with Some x => JStr x | None => JUndef end
  | None => JUndef
  end.

Definition completePhase (s : Stamp) (phase message : string) (payload : JsVal)
    (st : t) : Res unit * t :=
  let pd' := finish s completed <$> (phases st !! phase) in
  let ph := match pd' with Some d => <[phase := d]> (phases st) | None => phases st end in
  addUpdate s success phase message None
    (objExtend payload [("phase", JStr phase); ("action", JStr "complete");
                        ("duration", durationField pd')])
    (setPhases ph st).

(** [err] is the optional third argument, an error object; the payload
    holds [error?.message || error]. *)
Definition failPhase (s : Stamp) (phase message : string) (err : option Exn)
    (st : t) : Res unit * t :=
  let pd' := finish s failed <$> (phases st !! phase) in
  let ph := match pd' with Some d => <[phase := d]> (phases st) | None => phases st end in
  addUpdate s error "error" message None
    (JObj [("error", match err with
                     | Some e => jsOr (JStr (exn_message e)) (JObj [])
                     | None => JUndef
                     end);
           ("phase", JStr phase); ("action", JStr "fail")])
    (setPhases ph st).
End Formatting.

Definition updateProgress (s : Stamp) (phase message : string) (progress : option Z)
    (payload : JsVal) (st : t) : Res unit * t :=
  addUpdate s StatusManager.progress phase message progress
    (objExtend payload [("phase", JStr phase); ("action", JStr "progress")]) st.

Definition updateData (s : Stamp) (phase message : string) (payload : JsVal)
    (st : t) : Res unit * t :=
  addUpdate s data phase message None
    (objExtend payload [("phase", JStr phase); ("action", JStr "data")]) st.

Definition updateInfo (s : Stamp) (phase message : string) (payload : JsVal)
    (st : t) : Res unit * t :=
  addUpdate s info phase message None
    (objExtend payload [("phase", JStr phase); ("action", JStr "info")]) st.

Definition updateSuccess (s : Stamp) (phase message : string) (payload : JsVal)
    (st : t) : Res unit * t :=
  addUpdate s success phase message None
    (objExtend payload [("phase", JStr phase); ("action", JStr "success")]) st.

Definition countStatus (status : PhaseStatus) (st : t) : nat :=
  size (filter (fun kv => pp_status kv.2 = status) (phases st)).

Record Summary : Type := {
  overallStatus : PhaseStatus;
  totalPhases : nat;
  completedPhases : nat;
  failedPhases : nat;
  inProgressPhases : nat;
}.

Definition getSummary (st : t) : Summary :=
  let total := size (phases st) in
  let nCompleted := countStatus completed st in
  let nFailed := countStatus failed st in
  let nInProgress := countStatus in_progress st in
  {| overallStatus :=
       if (0 <? nFailed)%nat then failed
       else if (nCompleted =? total)%nat then completed
       else if (0 <? nInProgress)%nat then in_progress
       else pending;
     totalPhases := total;
     completedPhases := nCompleted;
     failedPhases := nFailed;
     inProgressPhases := nInProgress |}.

Definition getAllUpdates (st : t) : list StatusUpdate := updates st.

Definition getPhaseUpdates (phase : string) (st : t) : list StatusUpdate :=
  match phases st !! phase with Some pd => pp_updates pd | None => [] end.

Definition clear (st : t) : t :=
  {| updates := []; phases := initializePhases ∅; currentPhase := None;
     sessionId := sessionId st; listening := listening st |}.

(** The mutating operations of the public interface, as data, so that
    arbitrary call sequences can be quantified over. *)
Inductive Op : Type :=
| OpStartPhase (s : Stamp) (phase message : string)
| OpCompletePhase (s : Stamp) (phase message : string) (payload : JsVal)
| OpFailPhase (s : Stamp) (phase message : string) (err : option Exn)
| OpUpdateProgress (s : Stamp) (phase message : string) (progress : option Z) (payload : JsVal)
| OpUpdateData (s : Stamp) (phase message : string) (payload : JsVal)
| OpUpdateInfo (s : Stamp) (phase message : string) (payload : JsVal)
| OpUpdateSuccess (s : Stamp) (phase message : string) (payload : JsVal)
| OpOn (event : string)
| OpClear.

Definition isClear (o : Op) : bool :=
  match o with OpClear => true | _ => false end.

(** One call; a throwing call still leaves its mutations behind. *)
Definition step (P : Platform) (o : Op) (st : t) : t :=
  match o with
  | OpStartPhase s p m => (startPhase s p m st).2
  | OpCompletePhase s p m d => (completePhase P s p m d st).2
  | OpFailPhase s p m e => (failPhase P s p m e st).2
  | OpUpdateProgress s p m pr d => (updateProgress s p m pr d st).2
  | OpUpdateData s p m d => (updateData s p m d st).2
  | OpUpdateInfo s p m d => (updateInfo s p m d st).2
  | OpUpdateSuccess s p m d => (updateSuccess s p m d st).2
  | OpOn ev => on ev st
  | OpClear => clear st
  end.

Definition run (P : Platform) (ops : list Op) (st : t) : t :=
  fold_left (fun acc o => step P o acc) ops st.

End StatusManager.


(** ** The world the agents talk to *)

Module World.

(** A tool invocation requested by the model. *)
Record ToolCall : Type := {
  tc_id : string;
  tc_name : string;
  tc_arguments : string;
}.

(** [response.choices[0].message]. *)
Record AssistantMessage : Type := {
  am_content : option string;
  am_tool_calls : option (list ToolCall);
}.

(** A chat completion either rejects or resolves, possibly without a
    message in its first choice. *)
Inductive ChatOutcome : Type :=
| ChatThrows (e : Exn)
| ChatReplies (message : option AssistantMessage).

Record Tool : Type := {
  tool_name : string;
  tool_description : option string;
}.

(** A tool call settles with a result, with an error, or with a result
    that arrives after more than thirty seconds. *)
Inductive ToolOutcome : Type :=
| ToolOk (result : JsVal)
| ToolErr (e : Exn)
| ToolLate (result : JsVal).

(** The prompt texts are not part of the model; a prompt is identified by
    its role in the protocol and the data interpolated into it. *)
Inductive Prompt : Type :=
| PlanningPrompt (userQuery : string)
| DiscoveryMission (searchQueries : list string) (request : JsVal)
| DiscoveryCompile
| EnrichmentMission (discoveryData : string)
| EnrichmentCompile
| EmailMission (enrichedData : string) (emailParams : JsVal).

Inductive Role : Type := user | assistant | tool.

Inductive Content : Type :=
| CNull
| CText (s : string)
| CPrompt (p : Prompt).

Record Message : Type := {
  role : Role;
  content : Content;
  tool_calls : option (list ToolCall);
  tool_call_id : option string;
}.

(** What the code does to the outside, in order. [EvAttempt] is the
    console line that opens an iteration of a retry loop. *)
Inductive Event : Type :=
| EvAttempt (stage : string) (n : nat)
| EvChat (messages : list Message) (tools : list string)
| EvListTools
| EvCallTool (name : string) (args : JsVal)
| EvSleep (ms : Z).

(** The behaviour of the environment: the outcome of the n-th chat
    completion, of the n-th [listTools], of the n-th [callTool], and the
    n-th reading of the clock and random source. *)
Record t : Type := {
  chat : nat -> ChatOutcome;
  listTools : nat -> Exn + list Tool;
  callTool : nat -> ToolOutcome;
  clock : nat -> StatusManager.Stamp;
}.

(** The mutable state: the status manager shared by the orchestrator and
    its agents, ghost records of every status-manager state reached
    ([snapshots], oldest first) and of the interactions ([trace]), and
    how far the environment has been consumed. *)
Record St : Type := {
  sm : StatusManager.t;
  snapshots : list StatusManager.t;
  trace : list Event;
  nChat : nat;
  nList : nat;
  nTool : nat;
  nClock : nat;
}.

Definition initial (m : StatusManager.t) : St :=
  {| sm := m; snapshots := [m]; trace := []; nChat := 0; nList := 0;
     nTool := 0; nClock := 0 |}.

Definition M (A : Type) : Type := St -> Res A * St.

Definition ret {A} (a : A) : M A := fun st => (Ok a, st).

Definition throw {A} (e : Exn) : M A := fun st => (Throw e, st).

Definition outOfFuel {A} : M A := fun st => (OutOfFuel, st).

Definition bind {A B} (c : M A) (k : A -> M B) : M B :=
  fun st =>
    match c st with
    | (Ok a, st') => k a st'
    | (Throw e, st') => (Throw e, st')
    | (OutOfFuel, st') => (OutOfFuel, st')
    end.

(** [try { body } catch (error) { handler }]: mutations made by [body]
    before it throws stay. *)
Definition tryCatch {A} (body : M A) (handler : Exn -> M A) : M A :=
  fun st =>
    match body st with
    | (Throw e, st') => handler e st'
    | other => other
    end.

Definition lift {A} (r : Res A) : M A := fun st => (r, st).

Definition emitEvent (e : Event) : M unit :=
  fun st =>
    (Ok tt, {| sm := sm st; snapshots := snapshots st; trace := trace st ++ [e];
               nChat := nChat st; nList := nList st; nTool := nTool st;
               nClock := nClock st |}).

End World.

Declare Scope monad_scope.
Delimit Scope monad_scope with monad.
Notation "'let*' x ':=' c 'in' k" :=
  (World.bind c (fun x => k))
  (at level 10, x pattern, c at level 100, k at level 200) : monad_scope.
Notation "c ';;' k" :=
  (World.bind c (fun _ => k))
  (at level 100, k at level 200, right associativity) : monad_scope.

Module Calls.
Import World.
Open Scope monad_scope.

Section Calls.
Variable W : World.t.
Variable P : Platform.

(** A method call on the shared status manager. *)
Definition statusCall
    (f : StatusManager.Stamp -> StatusManager.t -> Res unit * StatusManager.t)
  : M unit :=
  fun st =>
    let '(r, m) := f (clock W (nClock st)) (sm st) in
    (r, {| sm := m; snapshots := snapshots st ++ [m]; trace := trace st;
           nChat := nChat st; nList := nList st; nTool := nTool st;
           nClock := S (nClock st) |}).

Definition startPhase (phase message : string) : M unit :=
  statusCall (fun s => StatusManager.startPhase s phase message).

Definition completePhase (phase message : string) (payload : JsVal) : M unit :=
  statusCall (fun s => StatusManager.completePhase P s phase message payload).

Definition failPhase (phase message : string) (err : option Exn) : M unit :=
  statusCall (fun s => StatusManager.failPhase P s phase message err).

Definition updateProgress (phase message : string) (progress : Z) : M unit :=
  statusCall (fun s => StatusManager.updateProgress s phase message (Some progress) JUndef).

Definition updateData (phase message : string) (payload : JsVal) : M unit :=
  statusCall (fun s => StatusManager.updateData s phase message payload).

Definition updateInfo (phase message : string) : M unit :=
  statusCall (fun s => StatusManager.updateInfo s phase message JUndef).

Definition updateSuccess (phase message : string) : M unit :=
  statusCall (fun s => StatusManager.updateSuccess s phase message JUndef).

(** [await this.openai.chat.completions.create({ messages, tools })],
    yielding [response.choices[0]?.message]. *)
Definition chatCreate (messages : list Message) (tools : list string)
  : M (option AssistantMessage) :=
  fun st =>
    let st' := {| sm := sm st; snapshots := snapshots st;
                  trace := trace st ++ [EvChat messages tools];
                  nChat := S (nChat st); nList := nList st; nTool := nTool st;
                  nClock := nClock st |} in
    match chat W (nChat st) with
    | ChatThrows e => (Throw e, st')
    | ChatReplies m => (Ok m, st')
    end.

(** [await brightDataMCP.listTools()]. *)
Definition listToolsCall : M (list Tool) :=
  fun st =>
    let st' := {| sm := sm st; snapshots := snapshots st;
                  trace := trace st ++ [EvListTools];
                  nChat := nChat st; nList := S (nList st); nTool := nTool st;
                  nClock := nClock st |} in
    match listTools W (nList st) with
    | inl e => (Throw e, st')
    | inr tools => (Ok tools, st')
    end.

(** [brightDataMCP.callTool(name, args)], returning how the promise
    settles. *)
Definition callToolCall (name : string) (args : JsVal) : M ToolOutcome :=
  fun st =>
    (Ok (callTool W (nTool st)),
     {| sm := sm st; snapshots := snapshots st;
        trace := trace st ++ [EvCallTool name args];
        nChat := nChat st; nList := nList st; nTool := S (nTool st);
        nClock := nClock st |}).

Definition sleep (ms : Z) : M unit := emitEvent (EvSleep ms).

(** [new Date().toISOString()]. *)
Definition dateIso : M string :=
  fun st =>
    (Ok (StatusManager.iso (clock W (nClock st))),
     {| sm := sm st; snapshots := snapshots st; trace := trace st;
        nChat := nChat st; nList := nList st; nTool := nTool st;
        nClock := S (nClock st) |}).

(** Reading the shared status manager. *)
Definition getStatusManager : M StatusManager.t :=
  fun st => (Ok (sm st), st).

(** [Date.now()]. *)
Definition dateNow : M Z :=
  fun st =>
    (Ok (StatusManager.now (clock W (nClock st))),
     {| sm := sm st; snapshots := snapshots st; trace := trace st;
        nChat := nChat st; nList := nList st; nTool := nTool st;
        nClock := S (nClock st) |}).

Definition logAttempt (stage : string) (n : nat) : M unit :=
  emitEvent (EvAttempt stage n).

(** [xs.forEach((x, index) => f(x, index))]. *)
Fixpoint forEachFrom {A} (index : nat) (f : A -> nat -> M unit) (xs : list A) : M unit :=
  match xs with
  | [] => ret tt
  | x :: rest => f x index ;; forEachFrom (S index) f rest
  end.

Definition forEach {A} (f : A -> nat -> M unit) (xs : list A) : M unit :=
  forEachFrom 0 f xs.

(** [JSON.parse(text)]. *)
Definition parseText (text : string) : Res JsVal :=
  match JSON_parse P text with
  | Some v => Ok v
  | None => Throw (SyntaxError "Unexpected token in JSON")
  end.

End Calls.
End Calls.

(** What one iteration of a retry loop decides. *)
Inductive Step (A : Type) : Type :=
| Return (a : A)
| Continue (attempt : nat).
Arguments Return {A} a.
Arguments Continue {A} attempt.

(** ** discovery-agent.ts *)

Module DiscoveryAgent.
Import World Calls.
Open Scope monad_scope.

Definition maxPeople : nat := 3.
Definition retryAttempts : nat := 2.

Section Agent.
Variable W : World.t.
Variable P : Platform.

#[local] Abbreviation updateInfo := (Calls.updateInfo W).
#[local] Abbreviation updateProgress := (Calls.updateProgress W).
#[local] Abbreviation updateData := (Calls.updateData W).
#[local] Abbreviation updateSuccess := (Calls.updateSuccess W).
#[local] Abbreviation str := (jsToString (showNum P)).

Definition toolMessage (call : ToolCall) (body : string) : Message :=
  {| role := tool; content := CText body; tool_calls := None;
     tool_call_id := Some (tc_id call) |}.

(** The async callback mapped over the tool calls, up to the point where
    its promise settles: [inl] is a rejection. Argument parsing and the
    progress update come before the [try]; only the tool call is inside. *)
Definition searchOne (toolCall : ToolCall) (index : nat) : M (Exn + Message) :=
  match JSON_parse P (tc_arguments toolCall) with
  | None => ret (inl (SyntaxError "Unexpected token in JSON"))
  | Some args =>
      match getProp args "query" with
      | Ok query =>
          updateProgress "discovery" ("🔍 Searching: " +:+ str query)
            (30 + Z.of_nat index * 5) ;;
          let* outcome := callToolCall W "search_engine" args in
          match outcome with
          | ToolOk result | ToolLate result =>
              ret (inr (toolMessage toolCall (JSON_stringify P result)))
          | ToolErr e =>
              ret (inr (toolMessage toolCall
                          ("Search Error: " +:+ exn_message e)))
          end
      | Throw e => ret (inl e)
      | OutOfFuel => outOfFuel
      end
  end.

(** [tool_calls.map(async (toolCall, index) => ...)]: every callback runs
    up to its tool call, in order. *)
Fixpoint searchAllFrom (index : nat) (calls : list ToolCall) : M (list (Exn + Message)) :=
  match calls with
  | [] => ret []
  | c :: rest =>
      let* r := searchOne c index in
      let* rs := searchAllFrom (S index) rest in
      ret (r :: rs)
  end.

(** [await Promise.all(promises)]: rejects with the first rejection. *)
Fixpoint promiseAll {A} (settled : list (Exn + A)) : Res (list A) :=
  match settled with
  | [] => Ok []
  | inl e :: _ => Throw e
  | inr a :: rest =>
      match promiseAll rest with
      | Ok l => Ok (a :: l)
      | other => other
      end
  end.

Definition contentOrEmpty (m : option AssistantMessage) : string :=
  match m with
  | Some am => match am_content am with Some s => s | None => "" end
  | None => ""
  end.

Definition handleSearchAndReturn (messages : list Message)
    (response : option AssistantMessage) (tools : list string) : M string :=
  match response with
  | None => throw (Error "No assistant message received")
  | Some assistantMessage =>
      let messages1 :=
        messages ++
        [{| role := assistant;
            content := match am_content assistantMessage with
                       | Some s => CText s | None => CNull end;
            tool_calls := am_tool_calls assistantMessage;
            tool_call_id := None |}] in
      match am_tool_calls assistantMessage with
      | Some (c :: cs) =>
          let calls := c :: cs in
          updateProgress "discovery"
            ("Searching across " +:+ pretty (length calls) +:+ " sources simultaneously...")
            30 ;;
          let* settled := searchAllFrom 0 calls in
          let* toolResults := lift (promiseAll settled) in
          let messages2 := messages1 ++ toolResults in
          updateProgress "discovery" "Analyzing search results..." 70 ;;
          let messages3 :=
            messages2 ++
            [{| role := user; content := CPrompt DiscoveryCompile;
                tool_calls := None; tool_call_id := None |}] in
          let* finalResponse := chatCreate W messages3 [] in
          ret (contentOrEmpty finalResponse)
      | _ => ret (match am_content assistantMessage with Some s => s | None => "" end)
      end
  end.

Definition failedResponse (searchQueries : list string) (err : string) : JsVal :=
  JObj [("people", JArr []);
        ("searchQueries", JArr (JStr <$> searchQueries));
        ("totalSearches", JNum (inject_Z (Z.of_nat (length searchQueries))));
        ("status", JStr "failed");
        ("error", JStr err)].

(** The people found are shown one by one; reading a property of a [null]
    entry throws. *)
Definition showPerson (person : JsVal) (index : nat) : M unit :=
  let* summary := lift (getProp person "summary") in
  let* name := lift (getProp person "name") in
  let* company := lift (getProp person "company") in
  updateData "discovery"
    (pretty (S index) +:+ ". " +:+ str name +:+ ", " +:+ str company +:+ ", " +:+
     str (jsOr summary (JStr "Professional profile found")))
    (JObj [("person", person); ("index", JNum (inject_Z (Z.of_nat index)))]).

(** The body of the [try] of one attempt. *)
Definition attemptTry (searchQueries : list string) (request : JsVal)
    (attempt : nat) : M (Step string) :=
  logAttempt "discovery" (attempt + 1) ;;
  updateProgress "discovery" "Pondering on the task..." 15 ;;
  let messages :=
    [{| role := user; content := CPrompt (DiscoveryMission searchQueries request);
        tool_calls := None; tool_call_id := None |}] in
  let* response := chatCreate W messages ["search_engine"] in
  let* result := handleSearchAndReturn messages response ["search_engine"] in
  if (100 <? String.length result)%nat then
    updateProgress "discovery" "Processing all the search results..." 80 ;;
    let peopleCards := extractPeopleCards P result in
    (if (0 <? length peopleCards)%nat then
       updateSuccess "discovery"
         ("🎉 Hurray! Found " +:+ pretty (length peopleCards) +:+ " people:") ;;
       forEach showPerson peopleCards ;;
       updateData "discovery" "Found people data"
         (JObj [("people", JArr peopleCards);
                ("count", JNum (inject_Z (Z.of_nat (length peopleCards))));
                ("searchQueries", JArr (JStr <$> searchQueries))])
     else ret tt) ;;
    ret (Return result)
  else
    updateInfo "discovery"
      ("Attempt " +:+ pretty (attempt + 1) +:+ " - refining search approach...") ;;
    ret (Continue (attempt + 1)).

(** The [catch] of one attempt. *)
Definition attemptCatch (searchQueries : list string) (attempt : nat) (err : Exn)
  : M (Step string) :=
  updateInfo "discovery"
    ("Search attempt " +:+ pretty (attempt + 1) +:+ " encountered issues, retrying...") ;;
  let attempt := attempt + 1 in
  if (retryAttempts <=? attempt)%nat then
    updateInfo "discovery" "❌ Unable to find matching founders after multiple attempts" ;;
    ret (Return (JSON_stringify P (failedResponse searchQueries
                   ("Unable to find people data after " +:+ pretty retryAttempts +:+
                    " attempts. Error: " +:+ exnToString err))))
  else
    updateInfo "discovery" "Adjusting search strategy and retrying..." ;;
    sleep 2000 ;;
    ret (Continue attempt).

(** [while (attempt < this.retryAttempts) { try { ... } catch { ... } }]
    followed by the final failed response. *)
Fixpoint attemptLoop (fuel : nat) (searchQueries : list string) (request : JsVal)
    (attempt : nat)   : M string :=
  if (attempt <? retryAttempts)%nat then
    match fuel with
    | O => outOfFuel
    | S fuel' =>
        let* step := tryCatch (attemptTry searchQueries request attempt)
                              (attemptCatch searchQueries attempt) in
        match step with
        | Return result => ret result
        | Continue attempt' => attemptLoop fuel' searchQueries request attempt'
        end
    end
  else ret (JSON_stringify P (failedResponse searchQueries "No attempts succeeded")).

Definition findBasicPeople (fuel : nat) (searchQueries : list string) (request : JsVal)
    : M string :=
  updateInfo "discovery" "Finding founders who match your criteria..." ;;
  updateProgress "discovery" "Preparing search strategies..." 5 ;;
  updateInfo "discovery"
    ("Executing " +:+ pretty (length searchQueries) +:+ " targeted searches:") ;;
  forEach (fun query _ => updateInfo "discovery" ("• " +:+ query)) (take 3 searchQueries) ;;
  (if (3 <? length searchQueries)%nat then
     updateInfo "discovery"
       ("• ... and " +:+ pretty (length searchQueries - 3) +:+ " more searches")
   else ret tt) ;;
  let* availableTools := listToolsCall W in
  match find (fun t => String.eqb (tool_name t) "search_engine") availableTools with
  | None =>
      updateInfo "discovery" "❌ Search tools not available" ;;
      throw (Error "Search engine tool not available")
  | Some _ => attemptLoop fuel searchQueries request 0
  end.

End Agent.
End DiscoveryAgent.

(** ** enrichment-agent.ts *)

Module EnrichmentAgent.
Import World Calls.
Open Scope monad_scope.

Definition retryAttempts : nat := 2.
Definition MAX_ROUNDS : nat := 2.

Section Agent.
Variable W : World.t.
Variable P : Platform.

#[local] Abbreviation updateInfo := (Calls.updateInfo W).
#[local] Abbreviation updateProgress := (Calls.updateProgress W).
#[local] Abbreviation updateData := (Calls.updateData W).
#[local] Abbreviation updateSuccess := (Calls.updateSuccess W).
#[local] Abbreviation str := (jsToString (showNum P)).

(** [v > 0]. *)
Definition gt0 (v : JsVal) : bool :=
  match v with
  | JNum q => match Qcompare 0 q with Lt => true | _ => false end
  | JUndef | JNull => false
  | JBool b => b
  | _ => coercedGt0 P v
  end.

(** [toolUsage[name] = (toolUsage[name] || 0) + 1]. *)
Fixpoint countTool (name : string) (usage : list (string * nat)) : list (string * nat) :=
  match usage with
  | [] => [(name, 1%nat)]
  | (n, k) :: rest =>
      if String.eqb name n then (n, S k) :: rest else (n, k) :: countTool name rest
  end.

(** The user-facing line for one requested tool call. *)
Definition announceTool (toolCall : ToolCall) : M unit :=
  let toolName := tc_name toolCall in
  if String.eqb toolName "web_data_linkedin_person_profile" then
    updateInfo "enrichment" "👤 Scraping LinkedIn profiles..."
  else if String.eqb toolName "web_data_linkedin_company_profile" then
    updateInfo "enrichment" "🏢 Researching company LinkedIn pages..."
  else if String.eqb toolName "search_engine" then
    match JSON_parse P (tc_arguments toolCall) with
    | Some args =>
        match getProp args "query" with
        | Ok query => updateInfo "enrichment" ("🔍 Searching for: " +:+ str query)
        | _ => updateInfo "enrichment" "🔍 Performing targeted web searches..."
        end
    | None => updateInfo "enrichment" "🔍 Performing targeted web searches..."
    end
  else if String.eqb toolName "scrape_as_markdown" then
    updateInfo "enrichment" "🌐 Scraping company websites..."
  else ret tt.

Definition toolSummary (usage : list (string * nat)) : string :=
  String.concat ", "
    ((fun '(toolName, count) =>
        replaceFirst (replaceFirst toolName "web_data_" "") "_" " " +:+ ": " +:+ pretty count)
     <$> usage).

Definition toolMessage (call : ToolCall) (body : string) : Message :=
  {| role := World.tool; content := CText body; tool_calls := None;
     tool_call_id := Some (tc_id call) |}.

(** One tool call: parsing, the call raced against the thirty-second timer
    and the serialisation are all inside the [try], so the promise always
    fulfils. *)
Definition enrichOne (toolCall : ToolCall) : M Message :=
  let toolName := tc_name toolCall in
  match JSON_parse P (tc_arguments toolCall) with
  | None => ret (toolMessage toolCall "Error: Unexpected token in JSON")
  | Some args =>
      let* outcome := callToolCall W toolName args in
      match outcome with
      | ToolOk result => ret (toolMessage toolCall (JSON_stringify P result))
      | ToolErr e => ret (toolMessage toolCall ("Error: " +:+ exn_message e))
      | ToolLate _ => ret (toolMessage toolCall ("Error: " +:+ toolName +:+ " timeout"))
      end
  end.

Fixpoint enrichAll (calls : list ToolCall) : M (list Message) :=
  match calls with
  | [] => ret []
  | c :: rest =>
      let* m := enrichOne c in
      let* ms := enrichAll rest in
      ret (m :: ms)
  end.

Definition contentOf (am : AssistantMessage) : string :=
  match am_content am with Some s => s | None => "" end.

Definition assistantEntry (am : AssistantMessage) : Message :=
  {| role := assistant;
     content := match am_content am with Some s => CText s | None => CNull end;
     tool_calls := am_tool_calls am; tool_call_id := None |}.

Definition hasToolCalls (m : option AssistantMessage) : bool :=
  match m with
  | Some am => match am_tool_calls am with Some (_ :: _) => true | _ => false end
  | None => false
  end.

(** [handleEnrichment(messages, response, tools, round)]. The recursive
    call sits behind [!forceCompilation]; [fuel] bounds it in the model. *)
Fixpoint handleEnrichment (fuel : nat) (messages : list Message)
    (response : option AssistantMessage) (tools : list string) (round : nat)
  : M string :=
  match response with
  | None => throw (Error "No assistant message received")
  | Some assistantMessage =>
      let messages1 := messages ++ [assistantEntry assistantMessage] in
      match am_tool_calls assistantMessage with
      | Some (c :: cs) =>
          if (round <? MAX_ROUNDS)%nat then
            let calls := c :: cs in
            updateProgress "enrichment"
              ("🔧 Round " +:+ pretty (round + 1) +:+ ": Executing " +:+
               pretty (length calls) +:+ " enrichment tools...")
              (30 + Z.of_nat round * 30) ;;
            forEach (fun toolCall _ => announceTool toolCall) calls ;;
            let toolUsage := fold_left (fun acc call => countTool (tc_name call) acc) calls [] in
            updateInfo "enrichment" ("🛠️ Tool usage: " +:+ toolSummary toolUsage) ;;
            let* toolResults := enrichAll calls in
            let messages2 := messages1 ++ toolResults in
            let forceCompilation := (0 <=? round)%nat in
            let* messages3 :=
              if forceCompilation then
                updateProgress "enrichment" "🧠 Analyzing and compiling enrichment data..." 80 ;;
                ret (messages2 ++
                     [{| role := user; content := CPrompt EnrichmentCompile;
                         tool_calls := None; tool_call_id := None |}])
              else ret messages2 in
            let* continueMessage :=
              chatCreate W messages3 (if forceCompilation then [] else tools) in
            if hasToolCalls continueMessage && negb forceCompilation then
              updateProgress "enrichment"
                ("Continuing to round " +:+ pretty (round + 2) +:+ " for deeper insights...")
                60 ;;
              match fuel with
              | O => outOfFuel
              | S fuel' => handleEnrichment fuel' messages3 continueMessage tools (round + 1)
              end
            else
              ret (match continueMessage with Some am => contentOf am | None => "" end)
          else ret (contentOf assistantMessage)
      | _ => ret (contentOf assistantMessage)
      end
  end.

Definition failedResponse (step : string) : JsVal :=
  JObj [("enrichedProfiles", JArr []);
        ("totalSearches", JNum 0);
        ("sourcesScraped", JNum 0);
        ("status", JStr "failed");
        ("processingSteps", JArr [JStr step])].

(** The insight lines shown for one enriched profile. *)
Definition showProfile (profile : JsVal) (index : nat) : M unit :=
  let* emailSignals := lift (getProp profile "emailSignals") in
  let hook :=
    jsOr (getIndexOpt (getPropOpt emailSignals "personalizedHooks") 0)
         (JStr "Professional insights found") in
  let* name := lift (getProp profile "name") in
  let* company := lift (getProp profile "company") in
  updateData "enrichment"
    (pretty (S index) +:+ ". Found insights: " +:+ str name +:+ " is " +:+ str hook +:+
     " at " +:+ str company)
    (JObj [("profile", profile); ("index", JNum (inject_Z (Z.of_nat index)))]) ;;
  let painPoints := getPropOpt emailSignals "painPoints" in
  (if gt0 (match painPoints with
           | JUndef | JNull => JUndef
           | _ => lengthOf painPoints
           end) then
     match painPoints with
     | JArr items =>
         updateInfo "enrichment"
           ("      Pain points: " +:+ jsJoin (showNum P) ", " (take 2 items))
     | JStr _ => throw (TypeError "profile.emailSignals.painPoints.slice(...).join is not a function")
     | _ => throw (TypeError "profile.emailSignals.painPoints.slice is not a function")
     end
   else ret tt) ;;
  let email := getPropOpt (getPropOpt profile "personalInfo") "email" in
  if truthy email then updateInfo "enrichment" ("      Contact: " +:+ str email)
  else ret tt.

Definition attemptTry (tools : list string) (discoveryData : string) (fuel attempt : nat)
  : M (Step string) :=
  logAttempt "enrichment" (attempt + 1) ;;
  (if (0 <? attempt)%nat then
     updateInfo "enrichment"
       ("Enrichment attempt " +:+ pretty (attempt + 1) +:+ "/" +:+ pretty retryAttempts +:+ "...")
   else ret tt) ;;
  updateProgress "enrichment" "Starting deep profile analysis..." 20 ;;
  let messages :=
    [{| role := user; content := CPrompt (EnrichmentMission discoveryData);
        tool_calls := None; tool_call_id := None |}] in
  let* response := chatCreate W messages tools in
  let* result := handleEnrichment fuel messages response tools 0 in
  (if (300 <? String.length result)%nat then
     updateProgress "enrichment" "Compiling enrichment insights..." 90 ;;
     let enrichedProfiles := extractEnrichedProfiles P result in
     (if (0 <? length enrichedProfiles)%nat then
        updateSuccess "enrichment"
          ("📊 Enhanced " +:+ pretty (length enrichedProfiles) +:+
           " profiles with actionable insights:") ;;
        forEach showProfile enrichedProfiles ;;
        updateData "enrichment" "Enrichment data compiled"
          (JObj [("enrichedProfiles", JArr enrichedProfiles);
                 ("count", JNum (inject_Z (Z.of_nat (length enrichedProfiles))));
                 ("totalSearches", JNum (inject_Z (Z.of_nat (length enrichedProfiles * 3))));
                 ("sourcesScraped", JNum (inject_Z (Z.of_nat (length enrichedProfiles * 2))))])
      else ret tt) ;;
     ret (Return result)
   else
     updateInfo "enrichment"
       ("Attempt " +:+ pretty (attempt + 1) +:+ " - insufficient data, refining approach...") ;;
     ret (Continue (attempt + 1))).

Definition attemptCatch (attempt : nat) (err : Exn) : M (Step string) :=
  updateInfo "enrichment"
    ("Enrichment attempt " +:+ pretty (attempt + 1) +:+ " encountered issues...") ;;
  let attempt := attempt + 1 in
  if (retryAttempts <=? attempt)%nat then
    updateInfo "enrichment" "❌ Unable to enrich profiles after multiple attempts" ;;
    ret (Return (JSON_stringify P (failedResponse "Failed to start enrichment")))
  else
    updateInfo "enrichment" "Adjusting enrichment strategy and retrying..." ;;
    sleep 3000 ;;
    ret (Continue attempt).

Fixpoint attemptLoop (fuel : nat) (tools : list string) (discoveryData : string)
    (attempt : nat)   : M string :=
  if (attempt <? retryAttempts)%nat then
    match fuel with
    | O => outOfFuel
    | S fuel' =>
        let* step := tryCatch (attemptTry tools discoveryData fuel attempt)
                              (attemptCatch attempt) in
        match step with
        | Return result => ret result
        | Continue attempt' => attemptLoop fuel' tools discoveryData attempt'
        end
    end
  else ret (JSON_stringify P (failedResponse "All attempts failed")).

(** [arr.filter((tool, index, arr) => arr.findIndex(t => t.name === tool.name) === index)]. *)
Fixpoint uniqueNames (seen : list string) (tools : list Tool) : list string :=
  match tools with
  | [] => []
  | t :: rest =>
      if existsb (String.eqb (tool_name t)) seen then uniqueNames seen rest
      else tool_name t :: uniqueNames (tool_name t :: seen) rest
  end.

Definition showDiscovered (person : JsVal) (index : nat) : M unit :=
  updateInfo "enrichment"
    ("   " +:+ pretty (S index) +:+ ". " +:+ str (getPropOpt person "name") +:+ " at " +:+
     str (getPropOpt person "company") +:+ " - " +:+ str (getPropOpt person "role")).

Definition enrichPeopleWithEmailSignals (fuel : nat) (discoveryData : string)   : M string :=
  updateInfo "enrichment" "Enriching profiles with detailed information..." ;;
  let discoveredPeople := extractPeople P discoveryData in
  (if (0 <? length discoveredPeople)%nat then
     updateInfo "enrichment"
       ("👥 Enriching " +:+ pretty (length discoveredPeople) +:+ " profiles:") ;;
     forEach showDiscovered discoveredPeople
   else ret tt) ;;
  updateProgress "enrichment" "Preparing enrichment tools..." 10 ;;
  let* availableTools := listToolsCall W in
  attemptLoop fuel (uniqueNames [] availableTools) discoveryData 0.

End Agent.
End EnrichmentAgent.

(** ** email-writing-agent.ts *)

Module EmailWritingAgent.
Import World Calls.
Open Scope monad_scope.

Definition retryAttempts : nat := 2.

Definition genericPhrases : list string :=
  ["hope this finds you well";
   "hope you're doing well";
   "i hope this email";
   "reaching out to you";
   "wanted to connect";
   "i came across your profile";
   "i would love to discuss";
   "would you be interested"].

Definition personalizationSignals : list string :=
  ["saw your";
   "loved your";
   "noticed your";
   "congrats on";
   "your recent";
   "your post";
   "your interview";
   "your company";
   "just read"].

(** The score after the loop over the generic phrases. *)
Definition genericPenalty (emailContent : string) (score : Z) : Z :=
  fold_left
    (fun score phrase =>
       if includes (toLowerCase emailContent) phrase then (score - 2)%Z else score)
    genericPhrases score.

Definition personalizationCount (emailContent : string) : nat :=
  fold_left
    (fun count signal =>
       if includes (toLowerCase emailContent) signal then S count else count)
    personalizationSignals 0%nat.

(** [emailContent.match(/\$?\d+[KkMm]?/g)] finds something exactly when the
    text holds a digit. *)
Definition hasNumbers (emailContent : string) : bool :=
  existsChar isDigit emailContent.

Definition validateEmailQuality (emailContent : string) : Z :=
  let score := 10%Z in
  let score := genericPenalty emailContent score in
  let score :=
    if (personalizationCount emailContent =? 0)%nat then (score - 3)%Z else score in
  let score := if hasNumbers emailContent then score else (score - 1)%Z in
  let score :=
    if (1500 <? String.length emailContent)%nat then (score - 2)%Z
    else if (String.length emailContent <? 100)%nat then (score - 2)%Z
    else score in
  Z.max 0 (Z.min 10 score).

Section Agent.
Variable W : World.t.
Variable P : Platform.

#[local] Abbreviation updateInfo := (Calls.updateInfo W).
#[local] Abbreviation updateProgress := (Calls.updateProgress W).
#[local] Abbreviation updateData := (Calls.updateData W).
#[local] Abbreviation updateSuccess := (Calls.updateSuccess W).
#[local] Abbreviation str := (jsToString (showNum P)).

(** [email.personalizationPoints?.slice(0, 2).join(', ') || 'Basic personalization']. *)
Definition personalizationLine (points : JsVal) : Res string :=
  match points with
  | JUndef | JNull => Ok "Basic personalization"
  | JArr items =>
      let joined := jsJoin (showNum P) ", " (take 2 items) in
      Ok (if String.eqb joined "" then "Basic personalization" else joined)
  | JStr _ => Throw (TypeError "email.personalizationPoints.slice(...).join is not a function")
  | _ => Throw (TypeError "email.personalizationPoints.slice is not a function")
  end.

Definition showEmail (email : JsVal) (index : nat) : M unit :=
  let* recipientName := lift (getProp email "recipientName") in
  let* recipientCompany := lift (getProp email "recipientCompany") in
  updateData "email_writing"
    (pretty (S index) +:+ ". To: " +:+ str recipientName +:+ " at " +:+ str recipientCompany)
    (JObj [("email", email); ("index", JNum (inject_Z (Z.of_nat index)))]) ;;
  updateInfo "email_writing" ("      Subject: " +:+ str (getPropOpt email "subject")) ;;
  let* personalization := lift (personalizationLine (getPropOpt email "personalizationPoints")) in
  updateInfo "email_writing" ("      Personalization: " +:+ personalization) ;;
  let recipientEmail := getPropOpt email "recipientEmail" in
  if truthy recipientEmail then
    updateInfo "email_writing" ("      Email: " +:+ str recipientEmail)
  else ret tt.

Definition failedResponse (emailParams : JsVal) (message : string) (elapsed : Z) : JsVal :=
  JObj [("emails", JArr []);
        ("totalEmails", JNum 0);
        ("averagePersonalization", JNum 0);
        ("averageConfidence", JNum 0);
        ("emailType", jsOr (getPropOpt emailParams "emailType") (JStr "unknown"));
        ("status", JStr "failed");
        ("message", JStr message);
        ("generationTime", JStr (toFixed1 P elapsed +:+ "s"))].

Definition attemptTry (enrichedData : string) (emailParams : JsVal) (startTime : Z)
    (attempt : nat) : M (Step string) :=
  logAttempt "email_writing" (attempt + 1) ;;
  (if (0 <? attempt)%nat then
     updateInfo "email_writing"
       ("Email writing attempt " +:+ pretty (attempt + 1) +:+ "/" +:+
        pretty retryAttempts +:+ "...")
   else ret tt) ;;
  updateProgress "email_writing" "Adding personalization hooks..." 60 ;;
  let* currentTime := dateNow W in
  (if (15000 <? currentTime - startTime)%Z then
     updateProgress "email_writing" "⏳ Working more, hang tight... Checking status..." 70
   else ret tt) ;;
  updateProgress "email_writing" "Optimizing for response rates..." 80 ;;
  let* response :=
    chatCreate W
      [{| role := user; content := CPrompt (EmailMission enrichedData emailParams);
          tool_calls := None; tool_call_id := None |}] [] in
  let emailContent :=
    match response with
    | Some am => match am_content am with Some s => s | None => "" end
    | None => ""
    end in
  let* finished := dateNow W in
  let duration := toFixed1 P (finished - startTime) in
  (if (100 <? String.length emailContent)%nat then
     updateProgress "email_writing" "Validating email quality..." 90 ;;
     let emailsData := extractEmails P emailContent in
     (if (0 <? length emailsData)%nat then
        updateSuccess "email_writing"
          ("📧 Successfully generated " +:+ pretty (length emailsData) +:+
           " personalized emails:") ;;
        forEach showEmail emailsData ;;
        updateData "email_writing" "Generated emails data"
          (JObj [("emails", JArr emailsData);
                 ("totalEmails", JNum (inject_Z (Z.of_nat (length emailsData))));
                 ("averageConfidence", averageConfidence P emailsData);
                 ("emailType", getPropOpt emailParams "emailType");
                 ("generationTime", JStr (duration +:+ "s"))])
      else ret tt) ;;
     let qualityScore := validateEmailQuality emailContent in
     if (6 <=? qualityScore)%Z then
       updateSuccess "email_writing"
         ("✅ Done! Email generation completed in " +:+ duration +:+ "s") ;;
       ret (Return emailContent)
     else
       updateInfo "email_writing"
         ("Email quality score: " +:+ pretty qualityScore +:+ "/10 - refining approach...") ;;
       ret (Continue (attempt + 1))
   else
     updateInfo "email_writing"
       ("Attempt " +:+ pretty (attempt + 1) +:+ " - insufficient content, retrying...") ;;
     ret (Continue (attempt + 1))).

Definition attemptCatch (emailParams : JsVal) (startTime : Z) (attempt : nat) (err : Exn)
  : M (Step string) :=
  updateInfo "email_writing"
    ("Email writing attempt " +:+ pretty (attempt + 1) +:+ " encountered issues...") ;;
  let attempt := attempt + 1 in
  if (retryAttempts <=? attempt)%nat then
    updateInfo "email_writing" "❌ Unable to generate quality emails after multiple attempts" ;;
    let* finished := dateNow W in
    ret (Return (JSON_stringify P (failedResponse emailParams
                   ("Unable to generate quality emails after " +:+ pretty retryAttempts +:+
                    " attempts. Error: " +:+ exnToString err)
                   (finished - startTime))))
  else
    updateInfo "email_writing" "Adjusting email strategy and retrying..." ;;
    sleep 2000 ;;
    ret (Continue attempt).

Fixpoint attemptLoop (fuel : nat) (enrichedData : string) (emailParams : JsVal)
    (startTime : Z) (attempt : nat)   : M string :=
  if (attempt <? retryAttempts)%nat then
    match fuel with
    | O => outOfFuel
    | S fuel' =>
        let* step := tryCatch (attemptTry enrichedData emailParams startTime attempt)
                              (attemptCatch emailParams startTime attempt) in
        match step with
        | Return result => ret result
        | Continue attempt' => attemptLoop fuel' enrichedData emailParams startTime attempt'
        end
    end
  else
    let* finished := dateNow W in
    ret (JSON_stringify P (failedResponse emailParams "No attempts succeeded"
                             (finished - startTime))).

Definition showTarget (profile : JsVal) (index : nat) : M unit :=
  updateInfo "email_writing"
    ("   " +:+ pretty (S index) +:+ ". " +:+ str (getPropOpt profile "name") +:+ " at " +:+
     str (getPropOpt profile "company")).

Definition generatePersonalizedEmails (fuel : nat) (enrichedData : string)
    (emailParams : JsVal)   : M string :=
  (* the opening console lines read emailParams.emailType *)
  let* _ := lift (getProp emailParams "emailType") in
  updateInfo "email_writing" "Generating personalized cold emails..." ;;
  updateProgress "email_writing" "Analyzing enriched profiles..." 10 ;;
  let enrichedProfiles := extractProfilesForEmail P enrichedData in
  (if (0 <? length enrichedProfiles)%nat then
     updateInfo "email_writing"
       ("📝 Writing emails for " +:+ pretty (length enrichedProfiles) +:+ " people:") ;;
     forEach showTarget enrichedProfiles
   else ret tt) ;;
  updateProgress "email_writing" "Crafting hyper-personalized messages..." 30 ;;
  let* startTime := dateNow W in
  attemptLoop fuel enrichedData emailParams startTime 0.

End Agent.
End EmailWritingAgent.

(** ** master-orchestrator-agent.ts *)

Module MasterOrchestratorAgent.
Import World Calls.
Open Scope monad_scope.

Record UserProfile : Type := {
  up_name : string;
  up_company : string;
  up_valueProposition : string;
  up_caseStudy : option string;
  up_skills : option string;
  up_industry : option string;
}.

Record ExecutionPlan : Type := {
  intent : string;
  searchQueries : list string;
  userProfile : UserProfile;
  emailType : string;
  targetCount : Z;
}.

Record Timing : Type := {
  total : string;
  discovery : string;
  enrichment : string;
  emailWriting : string;
}.

Record MasterExecutionResult : Type := {
  success : bool;
  sessionId : string;
  executionPlan : option ExecutionPlan;
  discoveryData : JsVal;
  enrichmentData : JsVal;
  emailsGenerated : JsVal;
  timing : Timing;
  attemptNumber : nat;
  timestamp : string;
  error : option string;
  lastError : option string;
  totalAttempts : option nat;
  statusSummary : StatusManager.Summary;
}.

Definition retryAttempts : nat := 2.

Definition nl : string := String (ascii_of_nat 10) EmptyString.

Definition createFallbackPlan (userQuery : string) : ExecutionPlan :=
  let baseQueries :=
    ["startup founders contact information";
     "tech company CEO contact details";
     "successful startup founders LinkedIn";
     "venture backed startup founders";
     "tech entrepreneur contact information";
     "startup founder email addresses";
     "emerging tech company leaders"] in
  let baseQueries :=
    if includes (toLowerCase userQuery) "bangalore" || includes (toLowerCase userQuery) "banglore"
    then ["Bangalore startup founders contact";
          "AI SaaS startup founders Bangalore";
          "tech entrepreneurs Bangalore LinkedIn"] ++ baseQueries
    else baseQueries in
  let baseQueries :=
    if includes (toLowerCase userQuery) "yc" || includes (toLowerCase userQuery) "combinator"
    then ["Y Combinator alumni founders";
          "YC startup founders contact"] ++ baseQueries
    else baseQueries in
  {| intent := "sales_outreach";
     searchQueries := take 8 baseQueries;
     emailType := "sales_outreach";
     userProfile :=
       {| up_name := "Tamil M";
          up_company := "zoq agent";
          up_valueProposition := "AI  automation at scale";
          up_caseStudy := Some "helped dashchat.xyz generate leads";
          up_skills := None;
          up_industry := Some "AI/SaaS" |};
     targetCount := 3 |}.

Definition extractUserProfile (query : string) : UserProfile :=
  let lower := toLowerCase query in
  let prospectai := includes lower "prospectai" in
  {| up_name := if includes lower "kanoj" then "Kanoj Vora" else "User";
     up_company := if prospectai then "ProspectAI.co" else "Company";
     up_valueProposition :=
       if prospectai then "AI sales automation at scale" else "solutions";
     up_caseStudy :=
       if includes query "50k" || includes query "50K"
       then Some "Recently helped a company generate $50K pipeline with our tool"
       else None;
     up_skills := if includes lower "ai" then Some "AI, automation, startups" else None;
     up_industry := if prospectai then Some "AI/SaaS" else None |}.

Section Agent.
Variable W : World.t.
Variable P : Platform.

#[local] Abbreviation updateInfo := (Calls.updateInfo W).
#[local] Abbreviation updateProgress := (Calls.updateProgress W).
#[local] Abbreviation updateData := (Calls.updateData W).
#[local] Abbreviation updateSuccess := (Calls.updateSuccess W).
#[local] Abbreviation startPhase := (Calls.startPhase W).
#[local] Abbreviation completePhase := (Calls.completePhase W P).
#[local] Abbreviation failPhase := (Calls.failPhase W P).
#[local] Abbreviation str := (jsToString (showNum P)).

Definition extractPlanFromAnalysis (analysisText originalQuery : string) : ExecutionPlan :=
  let searchQueries := extractQueries P analysisText in
  let lowerQuery := toLowerCase originalQuery in
  let lowerAnalysis := toLowerCase analysisText in
  let searchQueries :=
    if (length searchQueries <? 3)%nat then
      if includes lowerQuery "yc" || includes lowerQuery "combinator" then
        searchQueries ++
        ["Y Combinator startup founders contact";
         "YC alumni founders LinkedIn profiles";
         "successful Y Combinator companies founders";
         "Y Combinator portfolio company CEOs";
         "YC Demo Day founders contact information"]
      else if includes lowerQuery "bangalore" || includes lowerQuery "banglore" then
        searchQueries ++
        ["Bangalore startup founders contact";
         "AI SaaS startup founders Bangalore";
         "tech entrepreneurs Bangalore LinkedIn";
         "startup CEO Bangalore contact information";
         "AI startup founders India contact"]
      else
        searchQueries ++
        ["startup founders contact information";
         "tech company CEO email addresses";
         "successful entrepreneur contact details";
         "startup founder LinkedIn profiles";
         "technology company leaders contact"]
    else searchQueries in
  let emailType :=
    if includes lowerQuery "sell" || includes lowerQuery "sales" ||
       includes lowerAnalysis "sales" || includes lowerQuery "product" ||
       includes lowerQuery "cold email"
    then "sales_outreach"
    else if includes lowerQuery "hire" || includes lowerQuery "job" ||
            includes lowerAnalysis "hiring"
    then "hiring_pitch"
    else if includes lowerQuery "funding" || includes lowerQuery "invest" ||
            includes lowerAnalysis "funding"
    then "startup_pitch"
    else "collaboration" in
  {| intent := emailType;
     searchQueries := take 10 searchQueries;
     emailType := emailType;
     userProfile := extractUserProfile originalQuery;
     targetCount :=
       match matchTargetCount P originalQuery with
       | Some n => Z.min n 5
       | None => 3
       end |}.

Definition generateSearchQueriesAndPlan (userQuery : string) : M ExecutionPlan :=
  updateProgress "planning" "Analyzing your request..." 30 ;;
  tryCatch
    (updateProgress "planning" "Creating search strategy..." 60 ;;
     let* response :=
       chatCreate W
         [{| role := user; content := CPrompt (PlanningPrompt userQuery);
             tool_calls := None; tool_call_id := None |}] [] in
     let analysisText :=
       match response with
       | Some am => match am_content am with Some s => s | None => "" end
       | None => ""
       end in
     updateProgress "planning" "Finalizing execution plan..." 90 ;;
     ret (extractPlanFromAnalysis analysisText userQuery))
    (fun _ =>
       updateInfo "planning" "Using fallback search strategy..." ;;
       ret (createFallbackPlan userQuery)).

Definition profileVal (u : UserProfile) : JsVal :=
  let opt (k : string) (o : option string) :=
    match o with Some s => [(k, JStr s)] | None => [] end in
  JObj ([("name", JStr (up_name u)); ("company", JStr (up_company u));
         ("valueProposition", JStr (up_valueProposition u))] ++
        opt "industry" (up_industry u) ++ opt "caseStudy" (up_caseStudy u) ++
        opt "skills" (up_skills u)).

Definition numVal (n : nat) : JsVal := JNum (inject_Z (Z.of_nat n)).

(** [v === 0]. *)
Definition isZero (v : JsVal) : bool :=
  match v with JNum q => Qeq_bool q 0 | _ => false end.

(** [v !== 'success']. *)
Definition notSuccess (v : JsVal) : bool :=
  match v with JStr s => negb (String.eqb s "success") | _ => true end.

(** [items.slice(0, 3).map((x, i) => line(x, i)).join(sep)]: only an array
    has both methods. *)
Definition firstThree (what : string) (items : JsVal) : Res (list JsVal) :=
  match items with
  | JArr l => Ok (take 3 l)
  | JStr _ => Throw (TypeError (what +:+ ".slice(...).map is not a function"))
  | _ => Throw (TypeError (what +:+ ".slice is not a function"))
  end.

Fixpoint linesFrom (index : nat) (line : JsVal -> nat -> Res string) (items : list JsVal)
  : Res (list string) :=
  match items with
  | [] => Ok []
  | x :: rest =>
      match line x index with
      | Ok s =>
          match linesFrom (S index) line rest with
          | Ok l => Ok (s :: l)
          | other => other
          end
      | Throw e => Throw e
      | OutOfFuel => OutOfFuel
      end
  end.

(** The checks shared by the three stages after [JSON.parse]:
    [data.status !== 'success' || !data[key] || data[key].length === 0]. *)
Definition rejected (parsed : JsVal) (key : string) : Res bool :=
  match getProp parsed "status" with
  | Ok status =>
      let items := getPropOpt parsed key in
      Ok (notSuccess status || negb (truthy items) || isZero (lengthOf items))
  | Throw e => Throw e
  | OutOfFuel => OutOfFuel
  end.

Definition personLine (p : JsVal) (i : nat) : Res string :=
  match getProp p "name" with
  | Ok name =>
      Ok (pretty (S i) +:+ ". " +:+ str name +:+ " at " +:+ str (getPropOpt p "company"))
  | Throw e => Throw e
  | OutOfFuel => OutOfFuel
  end.

Definition insightLine (p : JsVal) (i : nat) : Res string :=
  match getProp p "name" with
  | Ok name =>
      Ok (pretty (S i) +:+ ". " +:+ str name +:+ ": " +:+
          str (jsOr (getIndexOpt (getPropOpt (getPropOpt p "emailSignals") "personalizedHooks") 0)
                    (JStr "Professional insights found")))
  | Throw e => Throw e
  | OutOfFuel => OutOfFuel
  end.

Definition emailLine (e : JsVal) (i : nat) : Res string :=
  match getProp e "recipientName" with
  | Ok name =>
      Ok (pretty (S i) +:+ ". To: " +:+ str name +:+ " at " +:+
          str (getPropOpt e "recipientCompany") +:+ nl +:+ "   Subject: " +:+
          str (getPropOpt e "subject"))
  | Throw e' => Throw e'
  | OutOfFuel => OutOfFuel
  end.

Definition textFormat (result : string) : JsVal :=
  JObj [("rawResponse", JStr result); ("status", JStr "text_format")].

Definition durationPayload (duration : string) : JsVal :=
  JObj [("duration", JStr (duration +:+ "s"))].

(** PHASE 2, after the agent returned: parse, validate and report. *)
Definition checkDiscovery (discoveryResult duration : string) : M JsVal :=
  tryCatch
    (let* discoveryData := lift (parseText P discoveryResult) in
     let* bad := lift (rejected discoveryData "people") in
     if bad then
       throw (Error ("Discovery failed: " +:+
                     str (jsOr (getPropOpt discoveryData "error") (JStr "No people found"))))
     else
       let people := getPropOpt discoveryData "people" in
       let* shown := lift (firstThree "discoveryData.people" people) in
       let* lines := lift (linesFrom 0 personLine shown) in
       let peopleList := String.concat nl lines in
       completePhase "discovery"
         ("Hurray! Found " +:+ str (lengthOf people) +:+ " people")
         (JObj [("count", lengthOf people); ("people", JArr shown);
                ("duration", JStr (duration +:+ "s"))]) ;;
       updateData "discovery" ("Found people:" +:+ nl +:+ peopleList)
         (JObj [("people", people)]) ;;
       ret discoveryData)
    (fun parseError =>
       if startsWith discoveryResult "DISCOVERY_FAILED" then
         throw (Error ("Discovery phase failed: " +:+ discoveryResult))
       else
         completePhase "discovery" "Discovery completed (processing results...)"
           (durationPayload duration) ;;
         ret (textFormat discoveryResult)).

(** PHASE 3, after the agent returned. *)
Definition checkEnrichment (enrichmentResult duration : string) : M JsVal :=
  tryCatch
    (let* enrichmentData := lift (parseText P enrichmentResult) in
     let* bad := lift (rejected enrichmentData "enrichedProfiles") in
     if bad then
       throw (Error ("Enrichment failed: " +:+
                     str (jsOr (getPropOpt enrichmentData "error")
                               (JStr "No enriched profiles"))))
     else
       let profiles := getPropOpt enrichmentData "enrichedProfiles" in
       let* shown := lift (firstThree "enrichmentData.enrichedProfiles" profiles) in
       let* lines := lift (linesFrom 0 insightLine shown) in
       let insights := String.concat nl lines in
       completePhase "enrichment"
         ("Enhanced " +:+ str (lengthOf profiles) +:+ " profiles with actionable insights")
         (JObj [("count", lengthOf profiles); ("profiles", JArr shown);
                ("duration", JStr (duration +:+ "s"))]) ;;
       updateData "enrichment" ("Key insights:" +:+ nl +:+ insights)
         (JObj [("enrichedProfiles", profiles)]) ;;
       ret enrichmentData)
    (fun parseError =>
       if startsWith enrichmentResult "ENRICHMENT_FAILED" then
         throw (Error ("Enrichment phase failed: " +:+ enrichmentResult))
       else
         completePhase "enrichment" "Enrichment completed (processing data...)"
           (durationPayload duration) ;;
         ret (textFormat enrichmentResult)).

(** PHASE 4, after the agent returned. *)
Definition checkEmails (emailResult duration : string) : M JsVal :=
  tryCatch
    (let* emailData := lift (parseText P emailResult) in
     let* bad := lift (rejected emailData "emails") in
     if bad then
       throw (Error ("Email writing failed: " +:+
                     str (jsOr (getPropOpt emailData "message") (JStr "No emails generated"))))
     else
       let emails := getPropOpt emailData "emails" in
       let* shown := lift (firstThree "emailData.emails" emails) in
       let* lines := lift (linesFrom 0 emailLine shown) in
       let emailSummary := String.concat (nl +:+ nl) lines in
       completePhase "email_writing"
         ("Successfully generated " +:+ str (lengthOf emails) +:+ " personalized emails")
         (JObj [("count", lengthOf emails); ("emails", JArr shown);
                ("averageConfidence", getPropOpt emailData "averageConfidence");
                ("duration", JStr (duration +:+ "s"))]) ;;
       updateData "email_writing" ("Generated emails:" +:+ nl +:+ emailSummary)
         (JObj [("emails", emails)]) ;;
       ret emailData)
    (fun parseError =>
       if startsWith emailResult "EMAIL_WRITING_FAILED" then
         throw (Error ("Email writing failed: " +:+ emailResult))
       else
         completePhase "email_writing" "Email writing completed"
           (durationPayload duration) ;;
         ret (textFormat emailResult)).

(** [typeof data === 'string' ? data : JSON.stringify(data)]. *)
Definition asText (v : JsVal) : string :=
  match v with JStr s => s | _ => JSON_stringify P v end.

(** The body of the [try] of one pipeline attempt. *)
Definition attemptTry (fuel : nat) (userQuery : string) (overallStartTime : Z)
    (attempt : nat) : M MasterExecutionResult :=
  logAttempt "pipeline" attempt ;;
  (if (1 <? attempt)%nat then
     updateInfo "planning"
       ("Retrying... (Attempt " +:+ pretty attempt +:+ "/" +:+ pretty retryAttempts +:+ ")")
   else ret tt) ;;
  (* PHASE 1 *)
  startPhase "planning" "Analyzing request and planning search strategy..." ;;
  let* plan := generateSearchQueriesAndPlan userQuery in
  completePhase "planning"
    ("Plan ready: " +:+ emailType plan +:+ " emails for " +:+ pretty (targetCount plan) +:+
     " people")
    (JObj [("emailType", JStr (emailType plan));
           ("targetCount", JNum (inject_Z (targetCount plan)));
           ("userProfile", profileVal (userProfile plan));
           ("searchQueries", numVal (length (searchQueries plan)))]) ;;
  (* PHASE 2 *)
  startPhase "discovery" "Finding founders who match your criteria..." ;;
  let* discoveryStartTime := dateNow W in
  let* discoveryResult :=
    DiscoveryAgent.findBasicPeople W P fuel (searchQueries plan)
      (JObj [("query", JStr userQuery); ("targetCount", JNum (inject_Z (targetCount plan)))]) in
  let* t2 := dateNow W in
  let discoveryDuration := toFixed1 P (t2 - discoveryStartTime) in
  let* discoveryData := checkDiscovery discoveryResult discoveryDuration in
  (* PHASE 3 *)
  startPhase "enrichment" "Enriching profiles with detailed information..." ;;
  let* enrichmentStartTime := dateNow W in
  let* enrichmentResult :=
    EnrichmentAgent.enrichPeopleWithEmailSignals W P fuel (asText discoveryData) in
  let* t3 := dateNow W in
  let enrichmentDuration := toFixed1 P (t3 - enrichmentStartTime) in
  let* enrichmentData := checkEnrichment enrichmentResult enrichmentDuration in
  (* PHASE 4 *)
  startPhase "email_writing" "Generating personalized cold emails..." ;;
  let* emailStartTime := dateNow W in
  let* emailResult :=
    EmailWritingAgent.generatePersonalizedEmails W P fuel (asText enrichmentData)
      (JObj [("emailType", JStr (emailType plan));
             ("userProfile", profileVal (userProfile plan))]) in
  let* t4 := dateNow W in
  let emailDuration := toFixed1 P (t4 - emailStartTime) in
  let* emailData := checkEmails emailResult emailDuration in
  (* SUCCESS *)
  let* t5 := dateNow W in
  let totalDuration := toFixed1 P (t5 - overallStartTime) in
  updateSuccess "complete"
    ("🎉 Success! Generated " +:+
     str (jsOr (match getPropOpt emailData "emails" with
                | JUndef | JNull => JUndef
                | emails => lengthOf emails
                end) (JStr "multiple")) +:+
     " personalized emails in " +:+ totalDuration +:+ "s") ;;
  let* m := getStatusManager in
  let* stamp := dateIso W in
  ret {| success := true;
         sessionId := StatusManager.sessionId m;
         executionPlan := Some plan;
         discoveryData := discoveryData;
         enrichmentData := enrichmentData;
         emailsGenerated := emailData;
         timing := {| total := totalDuration +:+ "s";
                      discovery := discoveryDuration +:+ "s";
                      enrichment := enrichmentDuration +:+ "s";
                      emailWriting := emailDuration +:+ "s" |};
         attemptNumber := attempt;
         timestamp := stamp;
         error := None; lastError := None; totalAttempts := None;
         statusSummary := StatusManager.getSummary m |}.

Definition failedStage (message : string) : JsVal :=
  JObj [("status", JStr "failed"); ("error", JStr message)].

(** The [catch] of one pipeline attempt: retry, or give up after the last
    attempt. *)
Definition attemptCatch (overallStartTime : Z) (attempt : nat) (err : Exn)
  : M (Step MasterExecutionResult) :=
  if (attempt <? retryAttempts)%nat then
    updateInfo "error"
      ("Attempt " +:+ pretty attempt +:+ " failed: " +:+ exn_message err +:+ ". Retrying...") ;;
    sleep 3000 ;;
    ret (Continue (attempt + 1))
  else
    failPhase "error" ("All attempts failed: " +:+ exn_message err) (Some err) ;;
    let* m := getStatusManager in
    let* t := dateNow W in
    let* stamp := dateIso W in
    ret (Return
           {| success := false;
              sessionId := StatusManager.sessionId m;
              error := Some "All execution attempts failed";
              lastError := Some (exn_message err);
              totalAttempts := Some retryAttempts;
              executionPlan := None;
              discoveryData := failedStage "Failed to discover people";
              enrichmentData := failedStage "Failed to enrich profiles";
              emailsGenerated := failedStage "Failed to generate emails";
              timing := {| total := toFixed1 P (t - overallStartTime) +:+ "s";
                           discovery := "N/A"; enrichment := "N/A";
                           emailWriting := "N/A" |};
              attemptNumber := attempt;
              timestamp := stamp;
              statusSummary := StatusManager.getSummary m |}).

(** [for (let attempt = 1; attempt <= this.retryAttempts; attempt++)]
    followed by the result for the flow the source marks as never reached. *)
Fixpoint pipelineLoop (fuel : nat) (agentFuel : nat) (userQuery : string)
    (overallStartTime : Z) (attempt : nat) : M MasterExecutionResult :=
  if (attempt <=? retryAttempts)%nat then
    match fuel with
    | O => outOfFuel
    | S fuel' =>
        let* step :=
          tryCatch
            (let* r := attemptTry agentFuel userQuery overallStartTime attempt in
             ret (Return r))
            (attemptCatch overallStartTime attempt) in
        match step with
        | Return result => ret result
        | Continue attempt' =>
            pipelineLoop fuel' agentFuel userQuery overallStartTime attempt'
        end
    end
  else
    let* m := getStatusManager in
    let* t := dateNow W in
    let* stamp := dateIso W in
    ret {| success := false;
           sessionId := StatusManager.sessionId m;
           error := Some "Unexpected execution flow";
           lastError := None; totalAttempts := None;
           executionPlan := None;
           discoveryData := JObj [("status", JStr "failed")];
           enrichmentData := JObj [("status", JStr "failed")];
           emailsGenerated := JObj [("status", JStr "failed")];
           timing := {| total := toFixed1 P (t - overallStartTime) +:+ "s";
                        discovery := "N/A"; enrichment := "N/A";
                        emailWriting := "N/A" |};
           attemptNumber := retryAttempts;
           timestamp := stamp;
           statusSummary := StatusManager.getSummary m |}.

Definition executeQuery (fuel : nat) (userQuery : string) : M MasterExecutionResult :=
  updateInfo "planning" "Understanding your request..." ;;
  let* overallStartTime := dateNow W in
  pipelineLoop fuel fuel userQuery overallStartTime 1.

End Agent.
End MasterOrchestratorAgent.

(** ** pages/api/agent/run.ts *)

Module Api.
Import World.

(** The prospect built for [email] at position [index]. Reading a property
    of a [null] email and spreading a value that is not iterable throw. *)
Definition buildProspect (generatedAt : string) (discoveryData enrichmentData : JsVal)
    (email : JsVal) (index : nat) : Res JsVal :=
  let discoveryPerson := jsOr (getIndex discoveryData index) (JObj []) in
  let enrichedProfile := jsOr (getIndex enrichmentData index) (JObj []) in
  let personalInfo := getPropOpt enrichedProfile "personalInfo" in
  let companyInfo := getPropOpt enrichedProfile "companyInfo" in
  let emailSignals := getPropOpt enrichedProfile "emailSignals" in
  match getProp email "recipientName" with
  | Ok recipientName =>
      match spreadArray (jsOr (getPropOpt enrichedProfile "keyInsights") (JArr [])),
            spreadArray (jsOr (getPropOpt emailSignals "personalizedHooks") (JArr [])),
            spreadArray (jsOr (getPropOpt emailSignals "currentChallenges") (JArr [])) with
      | Ok keyInsights, Ok hooks, Ok challenges =>
          Ok (JObj
            [("id", JStr ("prospect_" +:+ pretty (S index)));
             ("name", jsOr recipientName
                        (jsOr (getPropOpt discoveryPerson "name")
                              (JStr ("Person " +:+ pretty (S index)))));
             ("company", jsOr (getPropOpt email "recipientCompany")
                           (jsOr (getPropOpt discoveryPerson "company")
                                 (JStr "Unknown Company")));
             ("role", jsOr (getPropOpt discoveryPerson "role")
                        (jsOr (getPropOpt enrichedProfile "role") (JStr "Professional")));
             ("location", jsOr (getPropOpt discoveryPerson "location")
                            (jsOr (getPropOpt personalInfo "location") (JStr "")));
             ("email", jsOr (getPropOpt email "recipientEmail")
                         (jsOr (getPropOpt discoveryPerson "email")
                               (jsOr (getPropOpt personalInfo "email") (JStr ""))));
             ("linkedInUrl", jsOr (getPropOpt discoveryPerson "linkedinUrl")
                               (jsOr (getPropOpt personalInfo "linkedinUrl") JNull));
             ("companyUrl", jsOr (getPropOpt discoveryPerson "companyUrl")
                              (jsOr (getPropOpt companyInfo "companyUrl") JNull));
             ("imageUrl", jsOr (getPropOpt discoveryPerson "imageUrl") JNull);
             ("message",
              JObj [("subject", jsOr (getPropOpt email "subject") (JStr "No subject available"));
                    ("body", jsOr (getPropOpt email "body") (JStr "No message available"));
                    ("personalization", jsOr (getPropOpt email "personalizationPoints") (JArr []));
                    ("confidence", jsOr (getPropOpt email "confidence") (JNum 0));
                    ("wordCount", jsOr (getPropOpt email "wordCount") (JNum 0));
                    ("emailType", jsOr (getPropOpt email "emailType") (JStr "unknown"))]);
             ("research",
              JObj [("insights", JArr (filter (fun v => truthy v = true)
                                         (keyInsights ++ hooks ++ challenges)));
                    ("painPoints", jsOr (getPropOpt emailSignals "painPoints") (JArr []));
                    ("opportunities", jsOr (getPropOpt emailSignals "opportunities") (JArr []));
                    ("companyInfo", jsOr companyInfo (JObj []));
                    ("fundingStage", jsOr (getPropOpt companyInfo "fundingStage") (JStr ""));
                    ("teamSize", jsOr (getPropOpt companyInfo "teamSize") (JNum 0))]);
             ("confidence", jsOr (getPropOpt email "confidence")
                              (jsOr (getPropOpt enrichedProfile "confidence") (JNum 0)));
             ("emailType", jsOr (getPropOpt email "emailType") (JStr "unknown"));
             ("wordCount", jsOr (getPropOpt email "wordCount") (JNum 0));
             ("generatedAt", JStr generatedAt)])
      | Throw e, _, _ | Ok _, Throw e, _ | Ok _, Ok _, Throw e => Throw e
      | _, _, _ => OutOfFuel
      end
  | Throw e => Throw e
  | OutOfFuel => OutOfFuel
  end.

(** [emailData.forEach((email, index) => { ...; prospects.push(prospect) })]
    inside the function's [try]: the first entry that throws ends the loop
    and the prospects pushed so far are returned. *)
Fixpoint transformFrom (generatedAt : nat -> string) (discoveryData enrichmentData : JsVal)
    (index : nat) (emails : list JsVal) (prospects : list JsVal) : list JsVal :=
  match emails with
  | [] => prospects
  | email :: rest =>
      match buildProspect (generatedAt index) discoveryData enrichmentData email index with
      | Ok prospect =>
          transformFrom generatedAt discoveryData enrichmentData (S index) rest
            (prospects ++ [prospect])
      | _ => prospects
      end
  end.

(** [generatedAt i] is the clock reading taken while entry [i] is built. *)
Definition transformCapturedDataToProspects (generatedAt : nat -> string)
    (capturedData : JsVal) : list JsVal :=
  match getProp capturedData "emails" with
  | Ok emails =>
      let emailData := jsOr emails (JArr []) in
      let discoveryData := jsOr (getPropOpt capturedData "discovery") (JArr []) in
      let enrichmentData := jsOr (getPropOpt capturedData "enrichment") (JArr []) in
      match emailData with
      | JArr (email :: rest) =>
          transformFrom generatedAt discoveryData enrichmentData 0 (email :: rest) []
      | _ => []
      end
  | _ => []
  end.

Record Request : Type := {
  method : string;
  (** [req.body] with its [query], a string by the route's contract *)
  body : option string;
}.

(** The client side of the connection as the handler observes it:
    [res.writable] at the n-th time it is tested, whether the n-th write
    throws, and after how many status updates of the run the request's
    [close] or [end] event fires (if it does before the run settles). *)
Record Transport : Type := {
  writableAt : nat -> bool;
  writeThrowsAt : nat -> bool;
  closedAfter : option nat;
}.

Record FrontendResult : Type := {
  fr_success : bool;
  fr_prospects : list JsVal;
  fr_timing : MasterOrchestratorAgent.Timing;
  fr_sessionId : string;
  fr_totalProspects : nat;
  fr_averageConfidence : JsVal;
  fr_executionPlan : option MasterOrchestratorAgent.ExecutionPlan;
  fr_attemptNumber : nat;
  fr_timestamp : string;
  fr_capturedEmails : JsVal;
  fr_capturedDiscovery : JsVal;
  fr_capturedEnrichment : JsVal;
}.

Inductive FrontendUpdate : Type :=
| StatusUpdateMsg (phase message : string) (progress : option Z) (thinking : string)
    (payload : JsVal)
| FinalResult (result : FrontendResult)
| ErrorMsg (message : string).

(** What goes out on the response, in order. *)
Inductive Chunk : Type :=
| Preflight
| JsonResponse (status : nat) (message : string)
| Head
| Comment (text : string)
| EventMessage (payload : FrontendUpdate)
| EventDone
| StreamEnd.

(** The response object and the handler's locals. *)
Record Conn : Type := {
  chunks : list Chunk;
  tests : nat;
  writes : nat;
  responseSent : bool;
  timers : nat;
  captured : JsVal;
}.

Definition emitChunk (c : Chunk) (conn : Conn) : Conn :=
  {| chunks := chunks conn ++ [c]; tests := tests conn; writes := writes conn;
     responseSent := responseSent conn; timers := timers conn;
     captured := captured conn |}.

Section Handler.
Variable W : World.t.
Variable P : Platform.
Variable T : Transport.

(** [sendSSEData(res, data)]. *)
Definition sendSSEData (payload : FrontendUpdate) (conn : Conn) : Res unit * Conn :=
  let conn1 :=
    {| chunks := chunks conn; tests := S (tests conn); writes := writes conn;
       responseSent := responseSent conn; timers := timers conn;
       captured := captured conn |} in
  if writableAt T (tests conn) then
    let conn2 :=
      {| chunks := chunks conn1; tests := tests conn1; writes := S (writes conn1);
         responseSent := responseSent conn1; timers := timers conn1;
         captured := captured conn1 |} in
    if writeThrowsAt T (writes conn) then (Throw (Error "write failed"), conn2)
    else (Ok tt, emitChunk (EventMessage payload) conn2)
  else (Ok tt, conn1).

(** [endSSEStream(res)]. *)
Definition endSSEStream (conn : Conn) : Conn :=
  let conn1 :=
    {| chunks := chunks conn; tests := S (tests conn); writes := writes conn;
       responseSent := responseSent conn; timers := timers conn;
       captured := captured conn |} in
  if writableAt T (tests conn) then emitChunk StreamEnd (emitChunk EventDone conn1)
  else conn1.

Definition setResponseSent (conn : Conn) : Conn :=
  {| chunks := chunks conn; tests := tests conn; writes := writes conn;
     responseSent := true; timers := timers conn; captured := captured conn |}.

(** [setTimeout(() => endSSEStream(res), 100)]. *)
Definition scheduleEnd (conn : Conn) : Conn :=
  {| chunks := chunks conn; tests := tests conn; writes := writes conn;
     responseSent := responseSent conn; timers := S (timers conn);
     captured := captured conn |}.

Definition setCaptured (key : string) (v : JsVal) (conn : Conn) : Conn :=
  {| chunks := chunks conn; tests := tests conn; writes := writes conn;
     responseSent := responseSent conn; timers := timers conn;
     captured := JObj (objSet key v (spreadObject (captured conn))) |}.

Definition phaseMapping (phase : string) : string :=
  if String.eqb phase "enrichment" then "research"
  else if String.eqb phase "email_writing" then "generation"
  else phase.

(** The ['update'] listener: capture stage data, then forward the update
    unless the client is known to be gone. *)
Definition onUpdate (u : StatusManager.StatusUpdate) (conn : Conn) : Conn :=
  let d := StatusManager.su_data u in
  let phase := StatusManager.su_phase u in
  let capture (name field key : string) (c : Conn) : Conn :=
    if String.eqb phase name && truthy (getPropOpt d field)
    then setCaptured key (getPropOpt d field) c else c in
  let conn :=
    if truthy d then
      capture "email_writing" "emails" "emails"
        (capture "enrichment" "enrichedProfiles" "enrichment"
           (capture "discovery" "people" "discovery" conn))
    else conn in
  if responseSent conn then conn
  else
    (sendSSEData
       (StatusUpdateMsg (phaseMapping phase) (StatusManager.su_message u)
          (StatusManager.su_progress u) (StatusManager.su_message u) d)
       conn).2.

(** The updates of the run reach the listener one by one; the request's
    [close] event, if any, is handled between two of them. *)
Fixpoint deliver (seen : nat) (us : list StatusManager.StatusUpdate) (conn : Conn) : Conn :=
  let conn :=
    match closedAfter T with
    | Some k => if (k =? seen)%nat then setResponseSent conn else conn
    | None => conn
    end in
  match us with
  | [] => conn
  | u :: rest => deliver (S seen) rest (onUpdate u conn)
  end.

(** The outcome event, followed by arming the timer that ends the stream;
    [fallback] is what the surrounding [catch] does when the write throws. *)
Definition sendOutcome (payload : FrontendUpdate) (fallback : Conn -> Conn) (conn : Conn)
  : Conn :=
  if responseSent conn then conn
  else
    match sendSSEData payload conn with
    | (Ok _, conn') => scheduleEnd (setResponseSent conn')
    | (_, conn') => fallback conn'
    end.

Fixpoint fireTimers (n : nat) (conn : Conn) : Conn :=
  match n with
  | O => conn
  | S n' => fireTimers n' (endSSEStream conn)
  end.

Definition initialConn : Conn :=
  {| chunks := []; tests := 0; writes := 0; responseSent := false; timers := 0;
     captured := JObj [("emails", JArr []); ("discovery", JArr []); ("enrichment", JArr [])] |}.

(** The route handler followed by the timers it armed; the result is
    everything written to the response. [generatedAt] supplies the clock
    readings of the transformation. *)
Definition handler (fuel : nat) (sid : string) (generatedAt : nat -> string)
    (req : Request) : list Chunk :=
  if String.eqb (method req) "OPTIONS" then [Preflight]
  else if negb (String.eqb (method req) "POST") then [JsonResponse 405 "Method not allowed"]
  else
    match body req with
    | None => [JsonResponse 400 "Request body is required"]
    | Some query =>
        if String.eqb query "" then [JsonResponse 400 "Query is required"]
        else
          let conn := emitChunk (Comment "connection established") (emitChunk Head initialConn) in
          let conn :=
            (sendSSEData
               (StatusUpdateMsg "planning" "Starting agent process..." (Some 0%Z)
                  "Initializing systems" JUndef) conn).2 in
          let statusManager := StatusManager.on "update" (StatusManager.create sid) in
          let '(outcome, st) :=
            MasterOrchestratorAgent.executeQuery W P fuel query (World.initial statusManager) in
          let conn := deliver 0 (StatusManager.updates (sm st)) conn in
          let conn :=
            match outcome with
            | Ok masterResult =>
                if responseSent conn then conn
                else
                  let prospects := transformCapturedDataToProspects generatedAt (captured conn) in
                  let frontendResult :=
                    {| fr_success := MasterOrchestratorAgent.success masterResult;
                       fr_prospects := prospects;
                       fr_timing := MasterOrchestratorAgent.timing masterResult;
                       fr_sessionId := MasterOrchestratorAgent.sessionId masterResult;
                       fr_totalProspects := length prospects;
                       fr_averageConfidence :=
                         if (0 <? length prospects)%nat then prospectAverage P prospects
                         else JNum 0;
                       fr_executionPlan := MasterOrchestratorAgent.executionPlan masterResult;
                       fr_attemptNumber := MasterOrchestratorAgent.attemptNumber masterResult;
                       fr_timestamp := MasterOrchestratorAgent.timestamp masterResult;
                       fr_capturedEmails := lengthOf (getPropOpt (captured conn) "emails");
                       fr_capturedDiscovery := lengthOf (getPropOpt (captured conn) "discovery");
                       fr_capturedEnrichment :=
                         lengthOf (getPropOpt (captured conn) "enrichment") |} in
                  sendOutcome (FinalResult frontendResult) (fun c => c) conn
            | Throw e =>
                sendOutcome
                  (ErrorMsg (if String.eqb (exn_message e) ""
                             then "An unexpected error occurred" else exn_message e))
                  (fun c => c) conn
            | OutOfFuel => conn
            end in
          chunks (fireTimers (timers conn) conn)
    end.

End Handler.
End Api.
(** * Specification vocabulary *)

Module Spec.
Import StatusManager.

Definition somePhase (status : PhaseStatus) (st : StatusManager.t) : Prop :=
  exists k pd, phases st !! k = Some pd /\ pp_status pd = status.

Definition allPhases (status : PhaseStatus) (st : StatusManager.t) : Prop :=
  forall k pd, phases st !! k = Some pd -> pp_status pd = status.

End Spec.

Module Logic.
Import World.

Definition isAttempt (e : Event) : bool :=
  match e with EvAttempt _ _ => true | _ => false end.

(** Number of retry-loop iterations opened in a trace. *)
Definition attemptsIn (tr : list Event) : nat := length (List.filter isAttempt tr).

(** A computation that always returns normally and leaves the record of
    the interactions with the model and the tool gateway untouched, as the
    status and clock calls do. *)
Definition silent {A} (c : M A) : Prop :=
  forall st, exists a st',
    c st = (Ok a, st') /\ trace st' = trace st /\ nChat st' = nChat st /\
    nList st' = nList st /\ nTool st' = nTool st.

(** A computation that always returns normally without calling the model. *)
Definition calm {A} (c : M A) : Prop :=
  forall st, exists a st', c st = (Ok a, st') /\ nChat st' = nChat st.

(** A computation that opens no retry-loop iteration and does not run out
    of fuel; it may throw only if [canThrow], and a value it returns
    satisfies [R]. *)
Definition quiet {A} (canThrow : bool) (R : A -> Prop) (c : M A) : Prop :=
  forall st,
    attemptsIn (trace (c st).2) = attemptsIn (trace st) /\
    match (c st).1 with
    | Ok a => R a
    | Throw _ => canThrow = true
    | OutOfFuel => False
    end.

(** A computation that opens exactly [n] retry-loop iterations. *)
Definition opens {A} (n : nat) (canThrow : bool) (R : A -> Prop) (c : M A) : Prop :=
  forall st,
    attemptsIn (trace (c st).2) = attemptsIn (trace st) + n /\
    match (c st).1 with
    | Ok a => R a
    | Throw _ => canThrow = true
    | OutOfFuel => False
    end.

(** A computation that does not run out of fuel and whose returned values
    satisfy [R]. *)
Definition yields {A} (R : A -> Prop) (c : M A) : Prop :=
  forall st,
    match (c st).1 with
    | Ok a => R a
    | Throw _ => True
    | OutOfFuel => False
    end.

(** A computation that does not run out of fuel. *)
Definition terminates {A} (c : M A) : Prop :=
  forall st, (c st).1 <> OutOfFuel.

End Logic.

Module StageSpec.
Import World Logic.

(** The text is the serialisation of a payload whose [status] is
    ["failed"]. *)
Definition failedText (P : Platform) (s : string) : Prop :=
  exists payload,
    s = JSON_stringify P payload /\ getPropOpt payload "status" = JStr "failed".

(** What a retry loop does from any state: it opens at most two
    iterations and returns either an answer of the model that passed the
    stage's acceptance test, or, after exactly two iterations, a failed
    payload; it does not throw. *)
Definition loopBounded (P : Platform) (sufficient : string -> Prop) (c : M string) : Prop :=
  forall st,
    match (c st).1 with
    | Ok s =>
        (sufficient s /\ attemptsIn (trace (c st).2) <= attemptsIn (trace st) + 2) \/
        (failedText P s /\ attemptsIn (trace (c st).2) = attemptsIn (trace st) + 2)
    | Throw _ => False
    | OutOfFuel => False
    end.

(** The same for a whole stage, which may throw before its loop starts,
    having opened no iteration. *)
Definition stageBounded (P : Platform) (sufficient : string -> Prop) (c : M string) : Prop :=
  forall st,
    match (c st).1 with
    | Ok s =>
        (sufficient s /\ attemptsIn (trace (c st).2) <= attemptsIn (trace st) + 2) \/
        (failedText P s /\ attemptsIn (trace (c st).2) = attemptsIn (trace st) + 2)
    | Throw _ => attemptsIn (trace (c st).2) = attemptsIn (trace st)
    | OutOfFuel => False
    end.

(** The email stage accepts a text longer than 100 characters that
    scores at least 6. *)
Definition accepted (s : string) : Prop :=
  (100 < String.length s)%nat /\ (6 <= EmailWritingAgent.validateEmailQuality s)%Z.

(** What one iteration of a retry loop hands to the loop, for a stage with
    bound [retryAttempts] and acceptance test [sufficient]. *)
Definition stepOk (P : Platform) (retryAttempts : nat) (sufficient : string -> Prop)
    (attempt : nat) (step : Step string) : Prop :=
  match step with
  | Return s => sufficient s \/ (failedText P s /\ retryAttempts <= attempt + 1)
  | Continue a => a = attempt + 1
  end.

(** What one iteration of the pipeline loop hands to the loop: it asks for
    another attempt only while attempts remain. *)
Definition nextAttempt {A} (retryAttempts attempt : nat) (step : Step A) : Prop :=
  match step with
  | Return _ => True
  | Continue a => a = attempt + 1 /\ (attempt < retryAttempts)%nat
  end.

(** Computations that never hand back a stage result. *)
Definition noReturn (c : M (Step string)) : Prop :=
  forall st s, (c st).1 <> Ok (Return s).

(** Computations that hand back no stage result when the next answer of
    the model is [reply]. *)
Definition rejectsReply (W : World.t) (reply : option AssistantMessage)
    (c : M (Step string)) : Prop :=
  forall st, chat W (nChat st) = ChatReplies reply ->
    forall s, (c st).1 <> Ok (Return s).

End StageSpec.

Module BatchSpec.
Import World.

(** The arguments of a call parse and their [query] can be read. *)
Definition wellFormed (P : Platform) (c : ToolCall) : Prop :=
  exists args query,
    JSON_parse P (tc_arguments c) = Some args /\ getProp args "query" = Ok query.

Definition parsedArgs (P : Platform) (c : ToolCall) : JsVal :=
  default JUndef (JSON_parse P (tc_arguments c)).

(** The text of the tool-result message for a settled search. *)
Definition searchBody (P : Platform) (o : ToolOutcome) : string :=
  match o with
  | ToolOk result | ToolLate result => JSON_stringify P result
  | ToolErr e => "Search Error: " +:+ exn_message e
  end.

(** One tool-result message per call, in call order; the i-th call of the
    batch is the gateway's call number [from + i]. *)
Fixpoint searchResults (W : World.t) (P : Platform) (from : nat) (calls : list ToolCall)
  : list Message :=
  match calls with
  | [] => []
  | c :: rest =>
      DiscoveryAgent.toolMessage c (searchBody P (callTool W from))
      :: searchResults W P (S from) rest
  end.

Definition dispatched (P : Platform) (calls : list ToolCall) : list Event :=
  (fun c => EvCallTool "search_engine" (parsedArgs P c)) <$> calls.

Definition assistantEntry (am : AssistantMessage) : Message :=
  {| role := assistant;
     content := match am_content am with Some s => CText s | None => CNull end;
     tool_calls := am_tool_calls am; tool_call_id := None |}.

Definition compileRequest : Message :=
  {| role := user; content := CPrompt DiscoveryCompile;
     tool_calls := None; tool_call_id := None |}.

Definition failedCalls (W : World.t) (from n : nat) : nat :=
  length (List.filter
            (fun i => match callTool W (from + i) with ToolErr _ => true | _ => false end)
            (seq 0 n)).

Definition isSearchError (m : Message) : bool :=
  match content m with
  | CText s => startsWith s "Search Error: "
  | _ => false
  end.

End BatchSpec.

Module StreamSpec.
Import Api.

(** The client stays connected: no [close] event is seen, the response
    stays writable and no write fails. *)
Definition connected (T : Transport) : Prop :=
  closedAfter T = None /\
  (forall n, writableAt T n = true) /\
  (forall n, writeThrowsAt T n = false).

Definition isStatusChunk (c : Chunk) : Prop :=
  match c with
  | EventMessage (StatusUpdateMsg _ _ _ _ _) => True
  | _ => False
  end.

Definition isOutcome (u : FrontendUpdate) : Prop :=
  match u with
  | FinalResult _ | ErrorMsg _ => True
  | StatusUpdateMsg _ _ _ _ _ => False
  end.

End StreamSpec.

Module ProspectSpec.
Import Api.

(** The captured data object with its three fields. *)
Definition capturedOf (emails discovery enrichment : JsVal) : JsVal :=
  JObj [("emails", emails); ("discovery", discovery); ("enrichment", enrichment)].







End ProspectSpec.

Module RunSpec.
Import StatusManager.

(** The statuses of the four phase records, in the order planning,
    discovery, enrichment, email_writing. *)
Definition phaseStatuses (m : StatusManager.t) : list (option PhaseStatus) :=
  (fun k => pp_status <$> (phases m !! k)) <$> phaseNames.

End RunSpec.

(** * Sample inputs *)

Definition samplePlatform : Platform :=
  {| toFixed1 := fun ms => pretty (ms / 1000)%Z +:+ "." +:+ pretty ((ms / 100) mod 10)%Z;
     showNum := fun q => pretty (Qnum q / Zpos (Qden q))%Z;
     coercedGt0 := fun _ => false;
     averageConfidence := fun _ => JNum 7;
     prospectAverage := fun _ => JNum 0;
     JSON_parse := fun _ => None;
     JSON_stringify := fun v =>
       match getPropOpt v "status" with
       | JStr s => "{ status: " +:+ s +:+ " }"
       | _ => "{}"
       end;
     extractQueries := fun _ => [];
     matchTargetCount := fun _ => None;
     extractPeopleCards := fun _ => [];
     extractPeople := fun _ => [];
     extractEnrichedProfiles := fun _ => [];
     extractProfilesForEmail := fun _ => [];
     extractEmails := fun _ => [] |}.

Definition sampleStamp (n : Z) : StatusManager.Stamp :=
  {| StatusManager.now := 1700000000000 + n;
     StatusManager.iso := "2023-11-14T22:13:20." +:+ pretty n +:+ "Z";
     StatusManager.rnd := "k3x9q" +:+ pretty n |}.


Definition sampleTools : list World.Tool :=
  [{| World.tool_name := "search_engine"; World.tool_description := Some "Search the web" |};
   {| World.tool_name := "scrape_as_markdown"; World.tool_description := None |}].

(** The model is down: every chat completion rejects. *)
Definition modelDown : World.t :=
  {| World.chat := fun _ => World.ChatThrows (Error "503 Service Unavailable");
     World.listTools := fun _ => inr sampleTools;
     World.callTool := fun _ => World.ToolErr (Error "not reached");
     World.clock := fun n => sampleStamp (Z.of_nat n) |}.

(** The tool gateway is down: [listTools] rejects every time, while the
    model answers the planning call with plain text. *)
Definition gatewayDown : World.t :=
  {| World.chat := fun _ =>
       World.ChatReplies
         (Some {| World.am_content := Some "1. AI founders in Seattle";
                  World.am_tool_calls := None |});
     World.listTools := fun _ => inl (Error "MCP connection timeout");
     World.callTool := fun _ => World.ToolErr (Error "not connected");
     World.clock := fun n => sampleStamp (Z.of_nat n) |}.

Definition quote : string := String (ascii_of_nat 34) EmptyString.

(** The argument text [{"query":"<q>"}]. *)
Definition queryArgs (q : string) : string :=
  "{" +:+ quote +:+ "query" +:+ quote +:+ ":" +:+ quote +:+ q +:+ quote +:+ "}".

(** A platform whose [JSON.parse] knows the argument texts of two searches
    and rejects everything else. *)
Definition searchPlatform : Platform :=
  {| toFixed1 := toFixed1 samplePlatform;
     showNum := showNum samplePlatform;
     coercedGt0 := coercedGt0 samplePlatform;
     averageConfidence := averageConfidence samplePlatform;
     prospectAverage := prospectAverage samplePlatform;
     JSON_parse := fun s =>
       if String.eqb s (queryArgs "AI founders Seattle")
       then Some (JObj [("query", JStr "AI founders Seattle")])
       else if String.eqb s (queryArgs "Seattle AI startups CEO")
       then Some (JObj [("query", JStr "Seattle AI startups CEO")])
       else None;
     JSON_stringify := JSON_stringify samplePlatform;
     extractQueries := extractQueries samplePlatform;
     matchTargetCount := matchTargetCount samplePlatform;
     extractPeopleCards := extractPeopleCards samplePlatform;
     extractPeople := extractPeople samplePlatform;
     extractEnrichedProfiles := extractEnrichedProfiles samplePlatform;
     extractProfilesForEmail := extractProfilesForEmail samplePlatform;
     extractEmails := extractEmails samplePlatform |}.

(** The gateway answers the first search and fails the second. *)
Definition searchWorld : World.t :=
  {| World.chat := fun _ =>
       World.ChatReplies
         (Some {| World.am_content := Some "{ people: [] }"; World.am_tool_calls := None |});
     World.listTools := fun _ => inr sampleTools;
     World.callTool := fun n =>
       match n with
       | O => World.ToolOk (JArr [JStr "Ada Park - CEO, Rainier AI"])
       | _ => World.ToolErr (Error "429 rate limited")
       end;
     World.clock := fun n => sampleStamp (Z.of_nat n) |}.

Definition goodCall1 : World.ToolCall :=
  {| World.tc_id := "call_1"; World.tc_name := "search_engine";
     World.tc_arguments := queryArgs "AI founders Seattle" |}.

Definition goodCall2 : World.ToolCall :=
  {| World.tc_id := "call_2"; World.tc_name := "search_engine";
     World.tc_arguments := queryArgs "Seattle AI startups CEO" |}.

(** A call whose argument text is cut off, so that it is not JSON. *)
Definition brokenCall : World.ToolCall :=
  {| World.tc_id := "call_3"; World.tc_name := "search_engine";
     World.tc_arguments := "{" +:+ quote +:+ "query" +:+ quote +:+ ":" +:+ quote +:+ "AI found" |}.

Definition turn (calls : list World.ToolCall) : World.AssistantMessage :=
  {| World.am_content := None; World.am_tool_calls := Some calls |}.

Definition sampleQuery : string :=
  "Find 2 AI founders in Seattle and write sales emails, I'm Sam from Acme".

Definition sampleEmail (name company : string) : JsVal :=
  JObj [("recipientName", JStr name); ("recipientCompany", JStr company);
        ("subject", JStr "Quick idea"); ("body", JStr "Saw your launch post.")].

Definition samplePerson (name company role : string) : JsVal :=
  JObj [("name", JStr name); ("company", JStr company); ("role", JStr role)].

Definition sampleClock (i : nat) : string := "2023-11-14T22:13:2" +:+ pretty i +:+ "Z".

(** A client that stays connected. *)
Definition steadyClient : Api.Transport :=
  {| Api.writableAt := fun _ => true; Api.writeThrowsAt := fun _ => false;
     Api.closedAfter := None |}.

Fixpoint repeatText (n : nat) (s : string) : string :=
  match n with
  | O => EmptyString
  | S n' => s +:+ repeatText n' s
  end.

(** A model answer that passes every stage: longer than 300 characters,
    with a personalization signal and a number, and no boilerplate. *)
Definition goodAnswer : string :=
  "Saw your launch post, Ada. We cut outbound work by 40 percent for teams like yours. " +:+
  repeatText 12 "Happy to share details whenever it suits you. ".

Definition sampleResult : JsVal :=
  JObj [("status", JStr "success");
        ("people", JArr [samplePerson "Ada Park" "Rainier AI" "CEO";
                         samplePerson "Bo Lind" "Sound ML" "CTO"]);
        ("enrichedProfiles", JArr [samplePerson "Ada Park" "Rainier AI" "CEO";
                                   samplePerson "Bo Lind" "Sound ML" "CTO"]);
        ("emails", JArr [sampleEmail "Ada Park" "Rainier AI";
                         sampleEmail "Bo Lind" "Sound ML"])].

(** A platform on which every stage result parses to [sampleResult]. *)
Definition happyPlatform : Platform :=
  {| toFixed1 := toFixed1 samplePlatform;
     showNum := showNum samplePlatform;
     coercedGt0 := coercedGt0 samplePlatform;
     averageConfidence := averageConfidence samplePlatform;
     prospectAverage := prospectAverage samplePlatform;
     JSON_parse := fun _ => Some sampleResult;
     JSON_stringify := JSON_stringify samplePlatform;
     extractQueries := extractQueries samplePlatform;
     matchTargetCount := fun _ => Some 2%Z;
     extractPeopleCards := extractPeopleCards samplePlatform;
     extractPeople := extractPeople samplePlatform;
     extractEnrichedProfiles := extractEnrichedProfiles samplePlatform;
     extractProfilesForEmail := extractProfilesForEmail samplePlatform;
     extractEmails := extractEmails samplePlatform |}.

(** Model and gateway both work; the model answers without tool calls. *)
Definition happyWorld : World.t :=
  {| World.chat := fun _ =>
       World.ChatReplies
         (Some {| World.am_content := Some goodAnswer; World.am_tool_calls := None |});
     World.listTools := fun _ => inr sampleTools;
     World.callTool := fun _ => World.ToolOk (JArr []);
     World.clock := fun n => sampleStamp (Z.of_nat n) |}.

(** A text with boilerplate and nothing personal. *)
Definition boilerplate : string :=
  "Hi Ada, I hope this finds you well. " +:+
  repeatText 3 "We build tools that help teams move faster. ".

(** A model that only ever writes the boilerplate text. *)
Definition boilerplateWorld : World.t :=
  {| World.chat := fun _ =>
       World.ChatReplies
         (Some {| World.am_content := Some boilerplate; World.am_tool_calls := None |});
     World.listTools := fun _ => inr sampleTools;
     World.callTool := fun _ => World.ToolOk (JArr []);
     World.clock := fun n => sampleStamp (Z.of_nat n) |}.

(** The outcome and end-of-stream chunks of a response, as short labels. *)
Definition outcomesOf (cs : list Api.Chunk) : list string :=
  omap (fun c =>
          match c with
          | Api.EventMessage (Api.FinalResult r) =>
              Some ("final-result " +:+ pretty (Api.fr_totalProspects r))
          | Api.EventMessage (Api.ErrorMsg m) => Some ("error " +:+ m)
          | Api.EventDone => Some "done"
          | Api.StreamEnd => Some "end"
          | _ => None
          end) cs.

(** * Properties *)

(** ** Status manager: summary *)

Section SummaryFacts.
Import StatusManager Spec.

Lemma countStatus_pos (status : PhaseStatus) (st : StatusManager.t) :
  (0 < countStatus status st)%nat <-> somePhase status st.
Proof.
  unfold countStatus, somePhase. split.
  - intros Hpos.
    assert (Hne : size (filter (fun kv => pp_status kv.2 = status) (phases st)) <> 0%nat) by lia.
    apply map_size_ne_0_lookup in Hne as [k [pd Hk]].
    apply map_lookup_filter_Some in Hk as [Hk Hp]. eauto.
  - intros (k & pd & Hk & Hp).
    assert (Hne : size (filter (fun kv => pp_status kv.2 = status) (phases st)) <> 0%nat).
    { apply map_size_ne_0_lookup. exists k, pd.
      apply map_lookup_filter_Some. split; [exact Hk | exact Hp]. }
    lia.
Qed.

Lemma countStatus_all (status : PhaseStatus) (st : StatusManager.t) :
  countStatus status st = size (phases st) <-> allPhases status st.
Proof.
  unfold countStatus, allPhases. split.
  - intros Hsz k pd Hk.
    assert (Heq : filter (fun kv => pp_status kv.2 = status) (phases st) = phases st).
    { apply map_subseteq_size_eq; [apply map_filter_subseteq | lia]. }
    rewrite <- Heq in Hk. apply map_lookup_filter_Some in Hk as [_ Hp]. exact Hp.
  - intros Hall. f_equal. apply map_filter_id. intros k pd Hk. exact (Hall k pd Hk).
Qed.

End SummaryFacts.

Section Summary.
Import StatusManager Spec.

(** C3 (as amended). [getSummary] reports [failed] as soon as one phase is
    failed, [completed] exactly when every phase is completed, [in_progress]
    when no phase is failed, not all are completed and some phase is in
    progress, and [pending] in the remaining case. *)
Theorem getSummary_overallStatus (st : StatusManager.t) :
  let o := overallStatus (getSummary st) in
  (somePhase failed st -> o = failed) /\
  (o = completed <-> allPhases completed st) /\
  (~ somePhase failed st -> ~ allPhases completed st ->
     somePhase in_progress st -> o = in_progress) /\
  (~ somePhase failed st -> ~ allPhases completed st ->
     ~ somePhase in_progress st -> o = pending).
Proof.
  cbn zeta. unfold getSummary; cbn [overallStatus].
  pose proof (countStatus_pos failed st) as Hf.
  pose proof (countStatus_pos in_progress st) as Hi.
  pose proof (countStatus_all completed st) as Hc.
  destruct (Nat.ltb_spec 0 (countStatus failed st)) as [Hlt | Hge].
  - repeat split; try tauto; try discriminate.
    intros Hall. apply Hf in Hlt as (k & pd & Hk & Hp).
    rewrite (Hall k pd Hk) in Hp. discriminate.
  - assert (Hnf : ~ somePhase failed st) by (rewrite <- Hf; lia).
    destruct (Nat.eqb_spec (countStatus completed st) (size (phases st))) as [Heq | Hne].
    + repeat split; try tauto.
    + assert (Hnc : ~ allPhases completed st) by tauto.
      destruct (Nat.ltb_spec 0 (countStatus in_progress st)) as [Hlt' | Hge'].
      * repeat split; try tauto; try discriminate.
      * assert (Hni : ~ somePhase in_progress st) by (rewrite <- Hi; lia).
        repeat split; try tauto; try discriminate.
Qed.

(** C3 as stated fails on a fresh session: no phase is failed, not all are
    completed, and the summary is [pending], not [in_progress]. *)
Lemma getSummary_initial_is_pending :
  let st := create "session_0" in
  ~ somePhase failed st /\ ~ allPhases completed st /\
  overallStatus (getSummary st) = pending /\
  overallStatus (getSummary st) <> in_progress.
Proof.
  cbn zeta. repeat split.
  - rewrite <- countStatus_pos. vm_compute. lia.
  - rewrite <- countStatus_all. vm_compute. discriminate.
  - vm_compute. discriminate.
Qed.

End Summary.

(** ** Status manager: the update log *)

Section UpdateLog.
Import StatusManager.
Variable P : Platform.

Lemma addUpdate_updates s ty phase message pr payload st :
  exists u, updates (addUpdate s ty phase message pr payload st).2 = updates st ++ [u].
Proof. unfold addUpdate; cbn. eauto. Qed.

Lemma step_appends (o : Op) (st : StatusManager.t) :
  isClear o = false -> updates st `prefix_of` updates (step P o st).
Proof.
  intros Hc. destruct o; cbn [step]; try discriminate;
    try (unfold startPhase, completePhase, failPhase, updateProgress, updateData,
           updateInfo, updateSuccess;
         match goal with
         | |- _ `prefix_of` updates (addUpdate ?s ?ty ?p ?m ?pr ?d ?st').2 =>
             destruct (addUpdate_updates s ty p m pr d st') as [u Hu];
             rewrite Hu; cbn; apply prefix_app_r; reflexivity
         end).
  reflexivity.
Qed.

Lemma run_appends (ops : list Op) (st : StatusManager.t) :
  forallb (fun o => negb (isClear o)) ops = true ->
  updates st `prefix_of` updates (run P ops st).
Proof.
  revert st. induction ops as [| o ops IH]; intros st Hops; cbn in *.
  - reflexivity.
  - apply andb_true_iff in Hops as [Ho Hrest].
    assert (Hc : isClear o = false) by (destruct (isClear o); [discriminate | reflexivity]).
    etransitivity; [apply (step_appends o st Hc) |].
    apply IH. exact Hrest.
Qed.

(** C8 (as amended). Along any sequence of calls that does not contain
    [clear()], the log observed after the first part of the sequence is a
    prefix of the log observed at the end: events are neither removed nor
    changed. [clear()] itself empties the log. *)
Theorem updates_append_only (before after : list Op) (st : StatusManager.t) :
  forallb (fun o => negb (isClear o)) after = true ->
  updates (run P before st) `prefix_of` updates (run P (before ++ after) st) /\
  updates (clear (run P before st)) = [].
Proof.
  intros Hafter. split; [| reflexivity].
  unfold run at 2. rewrite fold_left_app. apply run_appends. exact Hafter.
Qed.

End UpdateLog.

Section UpdateLogExamples.
Import StatusManager.

Lemma updates_append_only_witness :
  let before := [OpStartPhase (sampleStamp 1) "planning" "Analyzing request"] in
  let after := [OpUpdateInfo (sampleStamp 2) "planning" "Using fallback" JUndef;
                OpCompletePhase (sampleStamp 3) "planning" "Plan ready" JUndef] in
  forallb (fun o => negb (isClear o)) after = true /\
  (updates (run samplePlatform before (create "s")) `prefix_of`
     updates (run samplePlatform (before ++ after) (create "s")) /\
   updates (clear (run samplePlatform before (create "s"))) = []).
Proof.
  cbv zeta. split; [reflexivity |].
  apply (updates_append_only samplePlatform
           [OpStartPhase (sampleStamp 1) "planning" "Analyzing request"]
           [OpUpdateInfo (sampleStamp 2) "planning" "Using fallback" JUndef;
            OpCompletePhase (sampleStamp 3) "planning" "Plan ready" JUndef]).
  reflexivity.
Defined.

(** C8 as stated fails: after [startPhase] the log holds one event, and a
    following [clear()] removes it, so the earlier log is not a prefix of
    the later one. *)
Lemma clear_drops_updates :
  let st1 := run samplePlatform [OpStartPhase (sampleStamp 1) "planning" "Analyzing request"]
               (create "s") in
  let st2 := step samplePlatform OpClear st1 in
  length (updates st1) = 1%nat /\ updates st2 = [] /\
  ~ updates st1 `prefix_of` updates st2.
Proof.
  cbn zeta. repeat split.
  intros [k Hk]. vm_compute in Hk. discriminate Hk.
Qed.

End UpdateLogExamples.

(** ** Reasoning about the monad *)

Section MonadFacts.
Import World Calls Logic.
Open Scope monad_scope.
Variable W : World.t.
Variable P : Platform.

Lemma emit_not_error (event : string) (m : StatusManager.t) :
  event <> "error" -> StatusManager.emit event m = Ok tt.
Proof. intros Hne. unfold StatusManager.emit. destruct (decide (event = "error")); [contradiction | reflexivity]. Qed.

Lemma addUpdate_ok s ty phase message pr payload m :
  ty <> StatusManager.error ->
  (StatusManager.addUpdate s ty phase message pr payload m).1 = Ok tt.
Proof.
  intros Hty. unfold StatusManager.addUpdate; cbn [fst].
  apply emit_not_error. destruct ty; cbn; congruence.
Qed.

Lemma statusCall_silent f :
  (forall s m, (f s m).1 = Ok tt) -> silent (statusCall W f).
Proof.
  intros Hf st. unfold statusCall.
  specialize (Hf (clock W (nClock st)) (sm st)).
  destruct (f (clock W (nClock st)) (sm st)) as [r m]; cbn in *; subst r.
  eexists _, _. split; [reflexivity |]. cbn. auto.
Qed.

Lemma updateInfo_silent phase message : silent (updateInfo W phase message).
Proof. apply statusCall_silent. intros. apply addUpdate_ok. discriminate. Qed.

Lemma updateProgress_silent phase message pr : silent (updateProgress W phase message pr).
Proof. apply statusCall_silent. intros. apply addUpdate_ok. discriminate. Qed.

Lemma updateData_silent phase message payload : silent (updateData W phase message payload).
Proof. apply statusCall_silent. intros. apply addUpdate_ok. discriminate. Qed.

Lemma updateSuccess_silent phase message : silent (updateSuccess W phase message).
Proof. apply statusCall_silent. intros. apply addUpdate_ok. discriminate. Qed.

Lemma startPhase_silent phase message : silent (startPhase W phase message).
Proof. apply statusCall_silent. intros. apply addUpdate_ok. discriminate. Qed.

Lemma completePhase_silent phase message payload :
  silent (completePhase W P phase message payload).
Proof. apply statusCall_silent. intros. apply addUpdate_ok. discriminate. Qed.

Lemma dateNow_silent : silent (dateNow W).
Proof. intros st. eexists _, _. split; [reflexivity |]. cbn. auto. Qed.

Lemma dateIso_silent : silent (dateIso W).
Proof. intros st. eexists _, _. split; [reflexivity |]. cbn. auto. Qed.

Lemma getStatusManager_silent : silent getStatusManager.
Proof. intros st. eexists _, _. split; [reflexivity |]. auto. Qed.

Lemma ret_silent {A} (a : A) : silent (ret a).
Proof. intros st. eexists _, _. split; [reflexivity |]. auto. Qed.

Lemma bind_silent {A B} (c : M A) (k : A -> M B) :
  silent c -> (forall a, silent (k a)) -> silent (bind c k).
Proof.
  intros Hc Hk st. destruct (Hc st) as (a & st1 & Hrun & Ht & Hn & Hl & Hto).
  destruct (Hk a st1) as (b & st2 & Hrun2 & Ht2 & Hn2 & Hl2 & Hto2).
  exists b, st2. unfold bind. rewrite Hrun, Hrun2.
  repeat split; congruence.
Qed.

Lemma forEachFrom_silent {A} (f : A -> nat -> M unit) (xs : list A) (i : nat) :
  (forall x j, silent (f x j)) -> silent (forEachFrom i f xs).
Proof.
  intros Hf. revert i. induction xs as [| x xs IH]; intros i; cbn.
  - apply ret_silent.
  - apply bind_silent; [apply Hf | intros _; apply IH].
Qed.

Lemma silent_calm {A} (c : M A) : silent c -> calm c.
Proof.
  intros Hc st. destruct (Hc st) as (a & st' & Hrun & _ & Hn & _).
  exists a, st'. auto.
Qed.

Lemma emitEvent_calm e : calm (emitEvent e).
Proof. intros st. eexists _, _. split; [reflexivity |]. reflexivity. Qed.

Lemma silent_quiet {A} (b : bool) (c : M A) : silent c -> quiet b (fun _ => True) c.
Proof.
  intros Hc st. destruct (Hc st) as (a & st' & Hrun & Ht & _).
  rewrite Hrun; cbn. rewrite Ht. auto.
Qed.

Lemma quiet_ret {A} b (R : A -> Prop) (a : A) : R a -> quiet b R (ret a).
Proof. intros Ha st. cbn. auto. Qed.

Lemma quiet_throw {A} (R : A -> Prop) e : quiet true R (throw e).
Proof. intros st. cbn. auto. Qed.

Lemma quiet_bind {A B} b (R1 : A -> Prop) (R2 : B -> Prop) (c : M A) (k : A -> M B) :
  quiet b R1 c -> (forall a, R1 a -> quiet b R2 (k a)) -> quiet b R2 (bind c k).
Proof.
  intros Hc Hk st. specialize (Hc st). unfold bind.
  destruct (c st) as [[a | e |] st1]; cbn in *.
  - destruct Hc as [Ht Ha]. specialize (Hk a Ha st1). rewrite <- Ht. exact Hk.
  - exact Hc.
  - exact Hc.
Qed.

Lemma quiet_weaken {A} b (R1 R2 : A -> Prop) (c : M A) :
  (forall a, R1 a -> R2 a) -> quiet b R1 c -> quiet true R2 c.
Proof.
  intros HR Hc st. specialize (Hc st).
  destruct (c st) as [[a | e |] st1]; cbn in *; intuition.
Qed.

Lemma quiet_mono {A} b (R1 R2 : A -> Prop) (c : M A) :
  (forall a, R1 a -> R2 a) -> quiet b R1 c -> quiet b R2 c.
Proof.
  intros HR Hc st. specialize (Hc st).
  destruct (c st) as [[a | e |] st1]; cbn in *; intuition.
Qed.

Lemma quiet_tryCatch {A} b (R : A -> Prop) (body : M A) (h : Exn -> M A) :
  quiet true R body -> (forall e, quiet b R (h e)) -> quiet b R (tryCatch body h).
Proof.
  intros Hb Hh st. specialize (Hb st). unfold tryCatch.
  destruct (body st) as [[a | e |] st1]; cbn in *.
  - exact Hb.
  - destruct Hb as [Ht _]. specialize (Hh e st1). rewrite <- Ht. exact Hh.
  - exact Hb.
Qed.

Lemma quiet_lift {A} (R : A -> Prop) (r : Res A) :
  r <> OutOfFuel -> (forall a, r = Ok a -> R a) -> quiet true R (lift r).
Proof. intros Hr HR st. unfold lift; cbn. destruct r; auto. Qed.

Lemma quiet_forEachFrom {A} b (f : A -> nat -> M unit) (xs : list A) (i : nat) :
  (forall x j, quiet b (fun _ => True) (f x j)) ->
  quiet b (fun _ => True) (forEachFrom i f xs).
Proof.
  intros Hf. revert i. induction xs as [| x xs IH]; intros i; cbn.
  - apply quiet_ret. exact I.
  - eapply quiet_bind; [apply Hf | intros _ _; apply IH].
Qed.

Lemma attemptsIn_app tr e :
  attemptsIn (tr ++ [e]) = attemptsIn tr + (if isAttempt e then 1 else 0).
Proof.
  unfold attemptsIn. rewrite List.filter_app, length_app. cbn.
  destruct (isAttempt e); reflexivity.
Qed.

Lemma chatCreate_quiet messages tools :
  quiet true (fun _ => True) (chatCreate W messages tools).
Proof.
  intros st. unfold chatCreate.
  destruct (chat W (nChat st)); cbn -[attemptsIn]; rewrite attemptsIn_app; cbn; split; auto; lia.
Qed.

Lemma listToolsCall_quiet : quiet true (fun _ => True) (listToolsCall W).
Proof.
  intros st. unfold listToolsCall.
  destruct (listTools W (nList st)); cbn -[attemptsIn]; rewrite attemptsIn_app; cbn; split; auto; lia.
Qed.

Lemma callToolCall_quiet b name args : quiet b (fun _ => True) (callToolCall W name args).
Proof.
  intros st. unfold callToolCall; cbn -[attemptsIn]. rewrite attemptsIn_app; cbn.
  split; auto; lia.
Qed.

Lemma sleep_quiet b ms : quiet b (fun _ => True) (sleep ms).
Proof.
  intros st. unfold sleep, emitEvent; cbn -[attemptsIn]. rewrite attemptsIn_app; cbn.
  split; auto; lia.
Qed.

Lemma getProp_fuel v k : getProp v k <> OutOfFuel.
Proof. destruct v; cbn; discriminate. Qed.

Lemma bind_terminates {A B} (c : M A) (k : A -> M B) :
  terminates c -> (forall a, terminates (k a)) -> terminates (bind c k).
Proof.
  intros Hc Hk st. unfold bind. specialize (Hc st).
  destruct (c st) as [[a | e |] st1]; cbn in *; [apply Hk | discriminate | congruence].
Qed.

Lemma quiet_terminates {A} b (R : A -> Prop) (c : M A) : quiet b R c -> terminates c.
Proof.
  intros Hc st. specialize (Hc st). destruct ((c st).1); [discriminate | discriminate | tauto].
Qed.

Lemma tryCatch_terminates {A} (body : M A) (h : Exn -> M A) :
  terminates body -> (forall e, terminates (h e)) -> terminates (tryCatch body h).
Proof.
  intros Hb Hh st. unfold tryCatch. specialize (Hb st).
  destruct (body st) as [[a | e |] st1]; cbn in *; [discriminate | apply Hh | congruence].
Qed.

End MonadFacts.

(** ** Planning *)

Section Planning.
Import World Calls Logic MasterOrchestratorAgent.
Open Scope monad_scope.

Lemma planning_run (W : World.t) (P : Platform) (userQuery : string) (st : St) :
  exists plan st',
    generateSearchQueriesAndPlan W P userQuery st = (Ok plan, st') /\
    (forall e, chat W (nChat st) = ChatThrows e -> plan = createFallbackPlan userQuery).
Proof.
  unfold generateSearchQueriesAndPlan, bind at 1.
  destruct (updateProgress_silent W "planning" "Analyzing your request..." 30 st)
    as ([] & st1 & -> & _ & Hn1 & _).
  unfold tryCatch, bind.
  destruct (updateProgress_silent W "planning" "Creating search strategy..." 60 st1)
    as ([] & st2 & -> & _ & Hn2 & _).
  unfold chatCreate. rewrite Hn2, Hn1.
  destruct (chat W (nChat st)) as [e | reply] eqn:Hchat.
  - match goal with
    | |- context [updateInfo W ?p ?m ?s] =>
        destruct (updateInfo_silent W p m s) as ([] & st3 & -> & _)
    end.
    cbn. eexists _, _. split; [reflexivity |]. intros _ _. reflexivity.
  - match goal with
    | |- context [updateProgress W ?p ?m ?pr ?s] =>
        destruct (updateProgress_silent W p m pr s) as ([] & st3 & -> & _)
    end.
    cbn. eexists _, _. split; [reflexivity |]. intros e He. discriminate He.
Qed.

(** C7. Planning never throws: whatever the model call does, a plan is
    returned. When the model call fails the plan is the fallback plan of
    the query, so two runs on the same query under an always-failing model
    return the same plan, whatever the state and platform they run in. *)
Theorem planning_never_fails (W : World.t) (P : Platform) (userQuery : string) (st : St) :
  (exists plan st', generateSearchQueriesAndPlan W P userQuery st = (Ok plan, st')) /\
  (forall e, chat W (nChat st) = ChatThrows e ->
     (generateSearchQueriesAndPlan W P userQuery st).1 = Ok (createFallbackPlan userQuery)) /\
  (forall (W' : World.t) (P' : Platform) (st' : St),
     (forall n, exists e, chat W n = ChatThrows e) ->
     (forall n, exists e, chat W' n = ChatThrows e) ->
     (generateSearchQueriesAndPlan W P userQuery st).1 =
     (generateSearchQueriesAndPlan W' P' userQuery st').1).
Proof.
  destruct (planning_run W P userQuery st) as (plan & st1 & Hrun & Hfallback).
  split; [eauto |]. split.
  - intros e He. rewrite Hrun; cbn. f_equal. exact (Hfallback e He).
  - intros W' P' st' Hfail Hfail'.
    destruct (planning_run W' P' userQuery st') as (plan' & st1' & Hrun' & Hfallback').
    destruct (Hfail (nChat st)) as [e He]. destruct (Hfail' (nChat st')) as [e' He'].
    rewrite Hrun, Hrun'; cbn.
    rewrite (Hfallback e He), (Hfallback' e' He'). reflexivity.
Qed.

End Planning.

(** ** Strings *)

Section StringFacts.

Lemma startsWith_lower (p s : string) :
  toLowerCase p = p -> startsWith s p = true -> startsWith (toLowerCase s) p = true.
Proof.
  revert s. induction p as [| a p IH]; intros s Hp Hs; [destruct s; reflexivity |].
  destruct s as [| b s]; [discriminate |].
  cbn in Hp. injection Hp as Ha Hp. cbn in Hs |- *.
  apply andb_true_iff in Hs as [Hab Hrest].
  apply Ascii.eqb_eq in Hab. subst b. rewrite Ha, Ascii.eqb_refl. cbn.
  apply IH; assumption.
Qed.

(** A lower-case phrase that occurs in a text also occurs in the text put
    in lower case. *)
Lemma includes_lower (p s : string) :
  toLowerCase p = p -> includes s p = true -> includes (toLowerCase s) p = true.
Proof.
  intros Hp. induction s as [| b s IH]; intros Hs.
  - cbn in *. rewrite orb_false_r in *. apply (startsWith_lower p "" Hp Hs).
  - cbn [includes] in Hs. apply orb_true_iff in Hs as [Hs | Hs].
    + pose proof (startsWith_lower p (String b s) Hp Hs) as H.
      cbn [includes toLowerCase] in *. rewrite H. reflexivity.
    + cbn [includes toLowerCase]. rewrite (IH Hs). apply orb_true_r.
Qed.

End StringFacts.

(** ** Email quality *)

Section EmailQuality.
Import World Calls Logic StageSpec EmailWritingAgent.
Open Scope monad_scope.
Open Scope Z_scope.

Lemma penalty_le (content : string) (phrases : list string) (score : Z) :
  fold_left
    (fun score phrase =>
       if includes (toLowerCase content) phrase then score - 2 else score)
    phrases score <= score.
Proof.
  revert score. induction phrases as [| p ps IH]; intros score; cbn; [lia |].
  destruct (includes (toLowerCase content) p); etransitivity; try apply IH; lia.
Qed.

Lemma no_signal_count (content : string) (signals : list string) (n : nat) :
  (forall signal, In signal signals -> includes (toLowerCase content) signal = false) ->
  fold_left
    (fun count signal =>
       if includes (toLowerCase content) signal then S count else count)
    signals n = n.
Proof.
  revert n. induction signals as [| s ss IH]; intros n Hnone; cbn; [reflexivity |].
  rewrite (Hnone s (or_introl eq_refl)). apply IH.
  intros signal Hin. apply Hnone. right. exact Hin.
Qed.

Lemma boilerplate_score (content : string) :
  includes (toLowerCase content) "hope this finds you well" = true ->
  (forall signal, In signal personalizationSignals ->
     includes (toLowerCase content) signal = false) ->
  validateEmailQuality content <= 5.
Proof.
  intros Hgeneric Hnone. unfold validateEmailQuality.
  assert (Hpen : genericPenalty content 10 <= 8).
  { unfold genericPenalty, genericPhrases.
    match goal with
    | |- fold_left ?f (?p :: ?ps) ?s <= _ => change (fold_left f ps (f s p) <= 8)
    end.
    cbv beta. rewrite Hgeneric. etransitivity; [apply penalty_le | lia]. }
  unfold personalizationCount. rewrite (no_signal_count content _ 0%nat Hnone).
  cbn [Nat.eqb].
  destruct (hasNumbers content), (1500 <? String.length content)%nat,
    (String.length content <? 100)%nat; lia.
Qed.

Variable W : World.t.
Variable P : Platform.

Lemma noReturn_bind {A} (c : M A) (k : A -> M (Step string)) :
  (forall a, noReturn (k a)) -> noReturn (bind c k).
Proof.
  intros Hk st s. unfold bind.
  destruct (c st) as [[a | e |] st1]; cbn; [apply Hk | discriminate | discriminate].
Qed.

Lemma noReturn_continue (a : nat) : noReturn (ret (Continue a)).
Proof. intros st s. cbn. discriminate. Qed.

Lemma rejectsReply_bind {A} reply (c : M A) (k : A -> M (Step string)) :
  calm c -> (forall a, rejectsReply W reply (k a)) -> rejectsReply W reply (bind c k).
Proof.
  intros Hc Hk st Hchat s. destruct (Hc st) as (a & st1 & Hrun & Hn).
  unfold bind. rewrite Hrun. apply Hk. rewrite Hn. exact Hchat.
Qed.

Lemma low_score_attempt_rejected (content : string) (am : AssistantMessage)
    (enrichedData : string) (emailParams : JsVal) (startTime : Z) (attempt : nat) :
  validateEmailQuality content <= 5 ->
  am_content am = Some content ->
  rejectsReply W (Some am) (attemptTry W P enrichedData emailParams startTime attempt).
Proof.
  intros Hscore Hcontent. unfold attemptTry.
  apply rejectsReply_bind; [apply emitEvent_calm | intros _].
  apply rejectsReply_bind.
  { destruct (0 <? attempt)%nat; apply silent_calm;
      [apply updateInfo_silent | apply ret_silent]. }
  intros _. apply rejectsReply_bind; [apply silent_calm, updateProgress_silent | intros _].
  apply rejectsReply_bind; [apply silent_calm, dateNow_silent | intros currentTime].
  apply rejectsReply_bind.
  { destruct (15000 <? currentTime - startTime); apply silent_calm;
      [apply updateProgress_silent | apply ret_silent]. }
  intros _. apply rejectsReply_bind; [apply silent_calm, updateProgress_silent | intros _].
  intros st Hchat s. unfold bind at 1, chatCreate. rewrite Hchat. cbn iota beta.
  rewrite Hcontent. apply noReturn_bind. intros finished.
  destruct (100 <? String.length content)%nat.
  - apply noReturn_bind. intros _. apply noReturn_bind. intros _.
    destruct (Z.leb_spec 6 (validateEmailQuality content)) as [Hge | Hlt]; [lia |].
    apply noReturn_bind. intros _. apply noReturn_continue.
  - apply noReturn_bind. intros _. apply noReturn_continue.
Qed.

(** C6. A text in which the scorer detects "hope this finds you well" and
    none of the personalization signals (both are looked up in the text put
    in lower case) scores at most 5, and an email-writing attempt whose
    model answer is that text does not return it: acceptance needs 6. *)
Theorem boilerplate_email_rejected (content : string) :
  includes (toLowerCase content) "hope this finds you well" = true ->
  (forall signal, In signal personalizationSignals ->
     includes (toLowerCase content) signal = false) ->
  validateEmailQuality content <= 5 /\
  forall (am : AssistantMessage) (enrichedData : string) (emailParams : JsVal)
         (startTime : Z) (attempt : nat) (st : St),
    am_content am = Some content ->
    chat W (nChat st) = ChatReplies (Some am) ->
    forall s, (attemptTry W P enrichedData emailParams startTime attempt st).1 <> Ok (Return s).
Proof.
  intros Hgeneric Hnone.
  pose proof (boilerplate_score content Hgeneric Hnone) as Hscore.
  split; [exact Hscore |].
  intros am enrichedData emailParams startTime attempt st Hcontent Hchat.
  exact (low_score_attempt_rejected content am enrichedData emailParams startTime attempt
           Hscore Hcontent st Hchat).
Qed.

End EmailQuality.

Section EmailQualityExamples.
Import World Calls Logic StageSpec EmailWritingAgent.

Lemma boilerplate_email_rejected_witness :
  includes (toLowerCase boilerplate) "hope this finds you well" = true /\
  (forall signal, In signal personalizationSignals ->
     includes (toLowerCase boilerplate) signal = false) /\
  ((validateEmailQuality boilerplate <= 5)%Z /\
   forall (am : AssistantMessage) (enrichedData : string) (emailParams : JsVal)
          (startTime : Z) (attempt : nat) (st : St),
     am_content am = Some boilerplate ->
     chat boilerplateWorld (nChat st) = ChatReplies (Some am) ->
     forall s,
       (attemptTry boilerplateWorld samplePlatform enrichedData emailParams startTime
          attempt st).1 <> Ok (Return s)).
Proof.
  assert (H1 : includes (toLowerCase boilerplate) "hope this finds you well" = true)
    by (vm_compute; reflexivity).
  assert (H2 : forall signal, In signal personalizationSignals ->
                 includes (toLowerCase boilerplate) signal = false).
  { intros signal Hin. unfold personalizationSignals in Hin.
    repeat (destruct Hin as [<- | Hin]; [vm_compute; reflexivity |]). destruct Hin. }
  split; [exact H1 |]. split; [exact H2 |].
  exact (boilerplate_email_rejected boilerplateWorld samplePlatform boilerplate H1 H2).
Defined.

(** On a model that only ever writes the boilerplate text, the email stage
    makes its two attempts and returns the failed payload. *)
Example boilerplate_stage_fails :
  let run := generatePersonalizedEmails boilerplateWorld samplePlatform 2 "{}"
               (JObj [("emailType", JStr "sales_outreach")])
               (World.initial (StatusManager.create "s")) in
  (validateEmailQuality boilerplate = 4)%Z /\
  run.1 = Ok "{ status: failed }" /\
  attemptsIn (trace run.2) = 2%nat.
Proof. vm_compute. repeat split; reflexivity. Qed.

End EmailQualityExamples.

(** ** Retry loops of the stage agents *)

Create HintDb quiet.
#[export] Hint Resolve silent_quiet updateInfo_silent updateProgress_silent
  updateData_silent updateSuccess_silent startPhase_silent completePhase_silent
  dateNow_silent dateIso_silent getStatusManager_silent ret_silent
  chatCreate_quiet listToolsCall_quiet callToolCall_quiet sleep_quiet
  quiet_throw getProp_fuel : quiet.

Ltac quiet_leaf :=
  cbn;
  try exact I;
  try reflexivity;
  try (apply Nat.ltb_lt; assumption);
  try (split; [apply Nat.ltb_lt; assumption | apply Z.leb_le; assumption]).

Ltac quiet_go :=
  cbv zeta beta;
  lazymatch goal with
  | |- Logic.quiet _ _ (World.bind _ _) =>
      apply (quiet_bind _ (fun _ => True)); [quiet_go | intros ? _; quiet_go]
  | |- Logic.quiet _ _ (World.ret _) => apply quiet_ret; quiet_leaf
  | |- Logic.quiet _ _ (World.throw _) => apply quiet_throw
  | |- Logic.quiet _ _ (World.lift _) =>
      apply quiet_lift; [auto with quiet | intros; exact I]
  | |- Logic.quiet _ _ (Calls.forEach _ _ _) =>
      apply quiet_forEachFrom; intros; quiet_go
  | |- Logic.quiet _ _ (if ?c then _ else _) => destruct c eqn:?; quiet_go
  | |- Logic.quiet _ _ (match ?x with _ => _ end) => destruct x eqn:?; quiet_go
  | |- _ => try solve [auto with quiet]
  end.

Section RetryFacts.
Import World Calls Logic.
Open Scope monad_scope.
Variable W : World.t.
Variable P : Platform.

Lemma opens_attempt {A} b (R : A -> Prop) stage n (k : M A) :
  quiet b R k -> opens 1 b R (logAttempt stage n ;; k).
Proof.
  intros Hk st. unfold bind, logAttempt, emitEvent. cbn -[attemptsIn].
  match goal with |- context [k ?s] => specialize (Hk s) end.
  cbn -[attemptsIn] in Hk. rewrite attemptsIn_app in Hk. cbn in Hk.
  destruct Hk as [Ht Hr]. split; [rewrite Ht; lia | exact Hr].
Qed.

Lemma opens_tryCatch {A} n b (R : A -> Prop) (body : M A) (h : Exn -> M A) :
  opens n true R body -> (forall e, quiet b R (h e)) -> opens n b R (tryCatch body h).
Proof.
  intros Hb Hh st. specialize (Hb st). unfold tryCatch.
  destruct (body st) as [[a | e |] st1]; cbn in *.
  - exact Hb.
  - destruct Hb as [Ht _]. specialize (Hh e st1). destruct Hh as [Ht' Hr].
    split; [rewrite Ht'; exact Ht | exact Hr].
  - exact Hb.
Qed.

Lemma promiseAll_fuel {A} (settled : list (Exn + A)) :
  DiscoveryAgent.promiseAll settled <> OutOfFuel.
Proof.
  induction settled as [| [e | a] rest IH]; cbn; try discriminate.
  destruct (DiscoveryAgent.promiseAll rest); [discriminate | discriminate | congruence].
Qed.

Lemma searchOne_quiet c i : quiet true (fun _ => True) (DiscoveryAgent.searchOne W P c i).
Proof.
  unfold DiscoveryAgent.searchOne.
  destruct (JSON_parse P (tc_arguments c)) as [args |]; [| quiet_go].
  pose proof (getProp_fuel args "query") as Hfuel.
  destruct (getProp args "query"); [| quiet_go | contradiction].
  quiet_go.
Qed.

Lemma searchAllFrom_quiet calls i :
  quiet true (fun _ => True) (DiscoveryAgent.searchAllFrom W P i calls).
Proof.
  revert i. induction calls as [| c rest IH]; intros i; cbn [DiscoveryAgent.searchAllFrom].
  - quiet_go.
  - apply (quiet_bind _ (fun _ => True)); [apply searchOne_quiet | intros ? _].
    apply (quiet_bind _ (fun _ => True)); [apply IH | intros ? _]. quiet_go.
Qed.

Lemma handleSearchAndReturn_quiet messages response tools :
  quiet true (fun _ => True)
    (DiscoveryAgent.handleSearchAndReturn W P messages response tools).
Proof.
  unfold DiscoveryAgent.handleSearchAndReturn.
  destruct response as [am |]; [| quiet_go].
  cbv zeta. destruct (am_tool_calls am) as [[| c cs] |]; [quiet_go | | quiet_go].
  apply (quiet_bind _ (fun _ => True)); [quiet_go | intros ? _].
  apply (quiet_bind _ (fun _ => True)); [apply searchAllFrom_quiet | intros settled _].
  apply (quiet_bind _ (fun _ => True)).
  { apply quiet_lift; [apply promiseAll_fuel | intros; exact I]. }
  intros ? _. quiet_go.
Qed.

Lemma showPerson_quiet person index :
  quiet true (fun _ => True) (DiscoveryAgent.showPerson W P person index).
Proof. unfold DiscoveryAgent.showPerson. quiet_go. Qed.

End RetryFacts.

Section StageFacts.
Import World Calls Logic StageSpec.
Open Scope monad_scope.
Variable P : Platform.
Variable sufficient : string -> Prop.

Lemma stageBounded_bind {A} (R : A -> Prop) (c : M A) (k : A -> M string) :
  quiet true R c -> (forall a, R a -> stageBounded P sufficient (k a)) ->
  stageBounded P sufficient (bind c k).
Proof.
  intros Hc Hk st. specialize (Hc st). unfold bind.
  destruct (c st) as [[a | e |] st1]; cbn [fst snd] in *.
  - destruct Hc as [Ht Ha]. specialize (Hk a Ha st1). rewrite <- Ht. exact Hk.
  - tauto.
  - tauto.
Qed.

Lemma loopBounded_stage (c : M string) :
  loopBounded P sufficient c -> stageBounded P sufficient c.
Proof.
  intros Hc st. specialize (Hc st). destruct ((c st).1); [exact Hc | contradiction | exact Hc].
Qed.

Lemma stageBounded_throws (c : M string) :
  quiet true (fun _ => False) c -> stageBounded P sufficient c.
Proof.
  intros Hc st. specialize (Hc st). destruct ((c st).1); tauto.
Qed.

End StageFacts.

Section DiscoveryRetry.
Import World Calls Logic StageSpec DiscoveryAgent.
Open Scope monad_scope.
Variable W : World.t.
Variable P : Platform.
Variable searchQueries : list string.
Variable request : JsVal.

Lemma discovery_try attempt :
  opens 1 true (stepOk P retryAttempts (fun s => (100 < String.length s)%nat) attempt) (attemptTry W P searchQueries request attempt).
Proof.
  unfold attemptTry. apply opens_attempt.
  apply (quiet_bind _ (fun _ => True)); [quiet_go | intros ? _].
  cbv zeta. apply (quiet_bind _ (fun _ => True)); [quiet_go | intros response _].
  apply (quiet_bind _ (fun _ => True)); [apply handleSearchAndReturn_quiet | intros result _].
  destruct (100 <? String.length result)%nat eqn:Hlen.
  - apply (quiet_bind _ (fun _ => True)); [quiet_go | intros ? _].
    apply (quiet_bind _ (fun _ => True)).
    { destruct (0 <? length (extractPeopleCards P result))%nat; [| quiet_go].
      apply (quiet_bind _ (fun _ => True)); [quiet_go | intros ? _].
      apply (quiet_bind _ (fun _ => True)); [| intros ? _; quiet_go].
      apply quiet_forEachFrom. intros. apply showPerson_quiet. }
    intros ? _. apply quiet_ret. left. apply Nat.ltb_lt. exact Hlen.
  - apply (quiet_bind _ (fun _ => True)); [quiet_go | intros ? _].
    apply quiet_ret. reflexivity.
Qed.

Lemma discovery_catch attempt e :
  quiet false (stepOk P retryAttempts (fun s => (100 < String.length s)%nat) attempt) (attemptCatch W P searchQueries attempt e).
Proof.
  unfold attemptCatch.
  apply (quiet_bind _ (fun _ => True)); [quiet_go | intros ? _].
  cbv zeta. destruct (retryAttempts <=? attempt + 1)%nat eqn:Hlast.
  - apply (quiet_bind _ (fun _ => True)); [quiet_go | intros ? _].
    apply quiet_ret. right. split; [| apply Nat.leb_le; exact Hlast].
    eexists. split; reflexivity.
  - apply (quiet_bind _ (fun _ => True)); [quiet_go | intros ? _].
    apply (quiet_bind _ (fun _ => True)); [quiet_go | intros ? _].
    apply quiet_ret. reflexivity.
Qed.

Lemma discovery_iteration attempt :
  opens 1 false (stepOk P retryAttempts (fun s => (100 < String.length s)%nat) attempt)
    (tryCatch (attemptTry W P searchQueries request attempt)
              (attemptCatch W P searchQueries attempt)).
Proof. apply opens_tryCatch; [apply discovery_try | apply discovery_catch]. Qed.

Lemma discovery_loop (fuel : nat) :
  (2 <= fuel)%nat ->
  loopBounded P (fun s => (100 < String.length s)%nat)
    (attemptLoop W P fuel searchQueries request 0).
Proof.
  intros Hfuel st. destruct fuel as [| [| fuel]]; [lia | lia |].
  destruct (attemptLoop W P (S (S fuel)) searchQueries request 0 st) as [r st'] eqn:Hrun.
  cbn [fst snd]. cbn [attemptLoop] in Hrun.
  change (0 <? retryAttempts)%nat with true in Hrun. cbv iota in Hrun.
  unfold bind at 1 in Hrun.
  pose proof (discovery_iteration 0 st) as [Ht0 Hr0].
  destruct (tryCatch _ _ st) as [[[s | a] | e |] st1]; cbn [fst snd] in *; try easy.
  - cbn in Hrun. injection Hrun as <- <-. left.
    destruct Hr0 as [Hs | [_ Hle]]; [| unfold retryAttempts in Hle; lia].
    split; [exact Hs | lia].
  - cbn in Hr0. subst a. cbn [attemptLoop Nat.add] in Hrun.
    change (1 <? retryAttempts)%nat with true in Hrun. cbv iota in Hrun.
    unfold bind at 1 in Hrun.
    pose proof (discovery_iteration 1 st1) as [Ht1 Hr1].
    destruct (tryCatch _ _ st1) as [[[s | a] | e |] st2]; cbn [fst snd] in *; try easy.
    + cbn in Hrun. injection Hrun as <- <-.
      destruct Hr1 as [Hs | [Hf _]]; [left | right]; split; try assumption; lia.
    + cbn in Hr1. subst a.
      assert (Hend : (r, st') =
                     (Ok (JSON_stringify P
                            (failedResponse searchQueries "No attempts succeeded")), st2))
        by (destruct fuel; cbn in Hrun; unfold ret in Hrun; congruence).
      injection Hend as -> ->. right.
      split; [eexists; split; reflexivity | lia].
Qed.

Lemma discovery_stage (fuel : nat) :
  (2 <= fuel)%nat ->
  stageBounded P (fun s => (100 < String.length s)%nat)
    (findBasicPeople W P fuel searchQueries request).
Proof.
  intros Hfuel. unfold findBasicPeople.
  repeat (apply (stageBounded_bind P _ (fun _ => True)); [quiet_go | intros ? _]).
  - apply quiet_forEachFrom. intros. quiet_go.
  - destruct (find _ _).
    + apply loopBounded_stage, discovery_loop, Hfuel.
    + apply stageBounded_throws.
      apply (quiet_bind _ (fun _ => True)); [quiet_go | intros ? _]. apply quiet_throw.
Qed.

End DiscoveryRetry.

Section EnrichmentRetry.
Import World Calls Logic StageSpec EnrichmentAgent.
Open Scope monad_scope.
Variable W : World.t.
Variable P : Platform.

Lemma announceTool_quiet b c : quiet b (fun _ => True) (announceTool W P c).
Proof.
  unfold announceTool. cbv zeta.
  repeat match goal with
         | |- quiet _ _ (if ?x then _ else _) => destruct x
         | |- quiet _ _ (match ?x with _ => _ end) => destruct x
         end; quiet_go.
Qed.

Lemma enrichOne_quiet b c : quiet b (fun _ => True) (enrichOne W P c).
Proof.
  unfold enrichOne. cbv zeta. destruct (JSON_parse P (tc_arguments c)); [| quiet_go].
  apply (quiet_bind _ (fun _ => True)); [quiet_go | intros outcome _].
  destruct outcome; quiet_go.
Qed.

Lemma enrichAll_quiet b calls : quiet b (fun _ => True) (enrichAll W P calls).
Proof.
  induction calls as [| c rest IH]; cbn [enrichAll]; [quiet_go |].
  apply (quiet_bind _ (fun _ => True)); [apply enrichOne_quiet | intros ? _].
  apply (quiet_bind _ (fun _ => True)); [apply IH | intros ? _]. quiet_go.
Qed.

Lemma handleEnrichment_quiet fuel messages response tools round :
  quiet true (fun _ => True) (handleEnrichment W P fuel messages response tools round).
Proof.
  destruct response as [am |]; [| destruct fuel; cbn; quiet_go].
  assert (Hbody :
    quiet true (fun _ => True)
      (handleEnrichment W P fuel messages (Some am) tools round)).
  { destruct fuel; cbn [handleEnrichment]; cbv zeta;
      (destruct (am_tool_calls am) as [[| c cs] |]; [quiet_go | | quiet_go];
       destruct (round <? MAX_ROUNDS)%nat; [| quiet_go];
       apply (quiet_bind _ (fun _ => True)); [quiet_go | intros ? _];
       apply (quiet_bind _ (fun _ => True));
         [apply quiet_forEachFrom; intros; apply announceTool_quiet | intros ? _];
       apply (quiet_bind _ (fun _ => True)); [quiet_go | intros ? _];
       apply (quiet_bind _ (fun _ => True)); [apply enrichAll_quiet | intros ? _];
       change (0 <=? round)%nat with true; cbv iota;
       apply (quiet_bind _ (fun _ => True)); [quiet_go | intros ? _];
       apply (quiet_bind _ (fun _ => True)); [quiet_go | intros continueMessage _];
       rewrite andb_false_r; quiet_go). }
  exact Hbody.
Qed.

Lemma showProfile_quiet profile index :
  quiet true (fun _ => True) (showProfile W P profile index).
Proof.
  unfold showProfile.
  apply (quiet_bind _ (fun _ => True)); [quiet_go | intros emailSignals _].
  cbv zeta.
  apply (quiet_bind _ (fun _ => True)); [quiet_go | intros ? _].
  apply (quiet_bind _ (fun _ => True)); [quiet_go | intros ? _].
  apply (quiet_bind _ (fun _ => True)); [quiet_go | intros ? _].
  apply (quiet_bind _ (fun _ => True)).
  { destruct (gt0 P _); [| quiet_go].
    destruct (getPropOpt emailSignals "painPoints"); quiet_go. }
  intros ? _. destruct (truthy _); quiet_go.
Qed.

Variable tools : list string.
Variable discoveryData : string.

Lemma enrichment_try fuel attempt :
  opens 1 true (stepOk P retryAttempts (fun s => (300 < String.length s)%nat) attempt) (attemptTry W P tools discoveryData fuel attempt).
Proof.
  unfold attemptTry. apply opens_attempt.
  apply (quiet_bind _ (fun _ => True)); [quiet_go | intros ? _].
  apply (quiet_bind _ (fun _ => True)); [quiet_go | intros ? _].
  cbv zeta. apply (quiet_bind _ (fun _ => True)); [quiet_go | intros response _].
  apply (quiet_bind _ (fun _ => True)); [apply handleEnrichment_quiet | intros result _].
  destruct (300 <? String.length result)%nat eqn:Hlen.
  - apply (quiet_bind _ (fun _ => True)); [quiet_go | intros ? _].
    apply (quiet_bind _ (fun _ => True)).
    { destruct (0 <? length (extractEnrichedProfiles P result))%nat; [| quiet_go].
      apply (quiet_bind _ (fun _ => True)); [quiet_go | intros ? _].
      apply (quiet_bind _ (fun _ => True)); [| intros ? _; quiet_go].
      apply quiet_forEachFrom. intros. apply showProfile_quiet. }
    intros ? _. apply quiet_ret. left. apply Nat.ltb_lt. exact Hlen.
  - apply (quiet_bind _ (fun _ => True)); [quiet_go | intros ? _].
    apply quiet_ret. reflexivity.
Qed.

Lemma enrichment_catch attempt e :
  quiet false (stepOk P retryAttempts (fun s => (300 < String.length s)%nat) attempt) (attemptCatch W P attempt e).
Proof.
  unfold attemptCatch.
  apply (quiet_bind _ (fun _ => True)); [quiet_go | intros ? _].
  cbv zeta. destruct (retryAttempts <=? attempt + 1)%nat eqn:Hlast.
  - apply (quiet_bind _ (fun _ => True)); [quiet_go | intros ? _].
    apply quiet_ret. right. split; [| apply Nat.leb_le; exact Hlast].
    eexists. split; reflexivity.
  - apply (quiet_bind _ (fun _ => True)); [quiet_go | intros ? _].
    apply (quiet_bind _ (fun _ => True)); [quiet_go | intros ? _].
    apply quiet_ret. reflexivity.
Qed.

Lemma enrichment_iteration fuel attempt :
  opens 1 false (stepOk P retryAttempts (fun s => (300 < String.length s)%nat) attempt)
    (tryCatch (attemptTry W P tools discoveryData fuel attempt)
              (attemptCatch W P attempt)).
Proof. apply opens_tryCatch; [apply enrichment_try | apply enrichment_catch]. Qed.

Lemma enrichment_loop (fuel : nat) :
  (2 <= fuel)%nat ->
  loopBounded P (fun s => (300 < String.length s)%nat)
    (attemptLoop W P fuel tools discoveryData 0).
Proof.
  intros Hfuel st. destruct fuel as [| [| fuel]]; [lia | lia |].
  destruct (attemptLoop W P (S (S fuel)) tools discoveryData 0 st) as [r st'] eqn:Hrun.
  cbn [fst snd]. cbn [attemptLoop] in Hrun.
  change (0 <? retryAttempts)%nat with true in Hrun. cbv iota in Hrun.
  unfold bind at 1 in Hrun.
  pose proof (enrichment_iteration (S (S fuel)) 0 st) as [Ht0 Hr0].
  destruct (tryCatch _ _ st) as [[[s | a] | e |] st1]; cbn [fst snd] in *; try easy.
  - cbn in Hrun. injection Hrun as <- <-. left.
    destruct Hr0 as [Hs | [_ Hle]]; [| unfold retryAttempts in Hle; lia].
    split; [exact Hs | lia].
  - cbn in Hr0. subst a. cbn [attemptLoop Nat.add] in Hrun.
    change (1 <? retryAttempts)%nat with true in Hrun. cbv iota in Hrun.
    unfold bind at 1 in Hrun.
    pose proof (enrichment_iteration (S fuel) 1 st1) as [Ht1 Hr1].
    destruct (tryCatch _ _ st1) as [[[s | a] | e |] st2]; cbn [fst snd] in *; try easy.
    + cbn in Hrun. injection Hrun as <- <-.
      destruct Hr1 as [Hs | [Hf _]]; [left | right]; split; try assumption; lia.
    + cbn in Hr1. subst a.
      assert (Hend : (r, st') =
                     (Ok (JSON_stringify P (failedResponse "All attempts failed")), st2))
        by (destruct fuel; cbn in Hrun; unfold ret in Hrun; congruence).
      injection Hend as -> ->. right.
      split; [eexists; split; reflexivity | lia].
Qed.

End EnrichmentRetry.

Section EnrichmentStage.
Import World Calls Logic StageSpec EnrichmentAgent.
Open Scope monad_scope.

Lemma enrichment_stage (W : World.t) (P : Platform) (discoveryData : string) (fuel : nat) :
  (2 <= fuel)%nat ->
  stageBounded P (fun s => (300 < String.length s)%nat)
    (enrichPeopleWithEmailSignals W P fuel discoveryData).
Proof.
  intros Hfuel. unfold enrichPeopleWithEmailSignals. cbv zeta.
  apply (stageBounded_bind P _ (fun _ => True)); [quiet_go | intros ? _].
  apply (stageBounded_bind P _ (fun _ => True)).
  { destruct (0 <? length (extractPeople P discoveryData))%nat; [| quiet_go].
    apply (quiet_bind _ (fun _ => True)); [quiet_go | intros ? _].
    apply quiet_forEachFrom. intros. unfold showDiscovered. quiet_go. }
  intros ? _.
  apply (stageBounded_bind P _ (fun _ => True)); [quiet_go | intros ? _].
  apply (stageBounded_bind P _ (fun _ => True)); [quiet_go | intros ? _].
  apply loopBounded_stage, enrichment_loop, Hfuel.
Qed.

End EnrichmentStage.

Section EmailRetry.
Import World Calls Logic StageSpec EmailWritingAgent.
Open Scope monad_scope.
Variable W : World.t.
Variable P : Platform.

Lemma personalizationLine_fuel points : personalizationLine P points <> OutOfFuel.
Proof. destruct points; cbn; discriminate. Qed.

Lemma showEmail_quiet email index :
  quiet true (fun _ => True) (showEmail W P email index).
Proof.
  unfold showEmail.
  apply (quiet_bind _ (fun _ => True)); [quiet_go | intros ? _].
  apply (quiet_bind _ (fun _ => True)); [quiet_go | intros ? _].
  apply (quiet_bind _ (fun _ => True)); [quiet_go | intros ? _].
  apply (quiet_bind _ (fun _ => True)); [quiet_go | intros ? _].
  apply (quiet_bind _ (fun _ => True)).
  { apply quiet_lift; [apply personalizationLine_fuel | intros; exact I]. }
  intros ? _.
  apply (quiet_bind _ (fun _ => True)); [quiet_go | intros ? _].
  cbv zeta. destruct (truthy _); quiet_go.
Qed.

Variable enrichedData : string.
Variable emailParams : JsVal.
Variable startTime : Z.

Lemma email_try attempt :
  opens 1 true (stepOk P retryAttempts accepted attempt)
    (attemptTry W P enrichedData emailParams startTime attempt).
Proof.
  unfold attemptTry. apply opens_attempt.
  apply (quiet_bind _ (fun _ => True)); [quiet_go | intros ? _].
  apply (quiet_bind _ (fun _ => True)); [quiet_go | intros ? _].
  apply (quiet_bind _ (fun _ => True)); [quiet_go | intros currentTime _].
  apply (quiet_bind _ (fun _ => True)); [quiet_go | intros ? _].
  apply (quiet_bind _ (fun _ => True)); [quiet_go | intros ? _].
  apply (quiet_bind _ (fun _ => True)); [quiet_go | intros response _].
  cbv zeta.
  set (emailContent := match response with
                       | Some am => match am_content am with Some s => s | None => "" end
                       | None => ""
                       end).
  apply (quiet_bind _ (fun _ => True)); [quiet_go | intros finished _].
  destruct (100 <? String.length emailContent)%nat eqn:Hlen.
  - apply (quiet_bind _ (fun _ => True)); [quiet_go | intros ? _].
    apply (quiet_bind _ (fun _ => True)).
    { destruct (0 <? length (extractEmails P emailContent))%nat; [| quiet_go].
      apply (quiet_bind _ (fun _ => True)); [quiet_go | intros ? _].
      apply (quiet_bind _ (fun _ => True)); [| intros ? _; quiet_go].
      apply quiet_forEachFrom. intros. apply showEmail_quiet. }
    intros ? _. destruct (6 <=? validateEmailQuality emailContent)%Z eqn:Hscore.
    + apply (quiet_bind _ (fun _ => True)); [quiet_go | intros ? _].
      apply quiet_ret. left. split; [apply Nat.ltb_lt; exact Hlen | apply Z.leb_le; exact Hscore].
    + apply (quiet_bind _ (fun _ => True)); [quiet_go | intros ? _].
      apply quiet_ret. reflexivity.
  - apply (quiet_bind _ (fun _ => True)); [quiet_go | intros ? _].
    apply quiet_ret. reflexivity.
Qed.

Lemma email_catch attempt e :
  quiet false (stepOk P retryAttempts accepted attempt) (attemptCatch W P emailParams startTime attempt e).
Proof.
  unfold attemptCatch.
  apply (quiet_bind _ (fun _ => True)); [quiet_go | intros ? _].
  cbv zeta. destruct (retryAttempts <=? attempt + 1)%nat eqn:Hlast.
  - apply (quiet_bind _ (fun _ => True)); [quiet_go | intros ? _].
    apply (quiet_bind _ (fun _ => True)); [quiet_go | intros ? _].
    apply quiet_ret. right. split; [| apply Nat.leb_le; exact Hlast].
    eexists. split; reflexivity.
  - apply (quiet_bind _ (fun _ => True)); [quiet_go | intros ? _].
    apply (quiet_bind _ (fun _ => True)); [quiet_go | intros ? _].
    apply quiet_ret. reflexivity.
Qed.

Lemma email_iteration attempt :
  opens 1 false (stepOk P retryAttempts accepted attempt)
    (tryCatch (attemptTry W P enrichedData emailParams startTime attempt)
              (attemptCatch W P emailParams startTime attempt)).
Proof. apply opens_tryCatch; [apply email_try | apply email_catch]. Qed.

Lemma email_loop (fuel : nat) :
  (2 <= fuel)%nat ->
  loopBounded P accepted (attemptLoop W P fuel enrichedData emailParams startTime 0).
Proof.
  intros Hfuel st. destruct fuel as [| [| fuel]]; [lia | lia |].
  destruct (attemptLoop W P (S (S fuel)) enrichedData emailParams startTime 0 st)
    as [r st'] eqn:Hrun.
  cbn [fst snd]. cbn [attemptLoop] in Hrun.
  change (0 <? retryAttempts)%nat with true in Hrun. cbv iota in Hrun.
  unfold bind at 1 in Hrun.
  pose proof (email_iteration 0 st) as [Ht0 Hr0].
  destruct (tryCatch _ _ st) as [[[s | a] | e |] st1]; cbn [fst snd] in *; try easy.
  - cbn in Hrun. injection Hrun as <- <-. left.
    destruct Hr0 as [Hs | [_ Hle]]; [| unfold retryAttempts in Hle; lia].
    split; [exact Hs | lia].
  - cbn in Hr0. subst a. cbn [attemptLoop Nat.add] in Hrun.
    change (1 <? retryAttempts)%nat with true in Hrun. cbv iota in Hrun.
    unfold bind at 1 in Hrun.
    pose proof (email_iteration 1 st1) as [Ht1 Hr1].
    destruct (tryCatch _ _ st1) as [[[s | a] | e |] st2]; cbn [fst snd] in *; try easy.
    + cbn in Hrun. injection Hrun as <- <-.
      destruct Hr1 as [Hs | [Hf _]]; [left | right]; split; try assumption; lia.
    + cbn in Hr1. subst a.
      assert (Hend :
        exists elapsed st3,
          (r, st') =
          (Ok (JSON_stringify P (failedResponse P emailParams "No attempts succeeded" elapsed)),
           st3) /\ trace st3 = trace st2).
      { destruct fuel; cbn in Hrun; unfold bind, dateNow, ret in Hrun; cbn in Hrun;
          injection Hrun as <- <-; eexists _, _; split; reflexivity. }
      destruct Hend as (elapsed & st3 & Heq & Htr). injection Heq as -> ->. right.
      rewrite Htr. split; [eexists; split; reflexivity | lia].
Qed.

End EmailRetry.

Section EmailStage.
Import World Calls Logic StageSpec EmailWritingAgent.
Open Scope monad_scope.

Lemma email_stage (W : World.t) (P : Platform) (enrichedData : string)
    (emailParams : JsVal) (fuel : nat) :
  (2 <= fuel)%nat ->
  stageBounded P accepted (generatePersonalizedEmails W P fuel enrichedData emailParams).
Proof.
  intros Hfuel. unfold generatePersonalizedEmails.
  apply (stageBounded_bind P _ (fun _ => True)); [quiet_go | intros ? _].
  apply (stageBounded_bind P _ (fun _ => True)); [quiet_go | intros ? _].
  apply (stageBounded_bind P _ (fun _ => True)); [quiet_go | intros ? _].
  cbv zeta. apply (stageBounded_bind P _ (fun _ => True)).
  { destruct (0 <? length (extractProfilesForEmail P enrichedData))%nat; [| quiet_go].
    apply (quiet_bind _ (fun _ => True)); [quiet_go | intros ? _].
    apply quiet_forEachFrom. intros. unfold showTarget. quiet_go. }
  intros ? _.
  apply (stageBounded_bind P _ (fun _ => True)); [quiet_go | intros ? _].
  apply (stageBounded_bind P _ (fun _ => True)); [quiet_go | intros startTime _].
  apply loopBounded_stage, email_loop, Hfuel.
Qed.

End EmailStage.

(** ** The retry bound *)

Section RetryBound.
Import World Calls Logic StageSpec.

(** C4. With [retryAttempts = 2], each stage agent opens at most two
    iterations of its retry loop; what it returns is either an answer of
    the model that passed the stage's test or, after exactly two
    iterations, the serialisation of a payload whose status is "failed".
    It throws only before the loop starts, never after an attempt. *)
Theorem retry_bound_respected (W : World.t) (P : Platform) (fuel : nat) :
  (2 <= fuel)%nat ->
  (forall searchQueries request,
     stageBounded P (fun s => (100 < String.length s)%nat)
       (DiscoveryAgent.findBasicPeople W P fuel searchQueries request)) /\
  (forall discoveryData,
     stageBounded P (fun s => (300 < String.length s)%nat)
       (EnrichmentAgent.enrichPeopleWithEmailSignals W P fuel discoveryData)) /\
  (forall enrichedData emailParams,
     stageBounded P accepted
       (EmailWritingAgent.generatePersonalizedEmails W P fuel enrichedData emailParams)).
Proof.
  intros Hfuel. repeat split; intros.
  - apply discovery_stage, Hfuel.
  - apply enrichment_stage, Hfuel.
  - apply email_stage, Hfuel.
Qed.

Lemma retry_bound_respected_witness :
  (2 <= 2)%nat /\
  ((forall searchQueries request,
      stageBounded samplePlatform (fun s => (100 < String.length s)%nat)
        (DiscoveryAgent.findBasicPeople modelDown samplePlatform 2 searchQueries request)) /\
   (forall discoveryData,
      stageBounded samplePlatform (fun s => (300 < String.length s)%nat)
        (EnrichmentAgent.enrichPeopleWithEmailSignals modelDown samplePlatform 2
           discoveryData)) /\
   (forall enrichedData emailParams,
      stageBounded samplePlatform accepted
        (EmailWritingAgent.generatePersonalizedEmails modelDown samplePlatform 2
           enrichedData emailParams))).
Proof.
  split; [lia | apply (retry_bound_respected modelDown samplePlatform 2); lia].
Defined.

(** With the model down, discovery makes its two attempts and returns the
    failed payload. *)
Example discovery_model_down :
  let run := DiscoveryAgent.findBasicPeople modelDown samplePlatform 2
               ["AI founders Seattle"] JNull
               (World.initial (StatusManager.create "s")) in
  run.1 = Ok (JSON_stringify samplePlatform
                (DiscoveryAgent.failedResponse ["AI founders Seattle"]
                   "Unable to find people data after 2 attempts. Error: Error: 503 Service Unavailable")) /\
  attemptsIn (trace run.2) = 2%nat.
Proof. vm_compute. split; reflexivity. Qed.

End RetryBound.

(** ** The discovery batch *)

Section Batch.
Import World Calls Logic BatchSpec DiscoveryAgent.
Open Scope monad_scope.
Variable W : World.t.
Variable P : Platform.

Lemma promiseAll_fulfilled {A} (l : list A) : promiseAll (inr <$> l) = Ok l.
Proof. induction l as [| a l IH]; cbn; [reflexivity |]. rewrite IH. reflexivity. Qed.

Lemma searchOne_run (c : ToolCall) (index : nat) (st : St) :
  wellFormed P c ->
  exists st',
    searchOne W P c index st =
      (Ok (inr (toolMessage c (searchBody P (callTool W (nTool st))))), st') /\
    trace st' = trace st ++ [EvCallTool "search_engine" (parsedArgs P c)] /\
    nTool st' = S (nTool st) /\ nChat st' = nChat st.
Proof.
  intros (args & query & Hparse & Hquery). unfold searchOne, parsedArgs.
  rewrite Hparse, Hquery. cbn [default]. unfold bind at 1.
  match goal with
  | |- context [updateProgress W ?p ?m ?pr st] =>
      destruct (updateProgress_silent W p m pr st) as ([] & st1 & -> & Ht & Hn & _ & Hk)
  end.
  unfold bind, callToolCall. rewrite Hk.
  destruct (callTool W (nTool st)); cbn; eexists; (split; [reflexivity |]); cbn;
    rewrite ?Ht, ?Hk, ?Hn; auto.
Qed.

Lemma searchAllFrom_run (calls : list ToolCall) :
  Forall (wellFormed P) calls ->
  forall (index : nat) (st : St),
  exists st',
    searchAllFrom W P index calls st = (Ok (inr <$> searchResults W P (nTool st) calls), st') /\
    trace st' = trace st ++ dispatched P calls /\
    nTool st' = nTool st + length calls /\ nChat st' = nChat st.
Proof.
  induction 1 as [| c rest Hc Hrest IH]; intros index st.
  - exists st. cbn. rewrite app_nil_r. auto.
  - cbn [searchAllFrom]. unfold bind at 1.
    destruct (searchOne_run c index st Hc) as (st1 & -> & Ht1 & Hk1 & Hn1).
    unfold bind at 1.
    destruct (IH (S index) st1) as (st2 & -> & Ht2 & Hk2 & Hn2).
    exists st2. cbn. rewrite Hk1. split; [reflexivity |].
    rewrite Ht2, Ht1, Hk2, Hk1, Hn2, Hn1, <- app_assoc. cbn. repeat split; lia.
Qed.

Lemma searchResults_length from calls : length (searchResults W P from calls) = length calls.
Proof. revert from. induction calls as [| c rest IH]; intros from; cbn; [| rewrite IH]; reflexivity. Qed.

Lemma searchResults_lookup from calls i c :
  calls !! i = Some c ->
  searchResults W P from calls !! i =
    Some (toolMessage c (searchBody P (callTool W (from + i)))).
Proof.
  revert from i. induction calls as [| c0 rest IH]; intros from i Hi; [discriminate |].
  destruct i as [| i]; cbn [searchResults lookup list_lookup] in *.
  - injection Hi as ->. rewrite Nat.add_0_r. reflexivity.
  - replace (from + S i) with (S from + i) by lia. apply IH. exact Hi.
Qed.

(** The batch of a model turn whose calls all carry readable arguments:
    every call is dispatched, the conversation sent to the compilation
    call holds one tool result per call, an error string exactly for the
    calls that failed, and the compilation call is made. *)
Lemma search_batch_complete (messages : list Message) (am : AssistantMessage)
    (tools : list string) (c : ToolCall) (cs : list ToolCall) (st : St) :
  am_tool_calls am = Some (c :: cs) ->
  Forall (wellFormed P) (c :: cs) ->
  exists st',
    handleSearchAndReturn W P messages (Some am) tools st =
      (match chat W (nChat st) with
       | ChatThrows e => Throw e
       | ChatReplies m => Ok (contentOrEmpty m)
       end, st') /\
    trace st' =
      trace st ++ dispatched P (c :: cs) ++
      [EvChat (messages ++ [assistantEntry am] ++
               searchResults W P (nTool st) (c :: cs) ++ [compileRequest]) []] /\
    length (searchResults W P (nTool st) (c :: cs)) = length (c :: cs) /\
    (forall i call, (c :: cs) !! i = Some call ->
       searchResults W P (nTool st) (c :: cs) !! i =
         Some (toolMessage call (searchBody P (callTool W (nTool st + i))))).
Proof.
  intros Hcalls Hwf. unfold handleSearchAndReturn. rewrite Hcalls. cbv zeta.
  unfold bind at 1.
  match goal with
  | |- context [updateProgress W ?p ?m ?pr st] =>
      destruct (updateProgress_silent W p m pr st) as ([] & st1 & -> & Ht1 & Hn1 & _ & Hk1)
  end.
  unfold bind at 1.
  destruct (searchAllFrom_run (c :: cs) Hwf 0 st1) as (st2 & -> & Ht2 & Hk2 & Hn2).
  unfold bind at 1, lift at 1. rewrite promiseAll_fulfilled.
  unfold bind at 1.
  match goal with
  | |- context [updateProgress W ?p ?m ?pr st2] =>
      destruct (updateProgress_silent W p m pr st2) as ([] & st3 & -> & Ht3 & Hn3 & _ & Hk3)
  end.
  unfold bind, chatCreate. rewrite Hn3, Hn2, Hn1, Hk1.
  eexists. split.
  - destruct (chat W (nChat st)); reflexivity.
  - split; [| split; [apply searchResults_length | intros; apply searchResults_lookup; assumption]].
    unfold assistantEntry. rewrite Hcalls.
    destruct (chat W (nChat st)); cbn [trace snd]; rewrite Ht3, Ht2, Ht1, <- !app_assoc;
      reflexivity.
Qed.

End Batch.

Section BatchExamples.
Import World Calls Logic BatchSpec DiscoveryAgent.

Lemma search_batch_complete_witness :
  (am_tool_calls (turn [goodCall1; goodCall2]) = Some [goodCall1; goodCall2] /\
   Forall (wellFormed searchPlatform) [goodCall1; goodCall2]) /\
  exists st',
    handleSearchAndReturn searchWorld searchPlatform [] (Some (turn [goodCall1; goodCall2]))
      ["search_engine"] (World.initial (StatusManager.create "s")) =
      (Ok "{ people: [] }", st') /\
    (List.filter isSearchError
       (searchResults searchWorld searchPlatform 0 [goodCall1; goodCall2]) =
     [toolMessage goodCall2 "Search Error: 429 rate limited"]).
Proof.
  assert (Hwf : Forall (wellFormed searchPlatform) [goodCall1; goodCall2]).
  { repeat constructor; eexists _, _; split; vm_compute; reflexivity. }
  split; [split; [reflexivity | exact Hwf] |].
  destruct (search_batch_complete searchWorld searchPlatform [] (turn [goodCall1; goodCall2])
              ["search_engine"] goodCall1 [goodCall2]
              (World.initial (StatusManager.create "s")) eq_refl Hwf)
    as (st' & Hrun & _).
  exists st'. split; [exact Hrun | vm_compute; reflexivity].
Defined.

(** C5, at a batch with one unreadable argument text: the two readable
    calls are dispatched, but the rejected promise of the third makes
    [Promise.all] reject: the function throws, and neither the tool results
    nor the compilation call follow. *)
Theorem malformed_arguments_abort_batch :
  let run := handleSearchAndReturn searchWorld searchPlatform []
               (Some (turn [goodCall1; brokenCall; goodCall2])) ["search_engine"]
               (World.initial (StatusManager.create "s")) in
  run.1 = Throw (SyntaxError "Unexpected token in JSON") /\
  trace run.2 =
    [EvCallTool "search_engine" (JObj [("query", JStr "AI founders Seattle")]);
     EvCallTool "search_engine" (JObj [("query", JStr "Seattle AI startups CEO")])] /\
  List.filter (fun e => match e with EvChat _ _ => true | _ => false end) (trace run.2) = [].
Proof. vm_compute. repeat split; reflexivity. Qed.

End BatchExamples.

(** ** Phase records along a pipeline run *)

Section PhaseRecords.
Import World StatusManager RunSpec.

(** C1, at a run whose discovery stage throws in both attempts because the
    tool gateway cannot be reached: when the second attempt calls
    [startPhase('planning')] (the eighteenth status-manager state of the
    run), the discovery record left behind by the first attempt is still
    [in_progress], so two records are [in_progress] at once. *)
Theorem retry_starts_planning_while_discovery_in_progress :
  let run := MasterOrchestratorAgent.executeQuery gatewayDown samplePlatform 2 sampleQuery
               (World.initial (StatusManager.on "update" (StatusManager.create "s"))) in
  phaseStatuses <$> (snapshots run.2 !! 16%nat) =
    Some [Some completed; Some in_progress; Some pending; Some pending] /\
  phaseStatuses <$> (snapshots run.2 !! 17%nat) =
    Some [Some in_progress; Some in_progress; Some pending; Some pending] /\
  (countStatus in_progress <$> (snapshots run.2 !! 17%nat)) = Some 2%nat /\
  (currentPhase <$> (snapshots run.2 !! 17%nat)) = Some (Some "planning").
Proof. vm_compute. repeat split; reflexivity. Qed.

(** C2, at the same failing gateway and a status manager that has an
    ['error'] listener: [executeQuery] returns its failure result after the
    second attempt, and the phase records are then neither all completed
    nor is any of them failed: discovery is still [in_progress]. *)
Theorem exhausted_run_leaves_discovery_in_progress :
  let run := MasterOrchestratorAgent.executeQuery gatewayDown samplePlatform 2 sampleQuery
               (World.initial (StatusManager.on "error" (StatusManager.create "s"))) in
  (MasterOrchestratorAgent.success <$>
     match run.1 with Ok r => Some r | _ => None end) = Some false /\
  (MasterOrchestratorAgent.lastError <$>
     match run.1 with Ok r => Some r | _ => None end) = Some (Some "MCP connection timeout") /\
  phaseStatuses (sm run.2) =
    [Some completed; Some in_progress; Some pending; Some pending] /\
  countStatus failed (sm run.2) = 0%nat /\
  countStatus in_progress (sm run.2) = 1%nat /\
  overallStatus (getSummary (sm run.2)) = in_progress.
Proof. vm_compute. repeat split; reflexivity. Qed.

(** Without an ['error'] listener the same run does not return at all: the
    ['error'] event emitted by [failPhase] is thrown by the emitter. *)
Example exhausted_run_throws_without_listener :
  (MasterOrchestratorAgent.executeQuery gatewayDown samplePlatform 2 sampleQuery
     (World.initial (StatusManager.on "update" (StatusManager.create "s")))).1 =
  Throw (Error "Unhandled error.").
Proof. vm_compute. reflexivity. Qed.

End PhaseRecords.

(** ** Termination of the pipeline *)

Section Yields.
Import World Calls Logic StageSpec.
Open Scope monad_scope.

Lemma yields_ret {A} (R : A -> Prop) (a : A) : R a -> yields R (ret a).
Proof. intros Ha st. exact Ha. Qed.

Lemma yields_throw {A} (R : A -> Prop) e : yields R (throw e).
Proof. intros st. exact I. Qed.

Lemma yields_bind {A B} (R1 : A -> Prop) (R2 : B -> Prop) (c : M A) (k : A -> M B) :
  yields R1 c -> (forall a, R1 a -> yields R2 (k a)) -> yields R2 (bind c k).
Proof.
  intros Hc Hk st. specialize (Hc st). unfold bind.
  destruct (c st) as [[a | e |] st1]; cbn in *; [apply Hk, Hc | exact I | exact Hc].
Qed.

Lemma yields_tryCatch {A} (R : A -> Prop) (body : M A) (h : Exn -> M A) :
  yields R body -> (forall e, yields R (h e)) -> yields R (tryCatch body h).
Proof.
  intros Hb Hh st. specialize (Hb st). unfold tryCatch.
  destruct (body st) as [[a | e |] st1]; cbn in *; [exact Hb | apply Hh | exact Hb].
Qed.

Lemma yields_lift {A} (r : Res A) : r <> OutOfFuel -> yields (fun _ => True) (lift r).
Proof. intros Hr st. unfold lift; cbn. destruct r; auto. Qed.

Lemma quiet_yields {A} b (R : A -> Prop) (c : M A) : quiet b R c -> yields R c.
Proof.
  intros Hc st. destruct (Hc st) as [_ Hr]. destruct ((c st).1); [exact Hr | exact I | exact Hr].
Qed.

Lemma silent_yields {A} (c : M A) : silent c -> yields (fun _ => True) c.
Proof. intros Hc. apply (quiet_yields false), silent_quiet, Hc. Qed.

Lemma stageBounded_yields P sufficient (c : M string) :
  stageBounded P sufficient c -> yields (fun _ => True) c.
Proof.
  intros Hc st. specialize (Hc st). destruct ((c st).1); [exact I | exact I | exact Hc].
Qed.

Lemma yields_terminates {A} (R : A -> Prop) (c : M A) : yields R c -> terminates c.
Proof.
  intros Hc st. specialize (Hc st). destruct ((c st).1); [discriminate | discriminate | tauto].
Qed.

Lemma emitEvent_yields e : yields (fun _ => True) (emitEvent e).
Proof. intros st. exact I. Qed.

Lemma statusCall_yields W f :
  (forall s m, (f s m).1 <> OutOfFuel) -> yields (fun _ => True) (statusCall W f).
Proof.
  intros Hf st. unfold statusCall.
  specialize (Hf (clock W (nClock st)) (sm st)).
  destruct (f (clock W (nClock st)) (sm st)) as [[[] | e |] m]; cbn in *; tauto.
Qed.

Lemma emit_fuel event m : StatusManager.emit event m <> OutOfFuel.
Proof.
  unfold StatusManager.emit.
  destruct (decide (event = "error")); [destruct (decide _) |]; discriminate.
Qed.

Lemma failPhase_yields W P phase message err :
  yields (fun _ => True) (failPhase W P phase message err).
Proof. apply statusCall_yields. intros. apply emit_fuel. Qed.

End Yields.

Create HintDb yields.
#[export] Hint Resolve silent_yields updateInfo_silent updateProgress_silent
  updateData_silent updateSuccess_silent startPhase_silent completePhase_silent
  dateNow_silent dateIso_silent getStatusManager_silent ret_silent
  yields_throw failPhase_yields getProp_fuel : yields.

Ltac yields_go :=
  cbv zeta beta;
  lazymatch goal with
  | |- Logic.yields _ (World.bind _ _) =>
      apply (yields_bind (fun _ => True)); [yields_go | intros ? _; yields_go]
  | |- Logic.yields _ (World.ret _) => apply yields_ret; try exact I
  | |- Logic.yields _ (World.throw _) => apply yields_throw
  | |- Logic.yields _ (World.tryCatch _ _) =>
      apply yields_tryCatch; [yields_go | intros ?; yields_go]
  | |- Logic.yields _ (if ?c then _ else _) => destruct c eqn:?; yields_go
  | |- Logic.yields _ (match ?x with _ => _ end) => destruct x eqn:?; yields_go
  | |- _ => try solve [auto with yields]
  end.

Section PipelineTermination.
Import World Calls Logic StageSpec MasterOrchestratorAgent.
Open Scope monad_scope.
Variable W : World.t.
Variable P : Platform.

Lemma parseText_fuel text : parseText P text <> OutOfFuel.
Proof. unfold parseText. destruct (JSON_parse P text); discriminate. Qed.

Lemma rejected_fuel parsed key : rejected parsed key <> OutOfFuel.
Proof.
  unfold rejected. pose proof (getProp_fuel parsed "status").
  destruct (getProp parsed "status"); [discriminate | discriminate | contradiction].
Qed.

Lemma firstThree_fuel what items : firstThree what items <> OutOfFuel.
Proof. destruct items; discriminate. Qed.

Lemma linesFrom_fuel line items index :
  (forall x i, line x i <> OutOfFuel) -> linesFrom index line items <> OutOfFuel.
Proof.
  intros Hline. revert index. induction items as [| x rest IH]; intros index; cbn.
  - discriminate.
  - specialize (Hline x index). destruct (line x index); [| discriminate | contradiction].
    specialize (IH (S index)). destruct (linesFrom (S index) line rest);
      [discriminate | discriminate | contradiction].
Qed.

Lemma personLine_fuel p i : personLine P p i <> OutOfFuel.
Proof.
  unfold personLine. pose proof (getProp_fuel p "name").
  destruct (getProp p "name"); [discriminate | discriminate | contradiction].
Qed.

Lemma insightLine_fuel p i : insightLine P p i <> OutOfFuel.
Proof.
  unfold insightLine. pose proof (getProp_fuel p "name").
  destruct (getProp p "name"); [discriminate | discriminate | contradiction].
Qed.

Lemma emailLine_fuel p i : emailLine P p i <> OutOfFuel.
Proof.
  unfold emailLine. pose proof (getProp_fuel p "recipientName").
  destruct (getProp p "recipientName"); [discriminate | discriminate | contradiction].
Qed.

Lemma checkDiscovery_yields result duration :
  yields (fun _ => True) (checkDiscovery W P result duration).
Proof.
  unfold checkDiscovery. apply yields_tryCatch; [| intros e; yields_go].
  apply (yields_bind (fun _ => True)); [apply yields_lift, parseText_fuel | intros data _].
  apply (yields_bind (fun _ => True)); [apply yields_lift, rejected_fuel | intros bad _].
  destruct bad; [yields_go |]. cbv zeta.
  apply (yields_bind (fun _ => True)); [apply yields_lift, firstThree_fuel | intros shown _].
  apply (yields_bind (fun _ => True)).
  { apply yields_lift, linesFrom_fuel, personLine_fuel. }
  intros lines _. yields_go.
Qed.

Lemma checkEnrichment_yields result duration :
  yields (fun _ => True) (checkEnrichment W P result duration).
Proof.
  unfold checkEnrichment. apply yields_tryCatch; [| intros e; yields_go].
  apply (yields_bind (fun _ => True)); [apply yields_lift, parseText_fuel | intros data _].
  apply (yields_bind (fun _ => True)); [apply yields_lift, rejected_fuel | intros bad _].
  destruct bad; [yields_go |]. cbv zeta.
  apply (yields_bind (fun _ => True)); [apply yields_lift, firstThree_fuel | intros shown _].
  apply (yields_bind (fun _ => True)).
  { apply yields_lift, linesFrom_fuel, insightLine_fuel. }
  intros lines _. yields_go.
Qed.

Lemma checkEmails_yields result duration :
  yields (fun _ => True) (checkEmails W P result duration).
Proof.
  unfold checkEmails. apply yields_tryCatch; [| intros e; yields_go].
  apply (yields_bind (fun _ => True)); [apply yields_lift, parseText_fuel | intros data _].
  apply (yields_bind (fun _ => True)); [apply yields_lift, rejected_fuel | intros bad _].
  destruct bad; [yields_go |]. cbv zeta.
  apply (yields_bind (fun _ => True)); [apply yields_lift, firstThree_fuel | intros shown _].
  apply (yields_bind (fun _ => True)).
  { apply yields_lift, linesFrom_fuel, emailLine_fuel. }
  intros lines _. yields_go.
Qed.

Lemma planning_yields userQuery :
  yields (fun _ => True) (generateSearchQueriesAndPlan W P userQuery).
Proof.
  intros st. destruct (planning_run W P userQuery st) as (plan & st' & -> & _). exact I.
Qed.

Lemma pipeline_attemptTry_yields fuel userQuery start attempt :
  (2 <= fuel)%nat ->
  yields (fun _ => True) (attemptTry W P fuel userQuery start attempt).
Proof.
  intros Hfuel. unfold attemptTry.
  apply (yields_bind (fun _ => True)); [apply emitEvent_yields | intros ? _].
  apply (yields_bind (fun _ => True)); [yields_go | intros ? _].
  apply (yields_bind (fun _ => True)); [yields_go | intros ? _].
  apply (yields_bind (fun _ => True)); [apply planning_yields | intros plan _].
  apply (yields_bind (fun _ => True)); [yields_go | intros ? _].
  apply (yields_bind (fun _ => True)); [yields_go | intros ? _].
  apply (yields_bind (fun _ => True)); [yields_go | intros ? _].
  apply (yields_bind (fun _ => True)).
  { eapply stageBounded_yields, discovery_stage, Hfuel. }
  intros discoveryResult _.
  apply (yields_bind (fun _ => True)); [yields_go | intros ? _]. cbv zeta.
  apply (yields_bind (fun _ => True)); [apply checkDiscovery_yields | intros ? _].
  apply (yields_bind (fun _ => True)); [yields_go | intros ? _].
  apply (yields_bind (fun _ => True)); [yields_go | intros ? _].
  apply (yields_bind (fun _ => True)).
  { eapply stageBounded_yields, enrichment_stage, Hfuel. }
  intros enrichmentResult _.
  apply (yields_bind (fun _ => True)); [yields_go | intros ? _]. cbv zeta.
  apply (yields_bind (fun _ => True)); [apply checkEnrichment_yields | intros ? _].
  apply (yields_bind (fun _ => True)); [yields_go | intros ? _].
  apply (yields_bind (fun _ => True)); [yields_go | intros ? _].
  apply (yields_bind (fun _ => True)).
  { eapply stageBounded_yields, email_stage, Hfuel. }
  intros emailResult _.
  apply (yields_bind (fun _ => True)); [yields_go | intros ? _]. cbv zeta.
  apply (yields_bind (fun _ => True)); [apply checkEmails_yields | intros ? _].
  apply (yields_bind (fun _ => True)); [yields_go | intros ? _]. cbv zeta.
  apply (yields_bind (fun _ => True)); [yields_go | intros ? _].
  apply (yields_bind (fun _ => True)); [yields_go | intros ? _].
  apply (yields_bind (fun _ => True)); [yields_go | intros ? _].
  apply yields_ret. exact I.
Qed.

Lemma pipeline_attemptCatch_yields start attempt e :
  yields (nextAttempt retryAttempts attempt) (attemptCatch W P start attempt e).
Proof.
  unfold attemptCatch. destruct (attempt <? retryAttempts)%nat eqn:Hlt.
  - apply (yields_bind (fun _ => True)); [yields_go | intros ? _].
    apply (yields_bind (fun _ => True)); [apply emitEvent_yields | intros ? _].
    apply yields_ret. split; [reflexivity | apply Nat.ltb_lt; exact Hlt].
  - apply (yields_bind (fun _ => True)); [yields_go | intros ? _].
    apply (yields_bind (fun _ => True)); [yields_go | intros ? _].
    apply (yields_bind (fun _ => True)); [yields_go | intros ? _].
    apply (yields_bind (fun _ => True)); [yields_go | intros ? _].
    apply yields_ret. exact I.
Qed.

Lemma pipeline_iteration_yields fuel userQuery start attempt :
  (2 <= fuel)%nat ->
  yields (nextAttempt retryAttempts attempt)
    (tryCatch
       (let* r := attemptTry W P fuel userQuery start attempt in ret (Return r))
       (attemptCatch W P start attempt)).
Proof.
  intros Hfuel. apply yields_tryCatch; [| apply pipeline_attemptCatch_yields].
  apply (yields_bind (fun _ => True)); [apply pipeline_attemptTry_yields, Hfuel |].
  intros r _. apply yields_ret. exact I.
Qed.

Lemma pipelineLoop_terminates fuel agentFuel userQuery start :
  (2 <= fuel)%nat -> (2 <= agentFuel)%nat ->
  terminates (pipelineLoop W P fuel agentFuel userQuery start 1).
Proof.
  intros Hfuel Hagent st. destruct fuel as [| [| fuel]]; [lia | lia |].
  cbn [pipelineLoop]. change (1 <=? retryAttempts)%nat with true. cbv iota.
  unfold bind at 1.
  pose proof (pipeline_iteration_yields agentFuel userQuery start 1 Hagent st) as H1.
  destruct (tryCatch _ _ st) as [[[r | a] | e |] st1]; cbn [fst snd] in *;
    [discriminate | | discriminate | contradiction].
  destruct H1 as [-> _]. cbn [pipelineLoop Nat.add].
  change (2 <=? retryAttempts)%nat with true. cbv iota. unfold bind at 1.
  pose proof (pipeline_iteration_yields agentFuel userQuery start 2 Hagent st1) as H2.
  destruct (tryCatch _ _ st1) as [[[r | a] | e |] st2]; cbn [fst snd] in *;
    [discriminate | | discriminate | contradiction].
  destruct H2 as [_ Hlt]. unfold retryAttempts in Hlt. lia.
Qed.

Lemma executeQuery_terminates fuel userQuery :
  (2 <= fuel)%nat -> terminates (executeQuery W P fuel userQuery).
Proof.
  intros Hfuel. unfold executeQuery.
  apply bind_terminates.
  { eapply yields_terminates, silent_yields, updateInfo_silent. }
  intros _. apply bind_terminates.
  { eapply yields_terminates, silent_yields, dateNow_silent. }
  intros start. apply pipelineLoop_terminates; exact Hfuel.
Qed.

End PipelineTermination.

(** ** The event stream *)

Section Stream.
Import World Api StreamSpec.
Variable W : World.t.
Variable P : Platform.
Variable T : Transport.
Hypothesis Hconnected : connected T.

Lemma sendSSEData_connected payload conn :
  sendSSEData T payload conn =
    (Ok tt,
     {| chunks := chunks conn ++ [EventMessage payload]; tests := S (tests conn);
        writes := S (writes conn); responseSent := responseSent conn;
        timers := timers conn; captured := captured conn |}).
Proof.
  destruct Hconnected as (_ & Hw & Ht). unfold sendSSEData.
  rewrite Hw, Ht. reflexivity.
Qed.

Lemma onUpdate_connected u conn :
  responseSent conn = false ->
  exists c,
    chunks (onUpdate T u conn) = chunks conn ++ [c] /\ isStatusChunk c /\
    responseSent (onUpdate T u conn) = false /\
    timers (onUpdate T u conn) = timers conn.
Proof.
  intros Hsent. unfold onUpdate. cbv zeta.
  set (conn' := if truthy (StatusManager.su_data u) then _ else conn).
  assert (Hsame : chunks conn' = chunks conn /\ responseSent conn' = false /\
                  timers conn' = timers conn).
  { subst conn'. destruct (truthy (StatusManager.su_data u)); [| auto].
    repeat match goal with
           | |- context [if ?b then _ else _] => destruct b
           end; cbn; auto. }
  destruct Hsame as (Hc & Hr & Ht). rewrite Hr.
  rewrite sendSSEData_connected. cbn. rewrite Hc, Hr, Ht.
  eexists. repeat split.
Qed.

Lemma deliver_connected us seen conn :
  responseSent conn = false ->
  exists cs,
    chunks (deliver T seen us conn) = chunks conn ++ cs /\ Forall isStatusChunk cs /\
    responseSent (deliver T seen us conn) = false /\
    timers (deliver T seen us conn) = timers conn.
Proof.
  destruct Hconnected as (Hclosed & _).
  revert seen conn. induction us as [| u rest IH]; intros seen conn Hsent;
    cbn [deliver]; rewrite Hclosed.
  - exists []. rewrite app_nil_r. auto.
  - destruct (onUpdate_connected u conn Hsent) as (c & Hc & Hstatus & Hr & Ht).
    destruct (IH (S seen) (onUpdate T u conn) Hr) as (cs & Hcs & Hall & Hr' & Ht').
    exists (c :: cs). rewrite Hcs, Hc, <- app_assoc. cbn.
    repeat split; [constructor; assumption | exact Hr' | congruence].
Qed.

Lemma sendOutcome_connected payload fallback conn :
  responseSent conn = false -> timers conn = 0%nat ->
  chunks (fireTimers T (timers (sendOutcome T payload fallback conn))
            (sendOutcome T payload fallback conn)) =
  chunks conn ++ [EventMessage payload; EventDone; StreamEnd].
Proof.
  intros Hsent Htimers. unfold sendOutcome. rewrite Hsent, sendSSEData_connected.
  cbn. rewrite Htimers. cbn. unfold endSSEStream.
  destruct Hconnected as (_ & Hw & _). rewrite Hw. cbn.
  rewrite <- !app_assoc. reflexivity.
Qed.

(** C9. For a POST request with a query, served to a client that stays
    connected, the response is the stream head, status updates only, then
    one outcome event (the final result, or an error), then the [done]
    sentinel, and only then the end of the stream. *)
Theorem stream_ends_with_outcome_and_done (fuel : nat) (sid : string)
    (generatedAt : nat -> string) (query : string) :
  (2 <= fuel)%nat ->
  query <> EmptyString ->
  exists updates outcome,
    handler W P T fuel sid generatedAt {| method := "POST"; body := Some query |} =
      [Head; Comment "connection established"] ++ updates ++
      [EventMessage outcome; EventDone; StreamEnd] /\
    Forall isStatusChunk updates /\ isOutcome outcome.
Proof.
  intros Hfuel Hquery. unfold handler. cbn [method body].
  change (String.eqb "POST" "OPTIONS") with false.
  change (String.eqb "POST" "POST") with true. cbn [negb].
  destruct (String.eqb_spec query EmptyString) as [Heq | _]; [contradiction |].
  cbv zeta. rewrite sendSSEData_connected. cbn [snd].
  pose proof (executeQuery_terminates W P fuel query Hfuel
                (World.initial (StatusManager.on "update" (StatusManager.create sid))))
    as Hterm.
  destruct (MasterOrchestratorAgent.executeQuery W P fuel query _) as [outcome st].
  cbn [fst] in Hterm.
  match goal with
  | |- context [deliver T 0 ?us ?c] =>
      destruct (deliver_connected us 0 c eq_refl) as (cs & Hcs & Hall & Hr & Ht);
      set (conn := deliver T 0 us c) in *
  end.
  cbn in Hcs, Ht.
  destruct outcome as [masterResult | e |]; [| | contradiction].
  - rewrite Hr.
    match goal with
    | |- context [sendOutcome T ?p ?f conn] =>
        rewrite (sendOutcome_connected p f conn Hr Ht); exists (EventMessage
          (StatusUpdateMsg "planning" "Starting agent process..." (Some 0%Z)
             "Initializing systems" JUndef) :: cs), p
    end.
    rewrite Hcs. cbn. repeat split. constructor; [exact I | exact Hall].
  - match goal with
    | |- context [sendOutcome T ?p ?f conn] =>
        rewrite (sendOutcome_connected p f conn Hr Ht); exists (EventMessage
          (StatusUpdateMsg "planning" "Starting agent process..." (Some 0%Z)
             "Initializing systems" JUndef) :: cs), p
    end.
    rewrite Hcs. cbn. repeat split. constructor; [exact I | exact Hall].
Qed.

End Stream.

Section StreamExamples.
Import World Api StreamSpec.

Lemma stream_ends_with_outcome_and_done_witness :
  connected steadyClient /\ (2 <= 2)%nat /\ sampleQuery <> EmptyString /\
  exists updates outcome,
    handler gatewayDown samplePlatform steadyClient 2 "s" sampleClock
      {| method := "POST"; body := Some sampleQuery |} =
      [Head; Comment "connection established"] ++ updates ++
      [EventMessage outcome; EventDone; StreamEnd] /\
    Forall isStatusChunk updates /\ isOutcome outcome.
Proof.
  assert (Hc : connected steadyClient) by (repeat split).
  assert (Hq : sampleQuery <> EmptyString) by discriminate.
  split; [exact Hc |]. split; [lia |]. split; [exact Hq |].
  apply (stream_ends_with_outcome_and_done gatewayDown samplePlatform steadyClient Hc
           2 "s" sampleClock sampleQuery); [lia | exact Hq].
Defined.

End StreamExamples.

(** ** Prospects *)

Section Prospects.
Import Api ProspectSpec.
Variable generatedAt : nat -> string.





End Prospects.

Section ProspectExamples.
Import Api ProspectSpec.


(** Two emails, one discovered person, no enrichment: two prospects; the
    second takes its name and company from the email and the defaults for
    what only discovery or enrichment could have supplied. *)
Example prospects_with_short_arrays :
  let prospects :=
    transformCapturedDataToProspects sampleClock
      (capturedOf (JArr [sampleEmail "Ada Park" "Rainier AI"; JObj []])
         (JArr [samplePerson "Ada Park" "Rainier AI" "CEO"]) (JArr [])) in
  length prospects = 2%nat /\
  (fun p => (getPropOpt p "name", getPropOpt p "company", getPropOpt p "role",
             getPropOpt p "location", getPropOpt p "linkedInUrl")) <$> prospects =
    [(JStr "Ada Park", JStr "Rainier AI", JStr "CEO", JStr EmptyString, JNull);
     (JStr "Person 2", JStr "Unknown Company", JStr "Professional", JStr EmptyString, JNull)].
Proof. vm_compute. split; reflexivity. Qed.

(** No captured email, many discovered people: no prospect. *)
Example prospects_without_emails :
  transformCapturedDataToProspects sampleClock
    (capturedOf (JArr [])
       (JArr [samplePerson "Ada Park" "Rainier AI" "CEO";
              samplePerson "Bo Lind" "Sound ML" "CTO"])
       (JArr [])) = [].
Proof. reflexivity. Qed.

End ProspectExamples.

Section FinalResult.
Import World Api StreamSpec ProspectSpec.
Variable W : World.t.
Variable P : Platform.
Variable T : Transport.
Variable generatedAt : nat -> string.





Lemma setResponseSent_keeps conn :
  chunks (setResponseSent conn) = chunks conn /\
  captured (setResponseSent conn) = captured conn /\
  timers (setResponseSent conn) = timers conn.
Proof. auto. Qed.




End FinalResult.

Section ProspectsClaim.
Import World Api StreamSpec ProspectSpec.


End ProspectsClaim.

(** ** Whole runs on sample worlds *)

Section SampleRuns.
Import World StatusManager RunSpec Api StreamSpec.

(** When every stage succeeds at the first attempt the run returns a
    success, all four records end completed, and no status-manager state
    along the run has more than one record in progress. *)
Example happy_run_completes_all_phases :
  let run := MasterOrchestratorAgent.executeQuery happyWorld happyPlatform 2 sampleQuery
               (World.initial (StatusManager.on "update" (StatusManager.create "s"))) in
  (MasterOrchestratorAgent.success <$>
     match run.1 with Ok r => Some r | _ => None end) = Some true /\
  phaseStatuses (sm run.2) =
    [Some completed; Some completed; Some completed; Some completed] /\
  overallStatus (getSummary (sm run.2)) = completed /\
  forallb (fun m => (countStatus in_progress m <=? 1)%nat) (snapshots run.2) = true.
Proof. vm_compute. repeat split; reflexivity. Qed.

(** The route on the happy world: a final result with two prospects, then
    the sentinel. *)
Example happy_stream :
  outcomesOf (handler happyWorld happyPlatform steadyClient 2 "s" sampleClock
                {| method := "POST"; body := Some sampleQuery |}) =
  ["final-result 2"; "done"; "end"].
Proof. vm_compute. reflexivity. Qed.

(** The route with the gateway down: the run throws, the client gets an
    error event, then the sentinel. *)
Example gateway_down_stream :
  outcomesOf (handler gatewayDown samplePlatform steadyClient 2 "s" sampleClock
                {| method := "POST"; body := Some sampleQuery |}) =
  ["error Unhandled error."; "done"; "end"].
Proof. vm_compute. reflexivity. Qed.

(** A client that goes away after five status updates gets neither
    outcome nor sentinel. *)
Example disconnected_stream :
  outcomesOf (handler happyWorld happyPlatform
                {| writableAt := fun n => (n <? 6)%nat; writeThrowsAt := fun _ => false;
                   closedAfter := Some 5%nat |}
                2 "s" sampleClock {| method := "POST"; body := Some sampleQuery |}) = [].
Proof. vm_compute. reflexivity. Qed.

Example fallback_plan_for_yc_bangalore :
  MasterOrchestratorAgent.searchQueries
    (MasterOrchestratorAgent.createFallbackPlan "YC founders in Bangalore") =
  ["Y Combinator alumni founders";
   "YC startup founders contact";
   "Bangalore startup founders contact";
   "AI SaaS startup founders Bangalore";
   "tech entrepreneurs Bangalore LinkedIn";
   "startup founders contact information";
   "tech company CEO contact details";
   "successful startup founders LinkedIn"].
Proof. vm_compute. reflexivity. Qed.

Example quality_scores :
  EmailWritingAgent.validateEmailQuality goodAnswer = 10%Z /\
  EmailWritingAgent.validateEmailQuality "I hope this finds you well." = 2%Z /\
  EmailWritingAgent.validateEmailQuality
    ("Hope this finds you well. Saw Your post about the 3 launches. " +:+
     repeatText 3 "Happy to share details whenever it suits you. ") = 8%Z.
Proof. vm_compute. repeat split; reflexivity. Qed.

End SampleRuns.
